(** * B/W image colorizer: backend service and U-Net

    A shallow embedding of [src/backend/model.py] (the encoder-decoder
    network and [lab_denormalize]) and of [src/backend/app.py] (the
    checkpoint-loading block run at import time, [preprocess_image] and the
    [/colorize] handler), followed by the properties of the written
    specification that have been checked against them.

    Conventions.
    - Python [int]s and tensor sizes are [Z]; [//] is [Z.div] (both round
      towards minus infinity for the positive divisors used here).
    - A tensor or array is its [shape] together with an opaque payload.  The
      floating-point kernels of the libraries (convolutions, normalisation,
      colour conversion, resampling, codecs) are the methods of the class
      [Kernels]; everything the code itself decides (shapes, control flow,
      exceptions, module state, global bindings) is written out.
    - A Python call that may raise returns a [PyResult]; code that mutates
      an object threads it explicitly ([M S A]); the mutation made before an
      exception is raised is kept. *)

From Stdlib Require Import ZArith QArith Qminmax Lia.
From stdpp Require Import base strings list gmap.

Local Open Scope string_scope.
Local Open Scope Z_scope.

Set Warnings "-register-all".

(** ** Exceptions and results *)

Inductive ExnClass :=
| FileNotFoundError | UnpicklingError | RuntimeError | ValueError
| TypeError | KeyError | IndexError | AttributeError | NameError
| OSError | UnidentifiedImageError | cv2_error.

(** Every class above derives from [Exception]; [HTTPException] is FastAPI's
    and carries the status code sent to the client. *)
Inductive PyExn :=
| Exn (cls : ExnClass) (msg : string)
| HTTPException (status_code : Z) (detail : string).

(** [str(e)] *)
Definition str (e : PyExn) : string :=
  match e with
  | Exn _ msg => msg
  | HTTPException _ detail => detail
  end.

Inductive PyResult (A : Type) :=
| Ok (a : A)
| Raise (e : PyExn).
Arguments Ok {A} a.
Arguments Raise {A} e.

Definition bindR {A B} (r : PyResult A) (k : A -> PyResult B) : PyResult B :=
  match r with
  | Ok a => k a
  | Raise e => Raise e
  end.

Notation "x <-? r ;; k" := (bindR r (fun x => k))
  (at level 100, r at next level, right associativity).

(** Code that reads and mutates an object of type [S]. *)
Definition M (S A : Type) : Type := S -> PyResult A * S.

Definition ret {S A} (a : A) : M S A := fun s => (Ok a, s).

Definition raise {S A} (e : PyExn) : M S A := fun s => (Raise e, s).

Definition bind {S A B} (m : M S A) (k : A -> M S B) : M S B :=
  fun s =>
    match m s with
    | (Ok a, s') => k a s'
    | (Raise e, s') => (Raise e, s')
    end.

Notation "x <~ m ;; k" := (bind m (fun x => k))
  (at level 100, m at next level, right associativity).
Notation "m ;;; k" := (bind m (fun _ => k))
  (at level 100, right associativity).

(** A call that only reads the object. *)
Definition read {S A} (f : S -> PyResult A) : M S A := fun s => (f s, s).

(** A call on an attribute of the object: [self.attr(...)]. *)
Definition zoom {S T A} (get : S -> T) (set : T -> S -> S) (m : M T A) : M S A :=
  fun s =>
    let (r, t) := m (get s) in (r, set t s).

(** [try: body  except Exception as e: handler e] *)
Definition try_except {S A} (body : M S A) (handler : PyExn -> M S A) : M S A :=
  fun s =>
    match body s with
    | (Ok a, s') => (Ok a, s')
    | (Raise e, s') => handler e s'
    end.

(** *** Specifications of such code *)

(** From a state in [P] the call returns normally, with [Q] of the value
    returned and the state left. *)
Definition triple {S A} (P : S -> Prop) (m : M S A) (Q : A -> S -> Prop) : Prop :=
  forall s, P s -> exists a s', m s = (Ok a, s') /\ Q a s'.

(** [I] holds of the state left whenever it held before, whether the call
    returns or raises. *)
Definition preserves {S A} (I : S -> Prop) (m : M S A) : Prop :=
  forall s, I s -> I (m s).2.

(** From states related by [R] the call has the same outcome and leaves
    related states. *)
Definition respects {S A} (R : S -> S -> Prop) (m : M S A) : Prop :=
  forall s1 s2, R s1 s2 -> (m s1).1 = (m s2).1 /\ R (m s1).2 (m s2).2.

(** The state left is related to the one the call started from. *)
Definition stays {S A} (R : S -> S -> Prop) (m : M S A) : Prop :=
  forall s, R s (m s).2.

(** From a state in [P] the call either returns, with [Q] of the value and
    the state left, or raises, with [E] of the exception and the state
    left. *)
Definition ends {S A} (P : S -> Prop) (m : M S A)
    (Q : A -> S -> Prop) (E : PyExn -> S -> Prop) : Prop :=
  forall s, P s ->
    match m s with
    | (Ok a, s') => Q a s'
    | (Raise e, s') => E e s'
    end.

(** ** Shapes *)

(** [s[-2:]] *)
Definition last2 (s : list Z) : list Z := drop (length s - 2)%nat s.

(** [Tensor.size(i)] for a non-negative literal [i]. *)
Definition size_at (s : list Z) (i : nat) : PyResult Z :=
  match s !! i with
  | Some d => Ok d
  | None => Raise (Exn IndexError "Dimension out of range")
  end.

(** Output length of a pooling window (PyTorch's [pooling_output_shape]
    with no padding, dilation 1 and [ceil_mode=False]). *)
Definition pooling_output_shape (input kernel stride : Z) : Z :=
  (input - (kernel - 1) - 1) / stride + 1.

(** int64 wrap-around, for the [torch.long] counter of a batch-norm layer. *)
Definition wrap_int64 (z : Z) : Z := (z + 2 ^ 63) mod 2 ^ 64 - 2 ^ 63.

(** ** Normalisation constants of the Lab pipeline (exact arithmetic) *)

(** [app.py:68]: [L_norm = (L / 50.0) - 1.0] *)
Definition L_norm (L : Q) : Q := (L / 50 - 1)%Q.

(** [model.py:96]: [L_denorm = (L_np + 1.0) * 50.0] *)
Definition L_denorm (L_np : Q) : Q := ((L_np + 1) * 50)%Q.

(** [model.py:97]: [ab_denorm = ab_np * 128.0] *)
Definition ab_denorm (ab_np : Q) : Q := (ab_np * 128)%Q.

(** Modelled from the spec: the chrominance normalisation that produces the
    network's training targets is not part of [src/]; the data model of the
    specification gives it as the divide-by-128 scale. *)
Definition ab_norm (v : Q) : Q := (v / 128)%Q.

(** [rgb / 255.0] and [rgb_out * 255] *)
Definition div255 (v : Q) : Q := (v / 255)%Q.
Definition mul255 (v : Q) : Q := (v * 255)%Q.

(** [np.clip(v, 0.0, 1.0)] *)
Definition clip01 (v : Q) : Q := Qmax 0 (Qmin v 1).

(** ** Values handled by the program *)

(** The two class objects that the name [pathlib.PosixPath] is bound to in
    the course of the program. *)
Inductive PathClass := cls_PosixPath | cls_WindowsPath.

(** What [torch.load] may return: a dictionary (a checkpoint or a state
    dict), a floating-point tensor, an integer tensor such as
    [num_batches_tracked], or any other pickled object. *)
Inductive PyObj (D : Type) :=
| PyDict (d : gmap string (PyObj D))
| PyTensor (t_shape : list Z) (t_data : D)
| PyLong (z : Z)
| PyOpaque (repr : string).
Arguments PyDict {D} d.
Arguments PyTensor {D} t_shape t_data.
Arguments PyLong {D} z.
Arguments PyOpaque {D} repr.

(** A tensor or NumPy array. *)
Record Tensor (D : Type) := mkTensor { shape : list Z; data : D }.
Arguments mkTensor {D} shape data.
Arguments shape {D} t.
Arguments data {D} t.

(** A PIL image; [im_size] is [(width, height)]. *)
Record PILImage (D : Type) := mkImage { im_size : Z * Z; im_mode : string; im_data : D }.
Arguments mkImage {D} im_size im_mode im_data.
Arguments im_size {D} p.
Arguments im_mode {D} p.
Arguments im_data {D} p.

Inductive ColorConversionCode := COLOR_RGB2LAB | COLOR_LAB2RGB.

(** ** The numerical kernels of PyTorch, NumPy, OpenCV and Pillow

    None of these is code of the repository.  A payload of type [D] stands
    for the floating-point contents of a tensor. *)
Class Kernels (D : Type) := {
  (* parameter initialisation *)
  randn : list Z -> D;
  zeros : list Z -> D;
  ones : list Z -> D;
  (* torch.nn.functional *)
  conv2d_data : D -> option D -> Z -> D -> D;
  conv_transpose2d_data : D -> option D -> Z -> D -> D;
  batch_norm_eval_data : D -> D -> D -> D -> D -> D;
  batch_norm_train_data : D -> D -> D -> D;
  momentum_mean : D -> D -> D;
  momentum_var : D -> D -> D;
  relu_data : D -> D;
  max_pool2d_data : Z -> Z -> D -> D;
  pad_data : list Z -> D -> D;
  cat_data : Z -> D -> D -> D;
  (* torch.load and Module.load_state_dict *)
  torch_unpickle : PathClass -> list Byte.byte -> PyResult (PyObj D);
  state_dict_copy : PyObj D -> string -> list Z -> D -> D;
  state_dict_copy_long : PyObj D -> string -> Z -> Z;
  state_dict_errors : list (string * list Z) -> PyObj D -> option PyExn;
  (* Python's [key in obj] and [obj[key]] on an unpickled object that is
     not a dictionary: a list answers the first, a module raises *)
  object_contains : PyObj D -> string -> PyResult bool;
  object_getitem : PyObj D -> string -> PyResult (PyObj D);
  (* numpy *)
  ewise : (Q -> Q) -> D -> D;
  astype_uint8 : D -> D;
  slice_last : Z -> Z -> D -> D;
  permute_data : list Z -> D -> D;
  select_data : Z -> D -> D;
  stack_data : list D -> D;
  (* cv2 *)
  cvtColor_data : ColorConversionCode -> D -> D;
  (* PIL *)
  pil_decode : list Byte.byte -> PyResult (PILImage D);
  convert_error : PILImage D -> string -> option PyExn;
  convert_data : string -> string -> D -> D;
  lanczos_data : Z * Z -> Z * Z -> D -> D;
  png_encode : PILImage D -> list Byte.byte
}.

Section Program.

Context {D : Type} `{!Kernels D}.

Abbreviation Tensor := (Tensor D).
Abbreviation PILImage := (PILImage D).
Abbreviation PyObj := (PyObj D).

(** ** torch.nn layers used by [model.py] *)

(** [nn.Conv2d(in_channels, out_channels, kernel_size, padding, bias)],
    stride 1. *)
Record Conv2d := mkConv2d {
  in_channels : Z; out_channels : Z; kernel_size : Z; padding : Z;
  conv_weight : D; conv_bias : option D }.

Definition Conv2d_init (in_ch out_ch k p : Z) (bias : bool) : Conv2d :=
  {| in_channels := in_ch; out_channels := out_ch; kernel_size := k; padding := p;
     conv_weight := randn [out_ch; in_ch; k; k];
     conv_bias := if bias then Some (randn [out_ch]) else None |}.

Definition conv_output_size (input k p : Z) : Z := input + 2 * p - (k - 1) - 1 + 1.

Definition Conv2d_forward (c : Conv2d) (x : Tensor) : PyResult Tensor :=
  let out (lead : list Z) (ch h w : Z) :=
    if negb (ch =? in_channels c) then
      Raise (Exn RuntimeError "expected input to have in_channels channels")
    else
      let h' := conv_output_size h (kernel_size c) (padding c) in
      let w' := conv_output_size w (kernel_size c) (padding c) in
      if (h' <? 1) || (w' <? 1) then
        Raise (Exn RuntimeError "Kernel size can't be greater than actual input size")
      else
        Ok (mkTensor (lead ++ [out_channels c; h'; w'])
              (conv2d_data (conv_weight c) (conv_bias c) (padding c) (data x))) in
  match shape x with
  | [n; ch; h; w] => out [n] ch h w
  | [ch; h; w] => out [] ch h w
  | _ => Raise (Exn RuntimeError "Expected 3D (unbatched) or 4D (batched) input to conv2d")
  end.

(** [nn.ConvTranspose2d(in_channels, out_channels, kernel_size, stride)],
    with its default bias. *)
Record ConvTranspose2d := mkConvTranspose2d {
  ct_in_channels : Z; ct_out_channels : Z; ct_kernel_size : Z; ct_stride : Z;
  ct_weight : D; ct_bias : D }.

Definition ConvTranspose2d_init (in_ch out_ch k s : Z) : ConvTranspose2d :=
  {| ct_in_channels := in_ch; ct_out_channels := out_ch; ct_kernel_size := k; ct_stride := s;
     ct_weight := randn [in_ch; out_ch; k; k]; ct_bias := randn [out_ch] |}.

Definition ConvTranspose2d_forward (c : ConvTranspose2d) (x : Tensor) : PyResult Tensor :=
  let out (lead : list Z) (ch h w : Z) :=
    if negb (ch =? ct_in_channels c) then
      Raise (Exn RuntimeError "expected input to have in_channels channels")
    else
      Ok (mkTensor (lead ++ [ct_out_channels c;
                             (h - 1) * ct_stride c + ct_kernel_size c;
                             (w - 1) * ct_stride c + ct_kernel_size c])
            (conv_transpose2d_data (ct_weight c) (Some (ct_bias c)) (ct_stride c) (data x))) in
  match shape x with
  | [n; ch; h; w] => out [n] ch h w
  | [ch; h; w] => out [] ch h w
  | _ => Raise (Exn RuntimeError "Expected 3D (unbatched) or 4D (batched) input to conv_transpose2d")
  end.

(** [nn.MaxPool2d(kernel_size)]: the stride defaults to the kernel size. *)
Record MaxPool2d := mkMaxPool2d { pool_kernel_size : Z; pool_stride : Z }.

Definition MaxPool2d_init (k : Z) : MaxPool2d :=
  {| pool_kernel_size := k; pool_stride := k |}.

Definition MaxPool2d_forward (p : MaxPool2d) (x : Tensor) : PyResult Tensor :=
  let out (lead : list Z) (h w : Z) :=
    let h' := pooling_output_shape h (pool_kernel_size p) (pool_stride p) in
    let w' := pooling_output_shape w (pool_kernel_size p) (pool_stride p) in
    if (h' <? 1) || (w' <? 1) then
      Raise (Exn RuntimeError "Output size is too small")
    else
      Ok (mkTensor (lead ++ [h'; w'])
            (max_pool2d_data (pool_kernel_size p) (pool_stride p) (data x))) in
  match shape x with
  | [n; ch; h; w] => out [n; ch] h w
  | [ch; h; w] => out [ch] h w
  | _ => Raise (Exn RuntimeError "non-empty 3D or 4D input tensor expected")
  end.

(** [nn.ReLU(inplace=True)]: overwrites its argument, which in [ConvBlock]
    is the tensor freshly returned by the preceding layer. *)
Definition ReLU_forward (x : Tensor) : Tensor := mkTensor (shape x) (relu_data (data x)).

(** [nn.BatchNorm2d(num_features)] with its defaults ([affine],
    [track_running_stats], momentum 0.1).  The running statistics and the
    batch counter are buffers of the module; [bn_training] is the module's
    [training] attribute, [True] on construction. *)
Record BatchNorm2d := mkBatchNorm2d {
  num_features : Z;
  bn_weight : D; bn_bias : D;
  running_mean : D; running_var : D; num_batches_tracked : Z;
  bn_training : bool }.

Definition BatchNorm2d_init (c : Z) : BatchNorm2d :=
  {| num_features := c;
     bn_weight := ones [c]; bn_bias := zeros [c];
     running_mean := zeros [c]; running_var := ones [c]; num_batches_tracked := 0;
     bn_training := true |}.

Definition set_num_batches_tracked (k : Z) (bn : BatchNorm2d) : BatchNorm2d :=
  {| num_features := num_features bn;
     bn_weight := bn_weight bn; bn_bias := bn_bias bn;
     running_mean := running_mean bn; running_var := running_var bn;
     num_batches_tracked := k;
     bn_training := bn_training bn |}.

Definition set_running_stats (mean var : D) (bn : BatchNorm2d) : BatchNorm2d :=
  {| num_features := num_features bn;
     bn_weight := bn_weight bn; bn_bias := bn_bias bn;
     running_mean := mean; running_var := var;
     num_batches_tracked := num_batches_tracked bn;
     bn_training := bn_training bn |}.

Definition set_bn_training (b : bool) (bn : BatchNorm2d) : BatchNorm2d :=
  {| num_features := num_features bn;
     bn_weight := bn_weight bn; bn_bias := bn_bias bn;
     running_mean := running_mean bn; running_var := running_var bn;
     num_batches_tracked := num_batches_tracked bn;
     bn_training := b |}.

(** [F.batch_norm(input, running_mean, running_var, weight, bias, training,
    momentum, eps)].  In training mode the input is normalised with its own
    batch statistics and the running statistics are overwritten; otherwise
    the running statistics are used and nothing is written. *)
Definition F_batch_norm (x : Tensor) (n c h w : Z) : M BatchNorm2d Tensor :=
  fun bn =>
    if bn_training bn && (n * h * w =? 1) then
      (Raise (Exn ValueError "Expected more than 1 value per channel when training"), bn)
    else if negb (c =? num_features bn) then
      (Raise (Exn RuntimeError "running_mean should contain as many elements as channels"), bn)
    else if bn_training bn then
      (Ok (mkTensor (shape x) (batch_norm_train_data (bn_weight bn) (bn_bias bn) (data x))),
       set_running_stats (momentum_mean (running_mean bn) (data x))
                         (momentum_var (running_var bn) (data x)) bn)
    else
      (Ok (mkTensor (shape x)
             (batch_norm_eval_data (bn_weight bn) (bn_bias bn)
                (running_mean bn) (running_var bn) (data x))),
       bn).

(** [_BatchNorm.forward]: the input rank is checked, the batch counter is
    incremented when training, then [F.batch_norm] is called. *)
Definition BatchNorm2d_forward (x : Tensor) : M BatchNorm2d Tensor :=
  match shape x with
  | [n; c; h; w] =>
      (fun bn =>
         (Ok tt,
          if bn_training bn
          then set_num_batches_tracked (wrap_int64 (num_batches_tracked bn + 1)) bn
          else bn)) ;;;
      F_batch_norm x n c h w
  | _ => raise (Exn ValueError "expected 4D input")
  end.

(** [F.pad(x, [left, right, top, bottom])], constant mode: the last
    dimension grows by [left + right] and the one before by [top + bottom];
    negative amounts crop. *)
Definition F_pad (x : Tensor) (pad : list Z) : PyResult Tensor :=
  match pad, rev (shape x) with
  | [p_left; p_right; p_top; p_bottom], w :: h :: lead =>
      if (h + p_top + p_bottom <? 0) || (w + p_left + p_right <? 0) then
        Raise (Exn RuntimeError "The input size plus negative padding resulted in a negative output size")
      else
        Ok (mkTensor (rev lead ++ [h + p_top + p_bottom; w + p_left + p_right])
              (pad_data pad (data x)))
  | _, _ => Raise (Exn RuntimeError "Padding length should be less than or equal to two times the input dimension")
  end.

(** [torch.cat([a, b], dim=1)] and [np.concatenate([a, b], axis=1)]: the
    operands agree on every dimension but the second. *)
Definition cat_dim1 (a b : Tensor) (err : ExnClass) : PyResult Tensor :=
  match shape a, shape b with
  | na :: ca :: ra, nb :: cb :: rb =>
      if decide (na = nb /\ ra = rb) then
        Ok (mkTensor (na :: ca + cb :: ra) (cat_data 1 (data a) (data b)))
      else
        Raise (Exn err "Sizes of tensors must match except in dimension 1")
  | _, _ => Raise (Exn IndexError "Dimension out of range")
  end.

Definition torch_cat_dim1 (a b : Tensor) : PyResult Tensor := cat_dim1 a b RuntimeError.

(** ** [model.py]: ConvBlock *)

(** [self.block = nn.Sequential(...)]; entries 2 and 5 are the ReLUs. *)
Record ConvBlock := mkConvBlock {
  block_0 : Conv2d; block_1 : BatchNorm2d;
  block_3 : Conv2d; block_4 : BatchNorm2d }.

Definition ConvBlock_init (in_ch out_ch : Z) : ConvBlock :=
  {| block_0 := Conv2d_init in_ch out_ch 3 1 false;
     block_1 := BatchNorm2d_init out_ch;
     block_3 := Conv2d_init out_ch out_ch 3 1 false;
     block_4 := BatchNorm2d_init out_ch |}.

Definition set_block_1 (bn : BatchNorm2d) (cb : ConvBlock) : ConvBlock :=
  {| block_0 := block_0 cb; block_1 := bn; block_3 := block_3 cb; block_4 := block_4 cb |}.

Definition set_block_4 (bn : BatchNorm2d) (cb : ConvBlock) : ConvBlock :=
  {| block_0 := block_0 cb; block_1 := block_1 cb; block_3 := block_3 cb; block_4 := bn |}.

Definition ConvBlock_forward (x : Tensor) : M ConvBlock Tensor :=
  x <~ read (fun self => Conv2d_forward (block_0 self) x) ;;
  x <~ zoom block_1 set_block_1 (BatchNorm2d_forward x) ;;
  x <~ ret (ReLU_forward x) ;;
  x <~ read (fun self => Conv2d_forward (block_3 self) x) ;;
  x <~ zoom block_4 set_block_4 (BatchNorm2d_forward x) ;;
  ret (ReLU_forward x).

(** ** [model.py]: UpBlock *)

Record UpBlock := mkUpBlock { up : ConvTranspose2d; conv : ConvBlock }.

Definition UpBlock_init (in_ch out_ch : Z) : UpBlock :=
  {| up := ConvTranspose2d_init in_ch out_ch 2 2;
     conv := ConvBlock_init (out_ch * 2) out_ch |}.

Definition set_conv (cb : ConvBlock) (ub : UpBlock) : UpBlock :=
  {| up := up ub; conv := cb |}.

(** The padding step of [UpBlock.forward] (lines 33-37). *)
Definition UpBlock_pad (x skip : Tensor) : PyResult Tensor :=
  if decide (last2 (shape x) <> last2 (shape skip)) then
    skip_h <-? size_at (shape skip) 2 ;;
    x_h <-? size_at (shape x) 2 ;;
    let diff_y := skip_h - x_h in
    skip_w <-? size_at (shape skip) 3 ;;
    x_w <-? size_at (shape x) 3 ;;
    let diff_x := skip_w - x_w in
    F_pad x [diff_x / 2; diff_x - diff_x / 2; diff_y / 2; diff_y - diff_y / 2]
  else Ok x.

Definition UpBlock_forward (x skip : Tensor) : M UpBlock Tensor :=
  x <~ read (fun self => ConvTranspose2d_forward (up self) x) ;;
  x <~ read (fun _ => UpBlock_pad x skip) ;;
  x <~ read (fun _ => torch_cat_dim1 skip x) ;;
  zoom conv set_conv (ConvBlock_forward x).

(** ** [model.py]: ColorizationSDAEUNet *)

(** [training] is the [training] attribute of the module itself; the
    layers whose behaviour depends on the mode carry their own. *)
Record ColorizationSDAEUNet := mkColorizationSDAEUNet {
  enc1 : ConvBlock; enc2 : ConvBlock; enc3 : ConvBlock; enc4 : ConvBlock;
  pool : MaxPool2d;
  bottleneck : ConvBlock;
  up4 : UpBlock; up3 : UpBlock; up2 : UpBlock; up1 : UpBlock;
  out_conv : Conv2d;
  training : bool }.

Definition ColorizationSDAEUNet_init (in_ch out_ch base_ch : Z) : ColorizationSDAEUNet :=
  {| enc1 := ConvBlock_init in_ch base_ch;
     enc2 := ConvBlock_init base_ch (base_ch * 2);
     enc3 := ConvBlock_init (base_ch * 2) (base_ch * 4);
     enc4 := ConvBlock_init (base_ch * 4) (base_ch * 8);
     pool := MaxPool2d_init 2;
     bottleneck := ConvBlock_init (base_ch * 8) (base_ch * 16);
     up4 := UpBlock_init (base_ch * 16) (base_ch * 8);
     up3 := UpBlock_init (base_ch * 8) (base_ch * 4);
     up2 := UpBlock_init (base_ch * 4) (base_ch * 2);
     up1 := UpBlock_init (base_ch * 2) base_ch;
     out_conv := Conv2d_init base_ch out_ch 1 0 true;
     training := true |}.

Definition set_enc1 (b : ConvBlock) (m : ColorizationSDAEUNet) : ColorizationSDAEUNet :=
  {| enc1 := b; enc2 := enc2 m; enc3 := enc3 m; enc4 := enc4 m; pool := pool m;
     bottleneck := bottleneck m; up4 := up4 m; up3 := up3 m; up2 := up2 m; up1 := up1 m;
     out_conv := out_conv m; training := training m |}.

Definition set_enc2 (b : ConvBlock) (m : ColorizationSDAEUNet) : ColorizationSDAEUNet :=
  {| enc1 := enc1 m; enc2 := b; enc3 := enc3 m; enc4 := enc4 m; pool := pool m;
     bottleneck := bottleneck m; up4 := up4 m; up3 := up3 m; up2 := up2 m; up1 := up1 m;
     out_conv := out_conv m; training := training m |}.

Definition set_enc3 (b : ConvBlock) (m : ColorizationSDAEUNet) : ColorizationSDAEUNet :=
  {| enc1 := enc1 m; enc2 := enc2 m; enc3 := b; enc4 := enc4 m; pool := pool m;
     bottleneck := bottleneck m; up4 := up4 m; up3 := up3 m; up2 := up2 m; up1 := up1 m;
     out_conv := out_conv m; training := training m |}.

Definition set_enc4 (b : ConvBlock) (m : ColorizationSDAEUNet) : ColorizationSDAEUNet :=
  {| enc1 := enc1 m; enc2 := enc2 m; enc3 := enc3 m; enc4 := b; pool := pool m;
     bottleneck := bottleneck m; up4 := up4 m; up3 := up3 m; up2 := up2 m; up1 := up1 m;
     out_conv := out_conv m; training := training m |}.

Definition set_bottleneck (b : ConvBlock) (m : ColorizationSDAEUNet) : ColorizationSDAEUNet :=
  {| enc1 := enc1 m; enc2 := enc2 m; enc3 := enc3 m; enc4 := enc4 m; pool := pool m;
     bottleneck := b; up4 := up4 m; up3 := up3 m; up2 := up2 m; up1 := up1 m;
     out_conv := out_conv m; training := training m |}.

Definition set_up4 (u : UpBlock) (m : ColorizationSDAEUNet) : ColorizationSDAEUNet :=
  {| enc1 := enc1 m; enc2 := enc2 m; enc3 := enc3 m; enc4 := enc4 m; pool := pool m;
     bottleneck := bottleneck m; up4 := u; up3 := up3 m; up2 := up2 m; up1 := up1 m;
     out_conv := out_conv m; training := training m |}.

Definition set_up3 (u : UpBlock) (m : ColorizationSDAEUNet) : ColorizationSDAEUNet :=
  {| enc1 := enc1 m; enc2 := enc2 m; enc3 := enc3 m; enc4 := enc4 m; pool := pool m;
     bottleneck := bottleneck m; up4 := up4 m; up3 := u; up2 := up2 m; up1 := up1 m;
     out_conv := out_conv m; training := training m |}.

Definition set_up2 (u : UpBlock) (m : ColorizationSDAEUNet) : ColorizationSDAEUNet :=
  {| enc1 := enc1 m; enc2 := enc2 m; enc3 := enc3 m; enc4 := enc4 m; pool := pool m;
     bottleneck := bottleneck m; up4 := up4 m; up3 := up3 m; up2 := u; up1 := up1 m;
     out_conv := out_conv m; training := training m |}.

Definition set_up1 (u : UpBlock) (m : ColorizationSDAEUNet) : ColorizationSDAEUNet :=
  {| enc1 := enc1 m; enc2 := enc2 m; enc3 := enc3 m; enc4 := enc4 m; pool := pool m;
     bottleneck := bottleneck m; up4 := up4 m; up3 := up3 m; up2 := up2 m; up1 := u;
     out_conv := out_conv m; training := training m |}.

Definition ColorizationSDAEUNet_forward (x : Tensor) : M ColorizationSDAEUNet Tensor :=
  (* Encoder *)
  e1 <~ zoom enc1 set_enc1 (ConvBlock_forward x) ;;
  p1 <~ read (fun self => MaxPool2d_forward (pool self) e1) ;;
  e2 <~ zoom enc2 set_enc2 (ConvBlock_forward p1) ;;
  p2 <~ read (fun self => MaxPool2d_forward (pool self) e2) ;;
  e3 <~ zoom enc3 set_enc3 (ConvBlock_forward p2) ;;
  p3 <~ read (fun self => MaxPool2d_forward (pool self) e3) ;;
  e4 <~ zoom enc4 set_enc4 (ConvBlock_forward p3) ;;
  p4 <~ read (fun self => MaxPool2d_forward (pool self) e4) ;;
  (* Bottleneck *)
  b <~ zoom bottleneck set_bottleneck (ConvBlock_forward p4) ;;
  (* Decoder *)
  d4 <~ zoom up4 set_up4 (UpBlock_forward b e4) ;;
  d3 <~ zoom up3 set_up3 (UpBlock_forward d4 e3) ;;
  d2 <~ zoom up2 set_up2 (UpBlock_forward d3 e2) ;;
  d1 <~ zoom up1 set_up1 (UpBlock_forward d2 e1) ;;
  out_ab <~ read (fun self => Conv2d_forward (out_conv self) d1) ;;
  ret out_ab.

(** *** [Module.eval()] *)

Definition ConvBlock_eval (cb : ConvBlock) : ConvBlock :=
  {| block_0 := block_0 cb; block_1 := set_bn_training false (block_1 cb);
     block_3 := block_3 cb; block_4 := set_bn_training false (block_4 cb) |}.

Definition UpBlock_eval (ub : UpBlock) : UpBlock :=
  {| up := up ub; conv := ConvBlock_eval (conv ub) |}.

Definition ColorizationSDAEUNet_eval (m : ColorizationSDAEUNet) : ColorizationSDAEUNet :=
  {| enc1 := ConvBlock_eval (enc1 m); enc2 := ConvBlock_eval (enc2 m);
     enc3 := ConvBlock_eval (enc3 m); enc4 := ConvBlock_eval (enc4 m);
     pool := pool m;
     bottleneck := ConvBlock_eval (bottleneck m);
     up4 := UpBlock_eval (up4 m); up3 := UpBlock_eval (up3 m);
     up2 := UpBlock_eval (up2 m); up1 := UpBlock_eval (up1 m);
     out_conv := out_conv m;
     training := false |}.

(** *** [Module.load_state_dict(state_dict)]

    The entries of [model.state_dict()] are named after the attribute path
    of each parameter and buffer.  Loading walks the same entries: what is
    copied into each of them, and whether the call ends by raising, is
    decided by PyTorch ([state_dict_copy], [state_dict_errors]).  Only
    parameters and buffers are written; an entry may already have been
    overwritten when the call raises. *)

Definition Conv2d_entries (prefix : string) (c : Conv2d) : list (string * list Z) :=
  (prefix +:+ "weight", [out_channels c; in_channels c; kernel_size c; kernel_size c])
  :: match conv_bias c with
     | Some _ => [(prefix +:+ "bias", [out_channels c])]
     | None => []
     end.

Definition ConvTranspose2d_entries (prefix : string) (c : ConvTranspose2d)
  : list (string * list Z) :=
  [(prefix +:+ "weight", [ct_in_channels c; ct_out_channels c; ct_kernel_size c; ct_kernel_size c]);
   (prefix +:+ "bias", [ct_out_channels c])].

Definition BatchNorm2d_entries (prefix : string) (bn : BatchNorm2d) : list (string * list Z) :=
  [(prefix +:+ "weight", [num_features bn]);
   (prefix +:+ "bias", [num_features bn]);
   (prefix +:+ "running_mean", [num_features bn]);
   (prefix +:+ "running_var", [num_features bn]);
   (prefix +:+ "num_batches_tracked", [])].

Definition ConvBlock_entries (prefix : string) (cb : ConvBlock) : list (string * list Z) :=
  Conv2d_entries (prefix +:+ "block.0.") (block_0 cb)
  ++ BatchNorm2d_entries (prefix +:+ "block.1.") (block_1 cb)
  ++ Conv2d_entries (prefix +:+ "block.3.") (block_3 cb)
  ++ BatchNorm2d_entries (prefix +:+ "block.4.") (block_4 cb).

Definition UpBlock_entries (prefix : string) (ub : UpBlock) : list (string * list Z) :=
  ConvTranspose2d_entries (prefix +:+ "up.") (up ub)
  ++ ConvBlock_entries (prefix +:+ "conv.") (conv ub).

Definition state_dict_entries (m : ColorizationSDAEUNet) : list (string * list Z) :=
  ConvBlock_entries "enc1." (enc1 m) ++ ConvBlock_entries "enc2." (enc2 m)
  ++ ConvBlock_entries "enc3." (enc3 m) ++ ConvBlock_entries "enc4." (enc4 m)
  ++ ConvBlock_entries "bottleneck." (bottleneck m)
  ++ UpBlock_entries "up4." (up4 m) ++ UpBlock_entries "up3." (up3 m)
  ++ UpBlock_entries "up2." (up2 m) ++ UpBlock_entries "up1." (up1 m)
  ++ Conv2d_entries "out_conv." (out_conv m).

Definition Conv2d_load (sd : PyObj) (prefix : string) (c : Conv2d) : Conv2d :=
  {| in_channels := in_channels c; out_channels := out_channels c;
     kernel_size := kernel_size c; padding := padding c;
     conv_weight :=
       state_dict_copy sd (prefix +:+ "weight")
         [out_channels c; in_channels c; kernel_size c; kernel_size c] (conv_weight c);
     conv_bias :=
       match conv_bias c with
       | Some b => Some (state_dict_copy sd (prefix +:+ "bias") [out_channels c] b)
       | None => None
       end |}.

Definition ConvTranspose2d_load (sd : PyObj) (prefix : string) (c : ConvTranspose2d)
  : ConvTranspose2d :=
  {| ct_in_channels := ct_in_channels c; ct_out_channels := ct_out_channels c;
     ct_kernel_size := ct_kernel_size c; ct_stride := ct_stride c;
     ct_weight :=
       state_dict_copy sd (prefix +:+ "weight")
         [ct_in_channels c; ct_out_channels c; ct_kernel_size c; ct_kernel_size c] (ct_weight c);
     ct_bias := state_dict_copy sd (prefix +:+ "bias") [ct_out_channels c] (ct_bias c) |}.

Definition BatchNorm2d_load (sd : PyObj) (prefix : string) (bn : BatchNorm2d) : BatchNorm2d :=
  {| num_features := num_features bn;
     bn_weight := state_dict_copy sd (prefix +:+ "weight") [num_features bn] (bn_weight bn);
     bn_bias := state_dict_copy sd (prefix +:+ "bias") [num_features bn] (bn_bias bn);
     running_mean :=
       state_dict_copy sd (prefix +:+ "running_mean") [num_features bn] (running_mean bn);
     running_var :=
       state_dict_copy sd (prefix +:+ "running_var") [num_features bn] (running_var bn);
     num_batches_tracked :=
       state_dict_copy_long sd (prefix +:+ "num_batches_tracked") (num_batches_tracked bn);
     bn_training := bn_training bn |}.

Definition ConvBlock_load (sd : PyObj) (prefix : string) (cb : ConvBlock) : ConvBlock :=
  {| block_0 := Conv2d_load sd (prefix +:+ "block.0.") (block_0 cb);
     block_1 := BatchNorm2d_load sd (prefix +:+ "block.1.") (block_1 cb);
     block_3 := Conv2d_load sd (prefix +:+ "block.3.") (block_3 cb);
     block_4 := BatchNorm2d_load sd (prefix +:+ "block.4.") (block_4 cb) |}.

Definition UpBlock_load (sd : PyObj) (prefix : string) (ub : UpBlock) : UpBlock :=
  {| up := ConvTranspose2d_load sd (prefix +:+ "up.") (up ub);
     conv := ConvBlock_load sd (prefix +:+ "conv.") (conv ub) |}.

Definition copy_state_dict (sd : PyObj) (m : ColorizationSDAEUNet) : ColorizationSDAEUNet :=
  {| enc1 := ConvBlock_load sd "enc1." (enc1 m);
     enc2 := ConvBlock_load sd "enc2." (enc2 m);
     enc3 := ConvBlock_load sd "enc3." (enc3 m);
     enc4 := ConvBlock_load sd "enc4." (enc4 m);
     pool := pool m;
     bottleneck := ConvBlock_load sd "bottleneck." (bottleneck m);
     up4 := UpBlock_load sd "up4." (up4 m);
     up3 := UpBlock_load sd "up3." (up3 m);
     up2 := UpBlock_load sd "up2." (up2 m);
     up1 := UpBlock_load sd "up1." (up1 m);
     out_conv := Conv2d_load sd "out_conv." (out_conv m);
     training := training m |}.

Definition load_state_dict (sd : PyObj) : M ColorizationSDAEUNet unit :=
  fun m =>
    (match state_dict_errors (state_dict_entries m) sd with
     | Some e => Raise e
     | None => Ok tt
     end,
     copy_state_dict sd m).

(** ** NumPy, OpenCV and Pillow calls used by the two files *)

(** [a[i]] on the leading axis. *)
Definition np_getitem (a : Tensor) (i : Z) : PyResult Tensor :=
  match shape a with
  | n :: rest =>
      if (0 <=? i) && (i <? n) then Ok (mkTensor rest (select_data i (data a)))
      else Raise (Exn IndexError "index is out of bounds for axis 0")
  | [] => Raise (Exn IndexError "too many indices for array")
  end.

(** [lab[..., 0:1]] *)
Definition slice_last_0_1 (a : Tensor) : PyResult Tensor :=
  match rev (shape a) with
  | c :: lead => Ok (mkTensor (rev lead ++ [Z.min 1 (Z.max 0 c)]) (slice_last 0 1 (data a)))
  | [] => Raise (Exn IndexError "too many indices for array")
  end.

(** [np.transpose(a, (0, 2, 3, 1))] *)
Definition np_transpose_0231 (a : Tensor) : PyResult Tensor :=
  match shape a with
  | [s0; s1; s2; s3] => Ok (mkTensor [s0; s2; s3; s1] (permute_data [0; 2; 3; 1] (data a)))
  | _ => Raise (Exn ValueError "axes don't match array")
  end.

(** [t.permute(2, 0, 1)] *)
Definition permute_201 (t : Tensor) : PyResult Tensor :=
  match shape t with
  | [s0; s1; s2] => Ok (mkTensor [s2; s0; s1] (permute_data [2; 0; 1] (data t)))
  | _ => Raise (Exn RuntimeError "number of dimensions in the tensor input does not match the length of the desired ordering")
  end.

(** [t.unsqueeze(0)] *)
Definition unsqueeze_0 (t : Tensor) : Tensor := mkTensor (1 :: shape t) (data t).

(** [np.stack(arrays, axis=0)] *)
Definition np_stack (arrays : list Tensor) : PyResult Tensor :=
  match arrays with
  | [] => Raise (Exn ValueError "need at least one array to stack")
  | a :: rest =>
      if forallb (fun b => bool_decide (shape b = shape a)) rest then
        Ok (mkTensor (Z.of_nat (length arrays) :: shape a) (stack_data (map data arrays)))
      else Raise (Exn ValueError "all input arrays must have the same shape")
  end.

(** [cv2.cvtColor(src, code)] for the two three-channel conversions. *)
Definition cv2_cvtColor (src : Tensor) (code : ColorConversionCode) : PyResult Tensor :=
  match shape src with
  | [h; w; 3] =>
      if (h <? 1) || (w <? 1) then Raise (Exn cv2_error "(-215:Assertion failed) !_src.empty()")
      else Ok (mkTensor [h; w; 3] (cvtColor_data code (data src)))
  | _ => Raise (Exn cv2_error "Invalid number of channels in input image")
  end.

(** Element-wise arithmetic on an array. *)
Definition np_map (f : Q -> Q) (a : Tensor) : Tensor := mkTensor (shape a) (ewise f (data a)).

(** [range(n)] *)
Definition range (n : Z) : list Z := map Z.of_nat (seq 0 (Z.to_nat n)).

(** ** [model.py]: lab_denormalize *)

(** The body of the [for i in range(lab.shape[0])] loop, iterated over the
    remaining indices; [rgbs] is the list being appended to. *)
Fixpoint lab_denormalize_loop (lab : Tensor) (indices : list Z) (rgbs : list Tensor)
  : PyResult (list Tensor) :=
  match indices with
  | [] => Ok rgbs
  | i :: rest =>
      lab_i <-? np_getitem lab i ;;
      rgb_i <-? cv2_cvtColor lab_i COLOR_LAB2RGB ;;
      let rgb_i := np_map clip01 rgb_i in
      lab_denormalize_loop lab rest (rgbs ++ [rgb_i])
  end.

Definition lab_denormalize (L ab : Tensor) : PyResult Tensor :=
  let L_np := L in
  let ab_np := ab in
  (* Denormalize back to OpenCV float Lab ranges *)
  let L_denorm := np_map L_denorm L_np in
  let ab_denorm := np_map ab_denorm ab_np in
  lab <-? cat_dim1 L_denorm ab_denorm ValueError ;;
  lab <-? np_transpose_0231 lab ;;
  n <-? size_at (shape lab) 0 ;;
  rgbs <-? lab_denormalize_loop lab (range n) [] ;;
  np_stack rgbs.

(** ** Pillow *)

(** [Image.open(io.BytesIO(image_bytes))] *)
Definition Image_open (image_bytes : list Byte.byte) : PyResult PILImage :=
  pil_decode image_bytes.

(** [img.convert(mode)]: a new image of the same size. *)
Definition Image_convert (img : PILImage) (mode : string) : PyResult PILImage :=
  match convert_error img mode with
  | Some e => Raise e
  | None => Ok (mkImage (im_size img) mode (convert_data (im_mode img) mode (im_data img)))
  end.

(** [img.resize(size, Image.Resampling.LANCZOS)] *)
Definition Image_resize (img : PILImage) (size : Z * Z) : PyResult PILImage :=
  if decide (im_size img = size) then Ok img
  else if (size.1 <? 1) || (size.2 <? 1) then
    Raise (Exn ValueError "height and width must be > 0")
  else Ok (mkImage size (im_mode img) (lanczos_data (im_size img) size (im_data img))).

(** Number of bands of an image mode. *)
Definition getbands (mode : string) : Z :=
  if decide (mode = "RGB") then 3
  else if decide (mode = "RGBA") then 4
  else if decide (mode = "CMYK") then 4
  else if decide (mode = "YCbCr") then 3
  else if decide (mode = "LAB") then 3
  else if decide (mode = "HSV") then 3
  else if decide (mode = "LA") then 2
  else 1.

(** [np.asarray(img)]: height first, one trailing axis for the bands. *)
Definition np_asarray (img : PILImage) : Tensor :=
  let '(w, h) := im_size img in
  if getbands (im_mode img) =? 1 then mkTensor [h; w] (im_data img)
  else mkTensor [h; w; getbands (im_mode img)] (im_data img).

(** [Image.fromarray(a)] for an array of [uint8]. *)
Definition Image_fromarray (a : Tensor) : PyResult PILImage :=
  match shape a with
  | [h; w] => Ok (mkImage (w, h) "L" (data a))
  | [h; w; 3] => Ok (mkImage (w, h) "RGB" (data a))
  | [h; w; 4] => Ok (mkImage (w, h) "RGBA" (data a))
  | _ => Raise (Exn TypeError "Cannot handle this data type")
  end.

(** ** [app.py]: process state *)

(** The module [pathlib] as [app.py] sees and rebinds it. *)
Record PathlibModule := mkPathlib { PosixPath : PathClass; WindowsPath : PathClass }.

(** What a module-level name of [app.py] can be bound to. *)
Inductive PyVal :=
| VModule (name : string)
| VClass (name : string)
| VFunction (name : string)
| VPathClass (c : PathClass)
| VApp
| VStr (s : string)
| VInt (z : Z)
| VBool (b : bool)
| VModel (m : ColorizationSDAEUNet)
| VObj (o : PyObj).

(** The interpreter running [app.py]: the attributes of [pathlib], the
    module's global namespace and what has been written to the two
    streams, one entry for each call of [print], one for each traceback. *)
Record Process := mkProcess {
  pathlib : PathlibModule;
  globals : gmap string PyVal;
  stdout : list string;
  stderr : list string }.

(** What the process finds around it when it starts. *)
Record Env := mkEnv {
  cuda_is_available : bool;
  files : gmap string (list Byte.byte) }.

Definition set_global (name : string) (v : PyVal) : M Process unit :=
  fun p =>
    (Ok tt,
     {| pathlib := pathlib p; globals := <[name := v]> (globals p);
        stdout := stdout p; stderr := stderr p |}).

Definition get_global (name : string) : M Process PyVal :=
  fun p =>
    match globals p !! name with
    | Some v => (Ok v, p)
    | None => (Raise (Exn NameError ("name '" +:+ name +:+ "' is not defined")), p)
    end.

(** [pathlib.PosixPath = c] *)
Definition set_PosixPath (c : PathClass) : M Process unit :=
  fun p =>
    (Ok tt,
     {| pathlib := {| PosixPath := c; WindowsPath := WindowsPath (pathlib p) |};
        globals := globals p; stdout := stdout p; stderr := stderr p |}).

Definition print (line : string) : M Process unit :=
  fun p =>
    (Ok tt,
     {| pathlib := pathlib p; globals := globals p;
        stdout := stdout p ++ [line]; stderr := stderr p |}).

(** [traceback.print_exc()] *)
Definition print_exc (e : PyExn) : M Process unit :=
  fun p =>
    (Ok tt,
     {| pathlib := pathlib p; globals := globals p;
        stdout := stdout p; stderr := stderr p ++ [str e] |}).

(** A method call on the object bound to the global [model]. *)
Definition on_model {A} (m : M ColorizationSDAEUNet A) : M Process A :=
  v <~ get_global "model" ;;
  match v with
  | VModel net =>
      fun p =>
        let (r, net') := m net in
        (r, {| pathlib := pathlib p; globals := <["model" := VModel net']> (globals p);
               stdout := stdout p; stderr := stderr p |})
  | _ => raise (Exn AttributeError "object has no such attribute")
  end.

(** [key in obj]: on a dictionary, whether the key is bound; on any other
    object, what that object's class makes of it. *)
Definition contains (key : string) (obj : PyObj) : PyResult bool :=
  match obj with
  | PyDict d => Ok (bool_decide (is_Some (d !! key)))
  | _ => object_contains obj key
  end.

(** [obj[key]] *)
Definition getitem (obj : PyObj) (key : string) : PyResult PyObj :=
  match obj with
  | PyDict d =>
      match d !! key with
      | Some v => Ok v
      | None => Raise (Exn KeyError key)
      end
  | _ => object_getitem obj key
  end.

(** [torch.load(path, map_location=DEVICE, weights_only=False)]: the file
    is opened, then unpickled with whatever class [pathlib.PosixPath]
    currently names. *)
Definition torch_load (env : Env) (path : string) : M Process PyObj :=
  read (fun p =>
          match files env !! path with
          | None => Raise (Exn FileNotFoundError ("No such file or directory: '" +:+ path +:+ "'"))
          | Some content => torch_unpickle (PosixPath (pathlib p)) content
          end).

(** ** [app.py]: module level *)

Definition MODEL_PATH : string := "colorization_sdae_unet_best.pth".
Definition IMAGE_SIZE : Z := 256.

(** [DEVICE = "cuda" if torch.cuda.is_available() else "cpu"] *)
Definition DEVICE (env : Env) : string := if cuda_is_available env then "cuda" else "cpu".

(** Names bound by the [import] statements (lines 1-10). *)
Definition imports : gmap string PyVal :=
  list_to_map
    [("io", VModule "io"); ("cv2", VModule "cv2"); ("np", VModule "numpy");
     ("torch", VModule "torch"); ("pathlib", VModule "pathlib");
     ("FastAPI", VClass "FastAPI"); ("File", VFunction "File");
     ("UploadFile", VClass "UploadFile"); ("HTTPException", VClass "HTTPException");
     ("Response", VClass "Response"); ("CORSMiddleware", VClass "CORSMiddleware");
     ("Image", VModule "PIL.Image");
     ("ColorizationSDAEUNet", VClass "ColorizationSDAEUNet");
     ("lab_denormalize", VFunction "lab_denormalize")].

(** The interpreter once the imports have run. *)
Definition boot : Process :=
  {| pathlib := {| PosixPath := cls_PosixPath; WindowsPath := cls_WindowsPath |};
     globals := imports; stdout := []; stderr := [] |}.

(** The body of the [try] statement (lines 30-51). *)
Definition load_model_try (env : Env) : M Process unit :=
  (* Fix for loading Linux-saved checkpoints on Windows (PosixPath error) *)
  temp <~ read (fun p => Ok (PosixPath (pathlib p))) ;;
  set_global "temp" (VPathClass temp) ;;;
  windows <~ read (fun p => Ok (WindowsPath (pathlib p))) ;;
  set_PosixPath windows ;;;
  checkpoint <~ torch_load env MODEL_PATH ;;
  set_global "checkpoint" (VObj checkpoint) ;;;
  (* Restore original PosixPath *)
  temp <~ get_global "temp" ;;
  match temp with
  | VPathClass temp => set_PosixPath temp
  | _ => raise (Exn TypeError "temp is not a class")
  end ;;;
  (* Handle different checkpoint formats based on notebook *)
  has_model_state <~ read (fun _ => contains "model_state" checkpoint) ;;
  (if has_model_state : bool then
     sd <~ read (fun _ => getitem checkpoint "model_state") ;;
     on_model (load_state_dict sd)
   else
     has_model_state_dict <~ read (fun _ => contains "model_state_dict" checkpoint) ;;
     if has_model_state_dict : bool then
       sd <~ read (fun _ => getitem checkpoint "model_state_dict") ;;
       on_model (load_state_dict sd)
     else
       has_state_dict <~ read (fun _ => contains "state_dict" checkpoint) ;;
       if has_state_dict : bool then
         sd <~ read (fun _ => getitem checkpoint "state_dict") ;;
         on_model (load_state_dict sd)
       else
         (* checkpoint=state dict *)
         on_model (load_state_dict checkpoint)) ;;;
  on_model (fun net => (Ok tt, ColorizationSDAEUNet_eval net)) ;;;
  print ("Model loaded successfully from " +:+ MODEL_PATH).

(** The two [except] clauses (lines 52-55). *)
Definition load_model_except (e : PyExn) : M Process unit :=
  match e with
  | Exn FileNotFoundError _ =>
      print ("WARNING: Model file not found at " +:+ MODEL_PATH
             +:+ ". Inference will use random weights.")
  | _ => print ("ERROR loading model: " +:+ str e)
  end.

(** Lines 12-55 and the two [def]s: what importing [app.py] does.
    [add_middleware] configures the application object and [.to(DEVICE)]
    moves the parameters; neither binds a name or changes a value. *)
Definition startup (env : Env) : M Process unit :=
  set_global "app" VApp ;;;
  set_global "DEVICE" (VStr (DEVICE env)) ;;;
  set_global "MODEL_PATH" (VStr MODEL_PATH) ;;;
  set_global "IMAGE_SIZE" (VInt IMAGE_SIZE) ;;;
  (* Model *)
  set_global "model" (VModel (ColorizationSDAEUNet_init 1 2 64)) ;;;
  try_except (load_model_try env) load_model_except ;;;
  set_global "preprocess_image" (VFunction "preprocess_image") ;;;
  set_global "colorize" (VFunction "colorize").

(** ** [app.py]: preprocess_image *)

Definition preprocess_image (image_bytes : list Byte.byte) : PyResult (Tensor * (Z * Z)) :=
  img <-? Image_open image_bytes ;;
  img <-? Image_convert img "RGB" ;;
  let original_size := im_size img in
  img <-? Image_resize img (IMAGE_SIZE, IMAGE_SIZE) ;;
  let rgb := np_map div255 (np_asarray img) in
  lab <-? cv2_cvtColor rgb COLOR_RGB2LAB ;;
  L <-? slice_last_0_1 lab ;;
  let L_norm := np_map L_norm L in
  L_tensor <-? permute_201 L_norm ;;
  let L_tensor := unsqueeze_0 L_tensor in
  Ok (L_tensor, original_size).

(** ** [app.py]: the [/colorize] endpoint *)

Record UploadFile := mkUploadFile {
  content_type : option string;
  file_read : list Byte.byte }.

Record Response := mkResponse { content : list Byte.byte; media_type : string }.

(** The body of the [try] statement (lines 80-102).  [torch.no_grad()]
    switches off gradient recording only. *)
Definition colorize_try (file : UploadFile) : M Process Response :=
  let contents := file_read file in
  preprocessed <~ read (fun _ => preprocess_image contents) ;;
  let '(L_tensor, original_size) := preprocessed in
  (* L_tensor.to(DEVICE) moves the tensor, not its contents *)
  (* Inference *)
  ab_pred <~ on_model (ColorizationSDAEUNet_forward L_tensor) ;;
  rgb_out <~ read (fun _ => lab_denormalize L_tensor ab_pred) ;;
  rgb_out <~ read (fun _ => np_getitem rgb_out 0) ;;
  let rgb_uint8 := mkTensor (shape rgb_out) (astype_uint8 (ewise mul255 (data rgb_out))) in
  (* Convert back to PIL to save as PNG *)
  out_img <~ read (fun _ => Image_fromarray rgb_uint8) ;;
  out_img <~ read (fun _ => Image_resize out_img original_size) ;;
  let buf := png_encode out_img in
  ret {| content := buf; media_type := "image/png" |}.

Definition colorize (file : UploadFile) : M Process Response :=
  match content_type file with
  | None => raise (Exn AttributeError "'NoneType' object has no attribute 'startswith'")
  | Some ct =>
      if negb (String.prefix "image/" ct) then
        raise (HTTPException 400 "File must be an image")
      else
        try_except (colorize_try file)
          (fun e => print_exc e ;;; raise (HTTPException 500 (str e)))
  end.

(** The status line FastAPI sends for the outcome of a handler. *)
Definition http_status {A} (r : PyResult A) : Z :=
  match r with
  | Ok _ => 200
  | Raise (HTTPException status_code _) => status_code
  | Raise (Exn _ _) => 500
  end.


(** ** Predicates used in the statements *)

(** The hyper-parameters a constructor fixes, and the mode [t] of the
    normalisation layers. *)
Definition Conv2d_ok (i o k p : Z) (c : Conv2d) : Prop :=
  in_channels c = i /\ out_channels c = o /\ kernel_size c = k /\ padding c = p.

Definition BatchNorm2d_ok (c : Z) (t : bool) (bn : BatchNorm2d) : Prop :=
  num_features bn = c /\ bn_training bn = t.

Definition ConvBlock_ok (i o : Z) (t : bool) (cb : ConvBlock) : Prop :=
  Conv2d_ok i o 3 1 (block_0 cb) /\ BatchNorm2d_ok o t (block_1 cb)
  /\ Conv2d_ok o o 3 1 (block_3 cb) /\ BatchNorm2d_ok o t (block_4 cb).

Definition UpBlock_ok (i o : Z) (t : bool) (ub : UpBlock) : Prop :=
  (ct_in_channels (up ub) = i /\ ct_out_channels (up ub) = o
   /\ ct_kernel_size (up ub) = 2 /\ ct_stride (up ub) = 2)
  /\ ConvBlock_ok (o * 2) o t (conv ub).

(** [m] has the architecture of [ColorizationSDAEUNet(in_ch, out_ch,
    base_ch)] and is in training mode ([t = true]) or in evaluation mode. *)
Definition Net_ok (in_ch out_ch base_ch : Z) (t : bool) (m : ColorizationSDAEUNet) : Prop :=
  ConvBlock_ok in_ch base_ch t (enc1 m)
  /\ ConvBlock_ok base_ch (base_ch * 2) t (enc2 m)
  /\ ConvBlock_ok (base_ch * 2) (base_ch * 4) t (enc3 m)
  /\ ConvBlock_ok (base_ch * 4) (base_ch * 8) t (enc4 m)
  /\ pool m = MaxPool2d_init 2
  /\ ConvBlock_ok (base_ch * 8) (base_ch * 16) t (bottleneck m)
  /\ UpBlock_ok (base_ch * 16) (base_ch * 8) t (up4 m)
  /\ UpBlock_ok (base_ch * 8) (base_ch * 4) t (up3 m)
  /\ UpBlock_ok (base_ch * 4) (base_ch * 2) t (up2 m)
  /\ UpBlock_ok (base_ch * 2) base_ch t (up1 m)
  /\ Conv2d_ok base_ch out_ch 1 0 (out_conv m)
  /\ training m = t.

(** Two states of a layer that an inference call cannot tell apart: the
    learned parameters and the mode agree, and so do the buffers whenever
    the mode makes the layer read them. *)
Definition BatchNorm2d_sim (a b : BatchNorm2d) : Prop :=
  num_features a = num_features b /\ bn_weight a = bn_weight b /\ bn_bias a = bn_bias b
  /\ bn_training a = bn_training b /\ (bn_training a = false -> a = b).

Definition ConvBlock_sim (a b : ConvBlock) : Prop :=
  block_0 a = block_0 b /\ BatchNorm2d_sim (block_1 a) (block_1 b)
  /\ block_3 a = block_3 b /\ BatchNorm2d_sim (block_4 a) (block_4 b).

Definition UpBlock_sim (a b : UpBlock) : Prop :=
  up a = up b /\ ConvBlock_sim (conv a) (conv b).

Definition same_parameters (a b : ColorizationSDAEUNet) : Prop :=
  ConvBlock_sim (enc1 a) (enc1 b) /\ ConvBlock_sim (enc2 a) (enc2 b)
  /\ ConvBlock_sim (enc3 a) (enc3 b) /\ ConvBlock_sim (enc4 a) (enc4 b)
  /\ pool a = pool b
  /\ ConvBlock_sim (bottleneck a) (bottleneck b)
  /\ UpBlock_sim (up4 a) (up4 b) /\ UpBlock_sim (up3 a) (up3 b)
  /\ UpBlock_sim (up2 a) (up2 b) /\ UpBlock_sim (up1 a) (up1 b)
  /\ out_conv a = out_conv b
  /\ training a = training b.

(** The object bound to the global [model]. *)
Definition model_of (p : Process) : option ColorizationSDAEUNet :=
  match globals p !! "model" with
  | Some (VModel m) => Some m
  | _ => None
  end.

(** What every request relies on: [model] is bound to a network built by
    [ColorizationSDAEUNet()], in one of the two modes. *)
Definition serving_with (Q : ColorizationSDAEUNet -> Prop) (p : Process) : Prop :=
  exists m, model_of p = Some m /\ Q m.

Definition serving (p : Process) : Prop :=
  serving_with (fun m => exists t, Net_ok 1 2 64 t m) p.

(** The same, with the model known to be in training mode. *)
Definition serving_untrained (p : Process) : Prop :=
  serving_with (Net_ok 1 2 64 true) p.

(** The states the serving process goes through: the one left by
    importing [app.py], then one more after every request. *)
Inductive reachable (env : Env) : Process -> Prop :=
| reachable_startup : reachable env (startup env boot).2
| reachable_request (p : Process) (file : UploadFile) :
    reachable env p -> reachable env (colorize file p).2.

(** A module-level name bound to a boolean: the only shape a status flag
    of the loader could take in [app.py]. *)
Definition exposes_status_flag (p : Process) : Prop :=
  exists (name : string) (b : bool), globals p !! name = Some (VBool b).

(** The model after a series of forward passes on the inputs [xs], each
    outcome being discarded. *)
Definition forward_all (xs : list Tensor) (m : ColorizationSDAEUNet) : ColorizationSDAEUNet :=
  fold_left (fun m x => (ColorizationSDAEUNet_forward x m).2) xs m.

(** Two states of the process that differ at most in the object bound to
    [model]. *)
Definition same_but_model (p q : Process) : Prop :=
  pathlib q = pathlib p /\ stdout q = stdout p /\ stderr q = stderr p
  /\ forall name, name <> "model" -> globals q !! name = globals p !! name.

(** Two states of the process whose models an inference call cannot tell
    apart. *)
Definition same_service (p q : Process) : Prop :=
  exists m m', model_of p = Some m /\ model_of q = Some m' /\ same_parameters m m'.

(** The resolution order of the checkpoint loader as the specification
    words it: the mapping under the first recognised key, else the whole
    object. *)
Definition resolve_checkpoint (d : gmap string PyObj) : PyObj :=
  match d !! "model_state" with
  | Some sd => sd
  | None =>
      match d !! "model_state_dict" with
      | Some sd => sd
      | None =>
          match d !! "state_dict" with
          | Some sd => sd
          | None => PyDict d
          end
      end
  end.

(** The model once [load_state_dict sd] and, if that did not raise,
    [eval()] have been called on it. *)
Definition loaded_from (sd : PyObj) (m : ColorizationSDAEUNet) : ColorizationSDAEUNet :=
  match load_state_dict sd m with
  | (Ok _, m') => ColorizationSDAEUNet_eval m'
  | (Raise _, m') => m'
  end.

End Program.

(** ** A symbolic instance of the kernels

    Payloads are terms recording which kernel produced them.  Images are
    coded as [width] bytes [x01], one byte [x00], then [height] bytes
    [x01]; a checkpoint file is one byte naming the layout of the pickled
    dictionary.  Concrete runs of the program below use this instance. *)

Inductive Sym :=
| Leaf (name : string) (dims : list Z)
| Op (name : string) (args : list Sym).

Fixpoint count_ones (bs : list Byte.byte) : nat * list Byte.byte :=
  match bs with
  | Byte.x01 :: rest => let (n, tl) := count_ones rest in (S n, tl)
  | _ => (O, bs)
  end.

Definition sym_decode (bs : list Byte.byte) : PyResult (PILImage Sym) :=
  match count_ones bs with
  | (w, Byte.x00 :: rest) =>
      match count_ones rest with
      | (h, []) => Ok (mkImage (Z.of_nat w, Z.of_nat h) "L" (Leaf "pixels" []))
      | _ => Raise (Exn UnidentifiedImageError "cannot identify image file")
      end
  | _ => Raise (Exn UnidentifiedImageError "cannot identify image file")
  end.

Definition sym_encode (img : PILImage Sym) : list Byte.byte :=
  repeat Byte.x01 (Z.to_nat (im_size img).1) ++ Byte.x00
    :: repeat Byte.x01 (Z.to_nat (im_size img).2).

Definition sym_state_dict : PyObj Sym :=
  PyDict {[ "enc1.block.0.weight" := PyTensor [64; 1; 3; 3] (Leaf "trained" [64; 1; 3; 3]) ]}.

Definition sym_unpickle (_ : PathClass) (bs : list Byte.byte) : PyResult (PyObj Sym) :=
  match bs with
  | [Byte.x01] => Ok (PyDict {[ "model_state" := sym_state_dict; "epoch" := PyLong 7 ]})
  | [Byte.x02] => Ok (PyDict {[ "model_state_dict" := sym_state_dict ]})
  | [Byte.x03] => Ok (PyDict {[ "state_dict" := sym_state_dict ]})
  | [Byte.x04] => Ok sym_state_dict
  | [Byte.x05] => Ok (PyOpaque "ColorizationSDAEUNet(...)")
  | _ => Raise (Exn UnpicklingError "invalid load key")
  end.

Definition sym_copy (sd : PyObj Sym) (key : string) (dims : list Z) (old : Sym) : Sym :=
  match sd with
  | PyDict d =>
      match d !! key with
      | Some (PyTensor dims' new) => if decide (dims' = dims) then new else old
      | _ => old
      end
  | _ => old
  end.

Definition sym_copy_long (sd : PyObj Sym) (key : string) (old : Z) : Z :=
  match sd with
  | PyDict d =>
      match d !! key with
      | Some (PyLong new) => new
      | _ => old
      end
  | _ => old
  end.

Definition sym_errors (entries : list (string * list Z)) (sd : PyObj Sym) : option PyExn :=
  match sd with
  | PyDict d =>
      if bool_decide (is_Some (d !! "corrupt"))
      then Some (Exn RuntimeError "Error(s) in loading state_dict")
      else None
  | _ => Some (Exn TypeError "Expected state_dict to be dict-like")
  end.

(** On the sample objects: a tensor refuses a string, the pickled module
    is not iterable. *)
Definition sym_contains (obj : PyObj Sym) (key : string) : PyResult bool :=
  match obj with
  | PyOpaque _ => Raise (Exn TypeError "argument of type 'ColorizationSDAEUNet' is not iterable")
  | _ => Raise (Exn RuntimeError "Tensor.__contains__ only supports Tensor or scalar")
  end.

Definition sym_getitem (obj : PyObj Sym) (key : string) : PyResult (PyObj Sym) :=
  match obj with
  | PyOpaque _ => Raise (Exn TypeError "'ColorizationSDAEUNet' object is not subscriptable")
  | _ => Raise (Exn IndexError "too many indices for tensor of dimension 0")
  end.

#[export] Instance symbolic : Kernels Sym := {|
  randn dims := Leaf "randn" dims;
  zeros dims := Leaf "zeros" dims;
  ones dims := Leaf "ones" dims;
  conv2d_data w b _ x :=
    Op "conv2d" (w :: match b with Some b => [b; x] | None => [x] end);
  conv_transpose2d_data w b _ x :=
    Op "conv_transpose2d" (w :: match b with Some b => [b; x] | None => [x] end);
  batch_norm_eval_data w b mean var x := Op "batch_norm_eval" [w; b; mean; var; x];
  batch_norm_train_data w b x := Op "batch_norm_train" [w; b; x];
  momentum_mean mean x := Op "momentum_mean" [mean; x];
  momentum_var var x := Op "momentum_var" [var; x];
  relu_data x := Op "relu" [x];
  max_pool2d_data _ _ x := Op "max_pool2d" [x];
  pad_data _ x := Op "pad" [x];
  cat_data _ a b := Op "cat" [a; b];
  torch_unpickle := sym_unpickle;
  state_dict_copy := sym_copy;
  state_dict_copy_long := sym_copy_long;
  state_dict_errors := sym_errors;
  object_contains := sym_contains;
  object_getitem := sym_getitem;
  ewise _ x := Op "ewise" [x];
  astype_uint8 x := Op "astype_uint8" [x];
  slice_last _ _ x := Op "slice" [x];
  permute_data _ x := Op "permute" [x];
  select_data _ x := Op "select" [x];
  stack_data xs := Op "stack" xs;
  cvtColor_data code x :=
    Op (match code with COLOR_RGB2LAB => "RGB2LAB" | COLOR_LAB2RGB => "LAB2RGB" end) [x];
  pil_decode := sym_decode;
  convert_error img mode :=
    if decide (im_size img = (0, 0)) then Some (Exn OSError "image file is truncated") else None;
  convert_data _ _ x := Op "convert" [x];
  lanczos_data _ _ x := Op "lanczos" [x];
  png_encode := sym_encode
|}.

(** The same kernels with another verdict on the state dicts offered to
    [load_state_dict]. *)
Definition with_state_dict_errors {D : Type} (K : Kernels D)
    (verdict : list (string * list Z) -> PyObj D -> option PyExn) : Kernels D :=
  {| randn := @randn D K; zeros := @zeros D K; ones := @ones D K;
     conv2d_data := @conv2d_data D K;
     conv_transpose2d_data := @conv_transpose2d_data D K;
     batch_norm_eval_data := @batch_norm_eval_data D K;
     batch_norm_train_data := @batch_norm_train_data D K;
     momentum_mean := @momentum_mean D K; momentum_var := @momentum_var D K;
     relu_data := @relu_data D K; max_pool2d_data := @max_pool2d_data D K;
     pad_data := @pad_data D K; cat_data := @cat_data D K;
     torch_unpickle := @torch_unpickle D K;
     state_dict_copy := @state_dict_copy D K;
     state_dict_copy_long := @state_dict_copy_long D K;
     state_dict_errors := verdict;
     object_contains := @object_contains D K; object_getitem := @object_getitem D K;
     ewise := @ewise D K; astype_uint8 := @astype_uint8 D K;
     slice_last := @slice_last D K; permute_data := @permute_data D K;
     select_data := @select_data D K; stack_data := @stack_data D K;
     cvtColor_data := @cvtColor_data D K;
     pil_decode := @pil_decode D K; convert_error := @convert_error D K;
     convert_data := @convert_data D K; lanczos_data := @lanczos_data D K;
     png_encode := @png_encode D K |}.

(** The symbolic kernels with a [load_state_dict] that finds keys missing. *)
Definition symbolic_strict : Kernels Sym :=
  with_state_dict_errors symbolic
    (fun _ _ => Some (Exn RuntimeError "Error(s) in loading state_dict: Missing key(s)")).

(** A machine without the checkpoint file, and machines holding one of the
    five sample files. *)
Definition no_checkpoint : Env := {| cuda_is_available := false; files := ∅ |}.

Definition with_checkpoint (b : Byte.byte) : Env :=
  {| cuda_is_available := false; files := {[ MODEL_PATH := [b] ]} |}.

(** An upload of a [w] by [h] image, declared as PNG. *)
Definition upload (w h : nat) : UploadFile :=
  {| content_type := Some "image/png";
     file_read := repeat Byte.x01 w ++ Byte.x00 :: repeat Byte.x01 h |}.

(** A tensor of the given shape. *)
Definition sym_tensor (dims : list Z) : Tensor Sym := mkTensor dims (Leaf "input" dims).

(** * Properties *)

(** ** Reasoning rules for [M] *)

Section Rules.

Context {S : Type}.

Lemma triple_bind {A B} (P : S -> Prop) (m : M S A) (Q : A -> S -> Prop)
    (k : A -> M S B) (R : B -> S -> Prop) :
  triple P m Q -> (forall a, triple (Q a) (k a) R) -> triple P (bind m k) R.
Proof.
  intros Hm Hk s Hs. destruct (Hm s Hs) as (a & s' & E & HQ).
  destruct (Hk a s' HQ) as (b & s'' & E' & HR).
  exists b, s''. unfold bind. rewrite E. auto.
Qed.

(** The form used along a function body: [I] is kept by every statement
    and the facts [F] about the values bound so far go to the context. *)
Lemma triple_step {A B} (I : S -> Prop) (m : M S A) (F : A -> Prop)
    (k : A -> M S B) (R : B -> S -> Prop) :
  triple I m (fun a s => F a /\ I s) ->
  (forall a, F a -> triple I (k a) R) ->
  triple I (bind m k) R.
Proof.
  intros Hm Hk. eapply triple_bind; [exact Hm|].
  intros a s [HF HI]. exact (Hk a HF s HI).
Qed.

Lemma triple_ret {A} (I : S -> Prop) (a : A) (R : A -> S -> Prop) :
  (forall s, I s -> R a s) -> triple I (ret a) R.
Proof. intros H s Hs. exists a, s. split; [reflexivity | auto]. Qed.

Lemma triple_read {A} (I : S -> Prop) (f : S -> PyResult A) (F : A -> Prop) :
  (forall s, I s -> exists a, f s = Ok a /\ F a) ->
  triple I (read f) (fun a s => F a /\ I s).
Proof.
  intros H s Hs. destruct (H s Hs) as (a & E & HF).
  exists a, s. unfold read. rewrite E. auto.
Qed.

Lemma triple_zoom {T A} (get : S -> T) (set : T -> S -> S) (m : M T A)
    (I : S -> Prop) (P : T -> Prop) (Q : A -> T -> Prop) (R : A -> S -> Prop) :
  triple P m Q ->
  (forall s, I s -> P (get s)) ->
  (forall s a t, I s -> Q a t -> R a (set t s)) ->
  triple I (zoom get set m) R.
Proof.
  intros Hm Hget Hset s Hs. destruct (Hm (get s) (Hget s Hs)) as (a & t & E & HQ).
  exists a, (set t s). unfold zoom. rewrite E. eauto.
Qed.

Lemma preserves_bind {A B} (I : S -> Prop) (m : M S A) (k : A -> M S B) :
  preserves I m -> (forall a, preserves I (k a)) -> preserves I (bind m k).
Proof.
  intros Hm Hk s Hs. specialize (Hm s Hs). unfold bind.
  destruct (m s) as [[a|e] s']; simpl in *; [apply Hk|]; assumption.
Qed.

Lemma preserves_ret {A} (I : S -> Prop) (a : A) : preserves I (ret a).
Proof. intros s Hs. exact Hs. Qed.

Lemma preserves_raise {A} (I : S -> Prop) (e : PyExn) : preserves I (@raise S A e).
Proof. intros s Hs. exact Hs. Qed.

Lemma preserves_read {A} (I : S -> Prop) (f : S -> PyResult A) : preserves I (read f).
Proof. intros s Hs. exact Hs. Qed.

Lemma preserves_zoom {T A} (get : S -> T) (set : T -> S -> S) (m : M T A)
    (I : S -> Prop) (J : T -> Prop) :
  preserves J m ->
  (forall s, I s -> J (get s)) ->
  (forall s t, I s -> J t -> I (set t s)) ->
  preserves I (zoom get set m).
Proof.
  intros Hm Hget Hset s Hs. specialize (Hm (get s) (Hget s Hs)). unfold zoom.
  destruct (m (get s)) as [r t]; simpl in *. auto.
Qed.

Lemma preserves_try_except {A} (I : S -> Prop) (body : M S A) (handler : PyExn -> M S A) :
  preserves I body -> (forall e, preserves I (handler e)) ->
  preserves I (try_except body handler).
Proof.
  intros Hb Hh s Hs. specialize (Hb s Hs). unfold try_except.
  destruct (body s) as [[a|e] s']; simpl in *; [|apply Hh]; assumption.
Qed.

Lemma respects_bind {A B} (R : S -> S -> Prop) (m : M S A) (k : A -> M S B) :
  respects R m -> (forall a, respects R (k a)) -> respects R (bind m k).
Proof.
  intros Hm Hk s1 s2 H. destruct (Hm s1 s2 H) as [E H']. unfold bind.
  destruct (m s1) as [[a1|e1] s1'], (m s2) as [[a2|e2] s2']; simpl in *;
    try discriminate; inversion E; subst; [apply Hk; assumption | auto].
Qed.

Lemma respects_ret {A} (R : S -> S -> Prop) (a : A) : respects R (ret a).
Proof. intros s1 s2 H. auto. Qed.

Lemma respects_read {A} (R : S -> S -> Prop) (f : S -> PyResult A) :
  (forall s1 s2, R s1 s2 -> f s1 = f s2) -> respects R (read f).
Proof. intros Hf s1 s2 H. simpl. auto. Qed.

Lemma respects_zoom {T A} (get : S -> T) (set : T -> S -> S) (m : M T A)
    (R : S -> S -> Prop) (R' : T -> T -> Prop) :
  respects R' m ->
  (forall s1 s2, R s1 s2 -> R' (get s1) (get s2)) ->
  (forall s1 s2 t1 t2, R s1 s2 -> R' t1 t2 -> R (set t1 s1) (set t2 s2)) ->
  respects R (zoom get set m).
Proof.
  intros Hm Hget Hset s1 s2 H. destruct (Hm _ _ (Hget _ _ H)) as [E H']. unfold zoom.
  destruct (m (get s1)) as [r1 t1], (m (get s2)) as [r2 t2]; simpl in *. auto.
Qed.

Lemma stays_bind {A B} (R : S -> S -> Prop) (m : M S A) (k : A -> M S B) :
  (forall a b c, R a b -> R b c -> R a c) ->
  stays R m -> (forall a, stays R (k a)) -> stays R (bind m k).
Proof.
  intros Htrans Hm Hk s. specialize (Hm s). unfold bind.
  destruct (m s) as [[a|e] s']; simpl in *; [|assumption].
  eapply Htrans; [exact Hm | apply Hk].
Qed.

Lemma stays_ret {A} (R : S -> S -> Prop) (a : A) :
  (forall s, R s s) -> stays R (ret a).
Proof. intros Hrefl s. apply Hrefl. Qed.

Lemma stays_read {A} (R : S -> S -> Prop) (f : S -> PyResult A) :
  (forall s, R s s) -> stays R (read f).
Proof. intros Hrefl s. apply Hrefl. Qed.

Lemma stays_zoom {T A} (get : S -> T) (set : T -> S -> S) (m : M T A)
    (R : S -> S -> Prop) (R' : T -> T -> Prop) :
  stays R' m ->
  (forall s t, R' (get s) t -> R s (set t s)) ->
  stays R (zoom get set m).
Proof.
  intros Hm Hset s. specialize (Hm (get s)). unfold zoom.
  destruct (m (get s)) as [r t]; simpl in *. auto.
Qed.

Lemma preserves_True {A} (m : M S A) : preserves (fun _ => True) m.
Proof. intros s _. exact I. Qed.

(** A property set up by the first statement and kept by the rest holds
    at the end, however the rest ends. *)
Lemma bind_establishes {A B} (J : S -> Prop) (m : M S A) (k : A -> M S B) (s : S) :
  J (m s).2 -> (forall a, preserves J (k a)) -> J (bind m k s).2.
Proof.
  intros Hm Hk. unfold bind. destruct (m s) as [[a|e] s']; simpl in *; [|assumption].
  apply Hk. assumption.
Qed.

Lemma bind_read_ok {A B} (f : S -> PyResult A) (k : A -> M S B) (s : S) (a : A) :
  f s = Ok a -> bind (read f) k s = k a s.
Proof. intros E. unfold bind, read. rewrite E. reflexivity. Qed.

Lemma bind_read_raise {A B} (f : S -> PyResult A) (k : A -> M S B) (s : S) (e : PyExn) :
  f s = Raise e -> bind (read f) k s = (Raise e, s).
Proof. intros E. unfold bind, read. rewrite E. reflexivity. Qed.

End Rules.

(** ** Integer facts *)

Lemma pooling_output_shape_half (h : Z) : pooling_output_shape h 2 2 = h / 2.
Proof.
  unfold pooling_output_shape. replace (h - (2 - 1) - 1) with (h + (-1) * 2) by ring.
  rewrite Z.div_add by lia. ring.
Qed.

Lemma half_lower (a b : Z) : 2 * b <= a -> b <= a / 2.
Proof. intros H. apply Z.div_le_lower_bound; lia. Qed.

Lemma sixteenth (h : Z) : h / 2 / 2 / 2 / 2 = h / 16.
Proof. rewrite !Z.div_div by lia. reflexivity. Qed.

Lemma floor_split_sum (a d : Z) : a + d / 2 + (d - d / 2) = a + d.
Proof. ring. Qed.

Lemma floor_split_balanced (d : Z) : 0 <= (d - d / 2) - d / 2 <= 1.
Proof.
  pose proof (Z.mul_div_le d 2). pose proof (Z.mul_succ_div_gt d 2). lia.
Qed.

Lemma wrap_int64_succ_ne (z : Z) : wrap_int64 (z + 1) <> z.
Proof.
  unfold wrap_int64. intros H.
  assert (Hm : (z + 1 + 2 ^ 63) mod 2 ^ 64 = z + 2 ^ 63) by lia.
  pose proof (Z.mod_pos_bound (z + 1 + 2 ^ 63) (2 ^ 64) ltac:(lia)) as Hb.
  assert (Hz : (z + 2 ^ 63) mod 2 ^ 64 = z + 2 ^ 63) by (apply Z.mod_small; lia).
  replace (z + 1 + 2 ^ 63) with (z + 2 ^ 63 + 1) in Hm by ring.
  rewrite Z.add_mod in Hm by lia. rewrite Hz in Hm.
  change (1 mod 2 ^ 64) with 1 in Hm.
  destruct (Z.eq_dec (z + 2 ^ 63 + 1) (2 ^ 64)) as [E|E].
  - rewrite E, Z.mod_same in Hm by lia. lia.
  - rewrite Z.mod_small in Hm by lia. lia.
Qed.

(** Turns the integer tests of a layer into [true] or [false]. *)
Ltac zbool :=
  repeat match goal with
    | |- context [?a =? ?b] =>
        first [ replace (a =? b) with true by (symmetry; apply Z.eqb_eq; lia)
              | replace (a =? b) with false by (symmetry; apply Z.eqb_neq; lia) ]
    | |- context [?a <? ?b] =>
        first [ replace (a <? b) with true by (symmetry; apply Z.ltb_lt; lia)
              | replace (a <? b) with false by (symmetry; apply Z.ltb_ge; lia) ]
    | |- context [?a <=? ?b] =>
        first [ replace (a <=? b) with true by (symmetry; apply Z.leb_le; lia)
              | replace (a <=? b) with false by (symmetry; apply Z.leb_gt; lia) ]
    end.

(** ** The layers *)

Section Layers.

Context {D : Type} `{!Kernels D}.

Lemma Conv2d_forward_shape (c : @Conv2d D) (x : Tensor D) (i o k p n h w : Z) :
  Conv2d_ok i o k p c ->
  shape x = [n; i; h; w] ->
  1 <= conv_output_size h k p -> 1 <= conv_output_size w k p ->
  Conv2d_forward c x
  = Ok (mkTensor [n; o; conv_output_size h k p; conv_output_size w k p]
          (conv2d_data (conv_weight c) (conv_bias c) p (data x))).
Proof.
  intros (Hi & Ho & Hk & Hp) Hx Hh Hw. unfold Conv2d_forward.
  rewrite Hx, Hi, Ho, Hk, Hp. zbool. reflexivity.
Qed.

Lemma ConvTranspose2d_forward_shape (c : @ConvTranspose2d D) (x : Tensor D) (i n h w : Z) :
  ct_in_channels c = i ->
  shape x = [n; i; h; w] ->
  exists y,
    ConvTranspose2d_forward c x = Ok y
    /\ shape y = [n; ct_out_channels c;
                  (h - 1) * ct_stride c + ct_kernel_size c;
                  (w - 1) * ct_stride c + ct_kernel_size c].
Proof.
  intros Hi Hx. unfold ConvTranspose2d_forward. rewrite Hx, Hi. zbool.
  eexists. split; reflexivity.
Qed.

Lemma MaxPool2d_forward_shape (x : Tensor D) (n c h w : Z) :
  shape x = [n; c; h; w] -> 2 <= h -> 2 <= w ->
  exists y, MaxPool2d_forward (MaxPool2d_init 2) x = Ok y /\ shape y = [n; c; h / 2; w / 2].
Proof.
  intros Hx Hh Hw. unfold MaxPool2d_forward, MaxPool2d_init. rewrite Hx. cbn [pool_kernel_size pool_stride].
  rewrite !pooling_output_shape_half.
  pose proof (half_lower h 1 ltac:(lia)). pose proof (half_lower w 1 ltac:(lia)).
  zbool. eexists. split; reflexivity.
Qed.

(** A pooling window that does not fit is an error. *)
Lemma MaxPool2d_forward_too_small (x : Tensor D) (n c h w : Z) :
  shape x = [n; c; h; w] -> h < 2 \/ w < 2 ->
  MaxPool2d_forward (MaxPool2d_init 2) x = Raise (Exn RuntimeError "Output size is too small").
Proof.
  intros Hx Hsmall. unfold MaxPool2d_forward, MaxPool2d_init. rewrite Hx.
  cbn [pool_kernel_size pool_stride]. rewrite !pooling_output_shape_half.
  assert (E : (h / 2 <? 1) || (w / 2 <? 1) = true).
  { apply orb_true_iff. destruct Hsmall; [left | right]; apply Z.ltb_lt;
      apply Z.div_lt_upper_bound; lia. }
  rewrite E. reflexivity.
Qed.

Lemma BatchNorm2d_forward_spec (x : Tensor D) (c n h w : Z) (t : bool) :
  shape x = [n; c; h; w] ->
  (t = true -> n * h * w <> 1) ->
  triple (BatchNorm2d_ok c t) (BatchNorm2d_forward x)
    (fun y bn => shape y = [n; c; h; w] /\ BatchNorm2d_ok c t bn).
Proof.
  intros Hx Hbatch bn [Hc Ht]. unfold BatchNorm2d_forward, bind, F_batch_norm.
  rewrite Hx, Ht. destruct t; simpl; rewrite ?Ht, ?Hc.
  - specialize (Hbatch eq_refl). zbool. simpl.
    eexists _, _. split; [reflexivity|]. repeat split; assumption.
  - zbool. simpl. eexists _, _. split; [reflexivity|]. repeat split; assumption.
Qed.

Lemma BatchNorm2d_forward_preserves (x : Tensor D) (c : Z) (t : bool) :
  preserves (BatchNorm2d_ok c t) (BatchNorm2d_forward x).
Proof.
  intros bn [Hc Ht]. unfold BatchNorm2d_forward.
  destruct (shape x) as [|n [|ch [|h [|w [|]]]]]; try (split; assumption).
  unfold bind, F_batch_norm.
  destruct (bn_training bn) eqn:E; simpl; rewrite ?E; simpl;
    repeat match goal with |- context [if ?b then _ else _] => destruct b end;
    split; simpl; congruence.
Qed.

Lemma conv_output_size_3_1 (h : Z) : conv_output_size h 3 1 = h.
Proof. unfold conv_output_size. ring. Qed.

Lemma conv_output_size_1_0 (h : Z) : conv_output_size h 1 0 = h.
Proof. unfold conv_output_size. ring. Qed.

Lemma Conv2d_3x3_shape (c : @Conv2d D) (x : Tensor D) (i o n h w : Z) :
  Conv2d_ok i o 3 1 c -> shape x = [n; i; h; w] -> 1 <= h -> 1 <= w ->
  exists y, Conv2d_forward c x = Ok y /\ shape y = [n; o; h; w].
Proof.
  intros Hc Hx Hh Hw. eexists. split.
  - eapply Conv2d_forward_shape; eauto; rewrite conv_output_size_3_1; assumption.
  - simpl. rewrite !conv_output_size_3_1. reflexivity.
Qed.

Lemma ConvBlock_forward_spec (x : Tensor D) (i o n h w : Z) (t : bool) :
  shape x = [n; i; h; w] -> 1 <= h -> 1 <= w ->
  (t = true -> n * h * w <> 1) ->
  triple (ConvBlock_ok i o t) (ConvBlock_forward x)
    (fun y cb => shape y = [n; o; h; w] /\ ConvBlock_ok i o t cb).
Proof.
  intros Hx Hh Hw Hbatch. unfold ConvBlock_forward.
  eapply triple_step with (F := fun y => shape y = [n; o; h; w]).
  { apply triple_read. intros cb (H0 & _). eapply Conv2d_3x3_shape; eauto. }
  intros x1 Hx1.
  eapply triple_step with (F := fun y => shape y = [n; o; h; w]).
  { eapply triple_zoom; [exact (BatchNorm2d_forward_spec x1 o n h w t Hx1 Hbatch) | |].
    - intros cb (_ & H1 & _). exact H1.
    - intros cb y bn (H0 & _ & H3 & H4) [Hy Hbn]. split; [exact Hy|].
      repeat split; simpl; try apply H0; try apply H3; try apply H4; apply Hbn. }
  intros x2 Hx2.
  eapply triple_step with (F := fun y => shape y = [n; o; h; w]).
  { apply triple_ret. intros cb Hcb. split; [exact Hx2 | exact Hcb]. }
  intros x3 Hx3.
  eapply triple_step with (F := fun y => shape y = [n; o; h; w]).
  { apply triple_read. intros cb (_ & _ & H3 & _). eapply Conv2d_3x3_shape; eauto. }
  intros x4 Hx4.
  eapply triple_step with (F := fun y => shape y = [n; o; h; w]).
  { eapply triple_zoom; [exact (BatchNorm2d_forward_spec x4 o n h w t Hx4 Hbatch) | |].
    - intros cb (_ & _ & _ & H4). exact H4.
    - intros cb y bn (H0 & H1 & H3 & _) [Hy Hbn]. split; [exact Hy|].
      repeat split; simpl; try apply H0; try apply H1; try apply H3; apply Hbn. }
  intros x5 Hx5.
  apply triple_ret. intros cb Hcb. split; [exact Hx5 | exact Hcb].
Qed.

Lemma ConvBlock_forward_preserves (x : Tensor D) (i o : Z) (t : bool) :
  preserves (ConvBlock_ok i o t) (ConvBlock_forward x).
Proof.
  unfold ConvBlock_forward.
  repeat first
    [ apply preserves_ret | apply preserves_read
    | apply preserves_bind; [|intros ?] ].
  - eapply preserves_zoom; [apply (BatchNorm2d_forward_preserves _ o t) | |].
    + intros cb (_ & H1 & _). exact H1.
    + intros cb bn (H0 & _ & H3 & H4) Hbn. repeat split; simpl;
        try apply H0; try apply H3; try apply H4; apply Hbn.
  - eapply preserves_zoom; [apply (BatchNorm2d_forward_preserves _ o t) | |].
    + intros cb (_ & _ & _ & H4). exact H4.
    + intros cb bn (H0 & H1 & H3 & _) Hbn. repeat split; simpl;
        try apply H0; try apply H1; try apply H3; apply Hbn.
Qed.

(** The padding step brings the upsampled tensor to the spatial size of
    the skip tensor, whatever the two sizes are; the amount missing on an
    axis is split into its floored half before and the rest after. *)
Lemma UpBlock_pad_shape (x skip : Tensor D) (n c hx wx n' c' hs ws : Z) :
  shape x = [n; c; hx; wx] -> shape skip = [n'; c'; hs; ws] ->
  0 <= hs -> 0 <= ws ->
  exists y,
    UpBlock_pad x skip = Ok y
    /\ shape y = [n; c; hs; ws]
    /\ (hx = hs /\ wx = ws /\ y = x
        \/ (hx <> hs \/ wx <> ws)
           /\ data y = pad_data [(ws - wx) / 2; (ws - wx) - (ws - wx) / 2;
                                 (hs - hx) / 2; (hs - hx) - (hs - hx) / 2] (data x)).
Proof.
  intros Hx Hs Hh Hw. unfold UpBlock_pad. rewrite Hx, Hs.
  change (last2 [n; c; hx; wx]) with [hx; wx].
  change (last2 [n'; c'; hs; ws]) with [hs; ws].
  destruct (decide ([hx; wx] <> [hs; ws])) as [Hne | Heq].
  - simpl. unfold F_pad. rewrite Hx. simpl.
    rewrite !floor_split_sum. zbool. simpl.
    eexists. split; [reflexivity|]. split; [simpl; f_equal; f_equal; f_equal; [|f_equal]; ring|].
    right. split; [|reflexivity].
    destruct (decide (hx = hs)); [|left; assumption].
    destruct (decide (wx = ws)); [|right; assumption]. subst. contradiction.
  - assert (E : [hx; wx] = [hs; ws]) by (destruct (decide ([hx; wx] = [hs; ws])); tauto).
    inversion E; subst. exists x. split; [reflexivity|]. split; [assumption|]. left. auto.
Qed.

Lemma torch_cat_dim1_shape (a b : Tensor D) (n ca cb h w : Z) :
  shape a = [n; ca; h; w] -> shape b = [n; cb; h; w] ->
  exists y, torch_cat_dim1 a b = Ok y /\ shape y = [n; ca + cb; h; w].
Proof.
  intros Ha Hb. unfold torch_cat_dim1, cat_dim1. rewrite Ha, Hb.
  destruct (decide (n = n /\ [h; w] = [h; w])) as [_|Hne]; [|exfalso; apply Hne; auto].
  eexists. split; reflexivity.
Qed.

Lemma UpBlock_forward_spec (x skip : Tensor D) (i o n hx wx hs ws : Z) (t : bool) :
  shape x = [n; i; hx; wx] -> shape skip = [n; o; hs; ws] ->
  1 <= hs -> 1 <= ws ->
  (t = true -> n * hs * ws <> 1) ->
  triple (UpBlock_ok i o t) (UpBlock_forward x skip)
    (fun y ub => shape y = [n; o; hs; ws] /\ UpBlock_ok i o t ub).
Proof.
  intros Hx Hs Hh Hw Hbatch. unfold UpBlock_forward.
  eapply triple_step with (F := fun y => exists h' w', shape y = [n; o; h'; w']).
  { apply triple_read. intros ub ((Hi & Ho & _) & _).
    destruct (ConvTranspose2d_forward_shape (up ub) x i n hx wx Hi Hx) as (y & E & Hy).
    exists y. split; [exact E|]. rewrite Ho in Hy. eauto. }
  intros x1 (h' & w' & Hx1).
  eapply triple_step with (F := fun y => shape y = [n; o; hs; ws]).
  { apply triple_read. intros ub _.
    destruct (UpBlock_pad_shape x1 skip n o h' w' n o hs ws Hx1 Hs ltac:(lia) ltac:(lia))
      as (y & E & Hy & _).
    eauto. }
  intros x2 Hx2.
  eapply triple_step with (F := fun y => shape y = [n; o * 2; hs; ws]).
  { apply triple_read. intros ub _.
    destruct (torch_cat_dim1_shape skip x2 n o o hs ws Hs Hx2) as (y & E & Hy).
    exists y. split; [exact E|]. rewrite Hy. do 2 f_equal. ring. }
  intros x3 Hx3.
  eapply triple_zoom; [exact (ConvBlock_forward_spec x3 (o * 2) o n hs ws t Hx3 Hh Hw Hbatch) | |].
  - intros ub (_ & Hc). exact Hc.
  - intros ub y cb (Hup & _) [Hy Hcb]. split; [exact Hy|]. split; [exact Hup | exact Hcb].
Qed.

Lemma UpBlock_forward_preserves (x skip : Tensor D) (i o : Z) (t : bool) :
  preserves (UpBlock_ok i o t) (UpBlock_forward x skip).
Proof.
  unfold UpBlock_forward.
  repeat first [ apply preserves_read | apply preserves_bind; [|intros ?] ].
  eapply preserves_zoom; [apply (ConvBlock_forward_preserves _ (o * 2) o t) | |].
  - intros ub (_ & Hc). exact Hc.
  - intros ub cb (Hup & _) Hcb. split; [exact Hup | exact Hcb].
Qed.

(** ** The network *)

Ltac net_get := intros ? ?; unfold Net_ok in *; tauto.

Ltac net_set :=
  let Hy := fresh in
  intros ? ? ? ? [Hy ?]; split; [exact Hy|]; unfold Net_ok in *; simpl; tauto.

Ltac net_preserve := intros ? ? ? ?; unfold Net_ok in *; simpl; tauto.

Ltac pool_step :=
  let m := fresh "m" in
  let Hm := fresh "Hm" in
  let Hp := fresh "Hp" in
  apply triple_read; intros m Hm;
  assert (Hp : pool m = MaxPool2d_init 2) by (unfold Net_ok in Hm; tauto);
  rewrite Hp; eapply MaxPool2d_forward_shape; [eassumption | lia | lia].

(** A map of two rows or more holds more than one value per channel,
    whatever the batch. *)
Lemma several_values (n h w : Z) : 2 <= h -> 1 <= w -> n * h * w <> 1.
Proof.
  intros Hh Hw E. assert (Hd : (h | 1)) by (exists (n * w); lia).
  apply Z.divide_1_r_nonneg in Hd; lia.
Qed.

Ltac many_values := intros _; apply several_values; lia.

(** On an input of at least 16 by 16 the forward pass returns, with the
    spatial size of the input and [out_ch] channels; the value returned is
    what the 1x1 convolution [out_conv] computes from the last decoder
    stage.  In training mode the bottleneck must see more than one value
    per channel. *)
Lemma forward_trace (x : Tensor D) (ic oc bc N H W : Z) (t : bool) :
  shape x = [N; ic; H; W] ->
  16 <= H -> 16 <= W ->
  (t = true -> N * (H / 16) * (W / 16) <> 1) ->
  triple (Net_ok ic oc bc t) (ColorizationSDAEUNet_forward x)
    (fun y m' =>
       exists m0 e1 e2 e3 e4 b d4 d3 d2 d1 u4 u3 u2 u1,
         (shape e1 = [N; bc; H; W]
          /\ shape e2 = [N; bc * 2; H / 2; W / 2]
          /\ shape e3 = [N; bc * 4; H / 2 / 2; W / 2 / 2]
          /\ shape e4 = [N; bc * 8; H / 2 / 2 / 2; W / 2 / 2 / 2]
          /\ shape b = [N; bc * 16; H / 2 / 2 / 2 / 2; W / 2 / 2 / 2 / 2])
         /\ (UpBlock_forward b e4 (up4 m0) = (Ok d4, u4)
             /\ UpBlock_forward d4 e3 (up3 m0) = (Ok d3, u3)
             /\ UpBlock_forward d3 e2 (up2 m0) = (Ok d2, u2)
             /\ UpBlock_forward d2 e1 (up1 m0) = (Ok d1, u1))
         /\ (shape d4 = [N; bc * 8; H / 2 / 2 / 2; W / 2 / 2 / 2]
             /\ shape d3 = [N; bc * 4; H / 2 / 2; W / 2 / 2]
             /\ shape d2 = [N; bc * 2; H / 2; W / 2]
             /\ shape d1 = [N; bc; H; W])
         /\ m' = set_up1 u1 (set_up2 u2 (set_up3 u3 (set_up4 u4 m0)))
         /\ Conv2d_forward (out_conv m') d1 = Ok y
         /\ shape y = [N; oc; H; W]
         /\ Net_ok ic oc bc t m').
Proof.
  intros Hx HH HW Hbatch.
  rewrite <- (sixteenth H), <- (sixteenth W) in Hbatch.
  pose proof (half_lower H 8 ltac:(lia)) as Hh1.
  pose proof (half_lower W 8 ltac:(lia)) as Hw1.
  remember (H / 2) as h1 eqn:Eh1. remember (W / 2) as w1 eqn:Ew1.
  pose proof (half_lower h1 4 ltac:(lia)) as Hh2.
  pose proof (half_lower w1 4 ltac:(lia)) as Hw2.
  remember (h1 / 2) as h2 eqn:Eh2. remember (w1 / 2) as w2 eqn:Ew2.
  pose proof (half_lower h2 2 ltac:(lia)) as Hh3.
  pose proof (half_lower w2 2 ltac:(lia)) as Hw3.
  remember (h2 / 2) as h3 eqn:Eh3. remember (w2 / 2) as w3 eqn:Ew3.
  pose proof (half_lower h3 1 ltac:(lia)) as Hh4.
  pose proof (half_lower w3 1 ltac:(lia)) as Hw4.
  remember (h3 / 2) as h4 eqn:Eh4. remember (w3 / 2) as w4 eqn:Ew4.
  unfold ColorizationSDAEUNet_forward.
  (* Encoder *)
  eapply triple_step with (F := fun y => shape y = [N; bc; H; W]).
  { eapply triple_zoom;
      [eapply (ConvBlock_forward_spec x ic bc N H W t);
         [exact Hx | lia | lia | many_values] | net_get | net_set]. }
  intros e1 He1.
  eapply triple_step with (F := fun y => shape y = [N; bc; h1; w1]).
  { subst h1 w1. pool_step. }
  intros p1 Hp1.
  eapply triple_step with (F := fun y => shape y = [N; bc * 2; h1; w1]).
  { eapply triple_zoom;
      [eapply (ConvBlock_forward_spec p1 bc (bc * 2) N h1 w1 t);
         [exact Hp1 | lia | lia | many_values] | net_get | net_set]. }
  intros e2 He2.
  eapply triple_step with (F := fun y => shape y = [N; bc * 2; h2; w2]).
  { subst h2 w2. pool_step. }
  intros p2 Hp2.
  eapply triple_step with (F := fun y => shape y = [N; bc * 4; h2; w2]).
  { eapply triple_zoom;
      [eapply (ConvBlock_forward_spec p2 (bc * 2) (bc * 4) N h2 w2 t);
         [exact Hp2 | lia | lia | many_values] | net_get | net_set]. }
  intros e3 He3.
  eapply triple_step with (F := fun y => shape y = [N; bc * 4; h3; w3]).
  { subst h3 w3. pool_step. }
  intros p3 Hp3.
  eapply triple_step with (F := fun y => shape y = [N; bc * 8; h3; w3]).
  { eapply triple_zoom;
      [eapply (ConvBlock_forward_spec p3 (bc * 4) (bc * 8) N h3 w3 t);
         [exact Hp3 | lia | lia | many_values] | net_get | net_set]. }
  intros e4 He4.
  eapply triple_step with (F := fun y => shape y = [N; bc * 8; h4; w4]).
  { subst h4 w4. pool_step. }
  intros p4 Hp4.
  (* Bottleneck *)
  eapply triple_step with (F := fun y => shape y = [N; bc * 16; h4; w4]).
  { eapply triple_zoom;
      [eapply (ConvBlock_forward_spec p4 (bc * 8) (bc * 16) N h4 w4 t);
         [exact Hp4 | lia | lia | exact Hbatch] | net_get | net_set]. }
  intros b Hb.
  (* Decoder: the four stages run on the model as the bottleneck left it *)
  intros m0 Hm0.
  assert (Hu4 : UpBlock_ok (bc * 16) (bc * 8) t (up4 m0)) by (unfold Net_ok in Hm0; tauto).
  assert (Hu3 : UpBlock_ok (bc * 8) (bc * 4) t (up3 m0)) by (unfold Net_ok in Hm0; tauto).
  assert (Hu2 : UpBlock_ok (bc * 4) (bc * 2) t (up2 m0)) by (unfold Net_ok in Hm0; tauto).
  assert (Hu1 : UpBlock_ok (bc * 2) bc t (up1 m0)) by (unfold Net_ok in Hm0; tauto).
  assert (Hc : Conv2d_ok bc oc 1 0 (out_conv m0)) by (unfold Net_ok in Hm0; tauto).
  destruct (UpBlock_forward_spec b e4 (bc * 16) (bc * 8) N h4 w4 h3 w3 t Hb He4
              ltac:(lia) ltac:(lia) ltac:(many_values) (up4 m0) Hu4)
    as (d4 & u4 & E4 & Hd4 & Hu4').
  destruct (UpBlock_forward_spec d4 e3 (bc * 8) (bc * 4) N h3 w3 h2 w2 t Hd4 He3
              ltac:(lia) ltac:(lia) ltac:(many_values) (up3 m0) Hu3)
    as (d3 & u3 & E3 & Hd3 & Hu3').
  destruct (UpBlock_forward_spec d3 e2 (bc * 4) (bc * 2) N h2 w2 h1 w1 t Hd3 He2
              ltac:(lia) ltac:(lia) ltac:(many_values) (up2 m0) Hu2)
    as (d2 & u2 & E2 & Hd2 & Hu2').
  destruct (UpBlock_forward_spec d2 e1 (bc * 2) bc N h1 w1 H W t Hd2 He1
              ltac:(lia) ltac:(lia) ltac:(many_values) (up1 m0) Hu1)
    as (d1 & u1 & E1 & Hd1 & Hu1').
  pose proof (Conv2d_forward_shape (out_conv m0) d1 bc oc 1 0 N H W Hc Hd1) as E.
  rewrite !conv_output_size_1_0 in E. specialize (E ltac:(lia) ltac:(lia)).
  eexists _, (set_up1 u1 (set_up2 u2 (set_up3 u3 (set_up4 u4 m0)))). split.
  - unfold bind, zoom, read, ret. rewrite E4.
    cbn [up3 set_up4]. rewrite E3.
    cbn [up2 set_up3 set_up4]. rewrite E2.
    cbn [up1 set_up2 set_up3 set_up4]. rewrite E1.
    cbn [out_conv set_up1 set_up2 set_up3 set_up4]. rewrite E. reflexivity.
  - exists m0, e1, e2, e3, e4, b, d4, d3, d2, d1, u4, u3, u2, u1.
    split; [auto 6|]. split; [auto 6|]. split; [auto 6|]. split; [reflexivity|].
    split; [exact E|]. split; [reflexivity|].
    unfold Net_ok in *. cbn [enc1 enc2 enc3 enc4 pool bottleneck up4 up3 up2 up1 out_conv
                              training set_up1 set_up2 set_up3 set_up4]. tauto.
Qed.

Lemma forward_returns (x : Tensor D) (ic oc bc N H W : Z) (t : bool) :
  shape x = [N; ic; H; W] ->
  16 <= H -> 16 <= W ->
  (t = true -> N * (H / 16) * (W / 16) <> 1) ->
  triple (Net_ok ic oc bc t) (ColorizationSDAEUNet_forward x)
    (fun y m =>
       (shape y = [N; oc; H; W]
        /\ exists d1, shape d1 = [N; bc; H; W] /\ Conv2d_forward (out_conv m) d1 = Ok y)
       /\ Net_ok ic oc bc t m).
Proof.
  intros Hx HH HW Hbatch m Hm.
  destruct (forward_trace x ic oc bc N H W t Hx HH HW Hbatch m Hm)
    as (y & m' & E & m0 & e1 & e2 & e3 & e4 & b & d4 & d3 & d2 & d1 & u4 & u3 & u2 & u1
        & _ & _ & (_ & _ & _ & Hd1) & _ & Ey & Hy & Hok).
  exists y, m'. split; [exact E|]. split; [|exact Hok].
  split; [exact Hy|]. exists d1. split; assumption.
Qed.

Lemma forward_spec (x : Tensor D) (ic oc bc N H W : Z) (t : bool) :
  shape x = [N; ic; H; W] ->
  1 <= N -> 16 <= H -> 16 <= W ->
  (t = true -> N * (H / 16) * (W / 16) <> 1) ->
  triple (Net_ok ic oc bc t) (ColorizationSDAEUNet_forward x)
    (fun y m =>
       (shape y = [N; oc; H; W]
        /\ exists d1, shape d1 = [N; bc; H; W] /\ Conv2d_forward (out_conv m) d1 = Ok y)
       /\ Net_ok ic oc bc t m).
Proof. intros Hx _. apply forward_returns. exact Hx. Qed.

Ltac net_pick :=
  let Hs := fresh in
  intros ? Hs; unfold Net_ok in Hs;
  repeat match goal with H : _ /\ _ |- _ => destruct H end; eassumption.

(** The architecture and the mode survive a forward pass, also one that
    raises half-way. *)
Lemma forward_preserves (x : Tensor D) (ic oc bc : Z) (t : bool) :
  preserves (Net_ok ic oc bc t) (ColorizationSDAEUNet_forward x).
Proof.
  unfold ColorizationSDAEUNet_forward.
  repeat first
    [ apply preserves_ret | apply preserves_read
    | apply preserves_bind; [|intros ?] ];
    (eapply preserves_zoom;
     [first [apply ConvBlock_forward_preserves | apply UpBlock_forward_preserves]
     | net_pick | net_preserve]).
Qed.

(** *** Evaluation mode: nothing is written *)

Lemma BatchNorm2d_forward_eval (x : Tensor D) (bn0 : @BatchNorm2d D) :
  bn_training bn0 = false ->
  preserves (fun bn => bn = bn0) (BatchNorm2d_forward x).
Proof.
  intros Ht bn ->. unfold BatchNorm2d_forward.
  destruct (shape x) as [|n [|ch [|h [|w [|]]]]]; try reflexivity.
  unfold bind, F_batch_norm. rewrite Ht. simpl. rewrite Ht.
  destruct (negb (ch =? num_features bn0)); reflexivity.
Qed.

Lemma ConvBlock_forward_eval (x : Tensor D) (i o : Z) (cb0 : @ConvBlock D) :
  ConvBlock_ok i o false cb0 ->
  preserves (fun cb => cb = cb0) (ConvBlock_forward x).
Proof.
  intros (_ & [_ H1] & _ & [_ H4]). unfold ConvBlock_forward.
  repeat first
    [ apply preserves_ret | apply preserves_read
    | apply preserves_bind; [|intros ?] ].
  - eapply preserves_zoom; [apply (BatchNorm2d_forward_eval _ _ H1) | |].
    + intros cb ->. reflexivity.
    + intros cb bn -> ->. destruct cb0; reflexivity.
  - eapply preserves_zoom; [apply (BatchNorm2d_forward_eval _ _ H4) | |].
    + intros cb ->. reflexivity.
    + intros cb bn -> ->. destruct cb0; reflexivity.
Qed.

Lemma UpBlock_forward_eval (x skip : Tensor D) (i o : Z) (ub0 : @UpBlock D) :
  UpBlock_ok i o false ub0 ->
  preserves (fun ub => ub = ub0) (UpBlock_forward x skip).
Proof.
  intros (_ & Hc). unfold UpBlock_forward.
  repeat first [ apply preserves_read | apply preserves_bind; [|intros ?] ].
  eapply preserves_zoom; [apply (ConvBlock_forward_eval _ _ _ _ Hc) | |].
  - intros ub ->. reflexivity.
  - intros ub cb -> ->. destruct ub0; reflexivity.
Qed.

(** In evaluation mode a forward pass leaves the model as it found it,
    whether it returns or raises. *)
Lemma forward_eval_readonly (x : Tensor D) (ic oc bc : Z) (m : @ColorizationSDAEUNet D) :
  Net_ok ic oc bc false m ->
  (ColorizationSDAEUNet_forward x m).2 = m.
Proof.
  intros Hm.
  enough (Hp : preserves (fun s => s = m) (ColorizationSDAEUNet_forward x))
    by exact (Hp m eq_refl).
  unfold Net_ok in Hm.
  destruct Hm as (H1 & H2 & H3 & H4 & _ & H5 & H6 & H7 & H8 & H9 & _).
  unfold ColorizationSDAEUNet_forward.
  repeat first
    [ apply preserves_ret | apply preserves_read
    | apply preserves_bind; [|intros ?] ];
    (match goal with
     | |- preserves _ (zoom ?get _ _) =>
         eapply preserves_zoom with (J := fun t => t = get m)
     end;
     [first [eapply ConvBlock_forward_eval | eapply UpBlock_forward_eval]; eassumption
     | intros ? ->; reflexivity
     | intros ? ? -> ->; destruct m; reflexivity]).
Qed.

(** *** What an inference call depends on *)

Lemma BatchNorm2d_sim_refl (a : @BatchNorm2d D) : BatchNorm2d_sim a a.
Proof. repeat split; reflexivity. Qed.

Lemma BatchNorm2d_sim_trans (a b c : @BatchNorm2d D) :
  BatchNorm2d_sim a b -> BatchNorm2d_sim b c -> BatchNorm2d_sim a c.
Proof.
  intros (Hn & Hw & Hb & Ht & He) (Hn' & Hw' & Hb' & Ht' & He').
  repeat split; try congruence.
  intros Ha. rewrite (He Ha). apply He'. congruence.
Qed.

Lemma ConvBlock_sim_refl (a : @ConvBlock D) : ConvBlock_sim a a.
Proof. repeat split; reflexivity. Qed.

Lemma ConvBlock_sim_trans (a b c : @ConvBlock D) :
  ConvBlock_sim a b -> ConvBlock_sim b c -> ConvBlock_sim a c.
Proof.
  intros (H0 & H1 & H3 & H4) (H0' & H1' & H3' & H4').
  split; [congruence|]. split; [eapply BatchNorm2d_sim_trans; eassumption|].
  split; [congruence|]. eapply BatchNorm2d_sim_trans; eassumption.
Qed.

Lemma UpBlock_sim_refl (a : @UpBlock D) : UpBlock_sim a a.
Proof. split; [reflexivity | apply ConvBlock_sim_refl]. Qed.

Lemma UpBlock_sim_trans (a b c : @UpBlock D) :
  UpBlock_sim a b -> UpBlock_sim b c -> UpBlock_sim a c.
Proof.
  intros [Hu Hc] [Hu' Hc']. split; [congruence|].
  eapply ConvBlock_sim_trans; eassumption.
Qed.

Lemma same_parameters_refl (a : @ColorizationSDAEUNet D) : same_parameters a a.
Proof.
  unfold same_parameters.
  repeat split; try reflexivity; try apply ConvBlock_sim_refl; apply UpBlock_sim_refl.
Qed.

Lemma same_parameters_trans (a b c : @ColorizationSDAEUNet D) :
  same_parameters a b -> same_parameters b c -> same_parameters a c.
Proof.
  unfold same_parameters.
  intros (A1 & A2 & A3 & A4 & A5 & A6 & A7 & A8 & A9 & A10 & A11 & A12)
         (B1 & B2 & B3 & B4 & B5 & B6 & B7 & B8 & B9 & B10 & B11 & B12).
  repeat split; try congruence;
    first [ eapply ConvBlock_sim_trans; eassumption
          | eapply UpBlock_sim_trans; eassumption ].
Qed.

Lemma BatchNorm2d_forward_respects (x : Tensor D) :
  respects BatchNorm2d_sim (BatchNorm2d_forward x).
Proof.
  intros a b (Hn & Hw & Hb & Ht & He). unfold BatchNorm2d_forward.
  destruct (shape x) as [|n [|ch [|h [|w [|]]]]];
    try (split; [reflexivity | repeat split; assumption]).
  destruct (bn_training a) eqn:Ea.
  - unfold bind, F_batch_norm. rewrite <- Ht, Ea. simpl. rewrite <- Ht, Ea, <- Hn, <- Hw, <- Hb.
    simpl. destruct (n * h * w =? 1); simpl.
    + split; [reflexivity|]. repeat split; simpl; congruence.
    + destruct (negb (ch =? num_features a)); simpl;
        (split; [reflexivity|]); repeat split; simpl; congruence.
  - rewrite <- (He eq_refl). split; [reflexivity | apply BatchNorm2d_sim_refl].
Qed.

Lemma BatchNorm2d_forward_stays (x : Tensor D) :
  stays BatchNorm2d_sim (BatchNorm2d_forward x).
Proof.
  intros a. unfold BatchNorm2d_forward.
  destruct (shape x) as [|n [|ch [|h [|w [|]]]]]; try apply BatchNorm2d_sim_refl.
  unfold bind, F_batch_norm.
  destruct (bn_training a) eqn:Ea; simpl; rewrite ?Ea; simpl;
    repeat match goal with |- context [if ?b then _ else _] => destruct b end;
    simpl; repeat split; simpl; congruence.
Qed.

Lemma ConvBlock_forward_respects (x : Tensor D) :
  respects ConvBlock_sim (ConvBlock_forward x).
Proof.
  unfold ConvBlock_forward.
  repeat first
    [ apply respects_ret
    | apply respects_read; intros ? ? (E0 & _ & E3 & _); congruence
    | apply respects_bind; [|intros ?] ].
  - eapply respects_zoom; [apply BatchNorm2d_forward_respects | |].
    + intros s1 s2 (_ & H1 & _). exact H1.
    + intros s1 s2 t1 t2 (H0 & _ & H3 & H4) Hsim.
      split; [exact H0|]. split; [exact Hsim|]. split; [exact H3 | exact H4].
  - eapply respects_zoom; [apply BatchNorm2d_forward_respects | |].
    + intros s1 s2 (_ & _ & _ & H4). exact H4.
    + intros s1 s2 t1 t2 (H0 & H1 & H3 & _) Hsim.
      split; [exact H0|]. split; [exact H1|]. split; [exact H3 | exact Hsim].
Qed.

Lemma ConvBlock_forward_stays (x : Tensor D) :
  stays ConvBlock_sim (ConvBlock_forward x).
Proof.
  unfold ConvBlock_forward.
  repeat first
    [ apply stays_ret; apply ConvBlock_sim_refl
    | apply stays_read; apply ConvBlock_sim_refl
    | apply stays_bind; [apply ConvBlock_sim_trans | | intros ?] ].
  - eapply stays_zoom; [apply BatchNorm2d_forward_stays|].
    intros cb bn Hsim. split; [reflexivity|]. split; [exact Hsim|].
    split; [reflexivity | apply BatchNorm2d_sim_refl].
  - eapply stays_zoom; [apply BatchNorm2d_forward_stays|].
    intros cb bn Hsim. split; [reflexivity|]. split; [apply BatchNorm2d_sim_refl|].
    split; [reflexivity | exact Hsim].
Qed.

Lemma UpBlock_forward_respects (x skip : Tensor D) :
  respects UpBlock_sim (UpBlock_forward x skip).
Proof.
  unfold UpBlock_forward.
  repeat first
    [ apply respects_read; intros ? ? (Eu & _); congruence
    | apply respects_bind; [|intros ?] ].
  eapply respects_zoom; [apply ConvBlock_forward_respects | |].
  - intros s1 s2 (_ & Hc). exact Hc.
  - intros s1 s2 t1 t2 (Hu & _) Hsim. split; [exact Hu | exact Hsim].
Qed.

Lemma UpBlock_forward_stays (x skip : Tensor D) :
  stays UpBlock_sim (UpBlock_forward x skip).
Proof.
  unfold UpBlock_forward.
  repeat first
    [ apply stays_read; apply UpBlock_sim_refl
    | apply stays_bind; [apply UpBlock_sim_trans | | intros ?] ].
  eapply stays_zoom; [apply ConvBlock_forward_stays|].
  intros ub cb Hsim. split; [reflexivity | exact Hsim].
Qed.

Ltac sim_refl :=
  first [ reflexivity | assumption | apply ConvBlock_sim_refl | apply UpBlock_sim_refl ].

Lemma forward_respects (x : Tensor D) :
  respects same_parameters (ColorizationSDAEUNet_forward x).
Proof.
  unfold ColorizationSDAEUNet_forward.
  repeat first
    [ apply respects_ret
    | apply respects_read;
      let Hs := fresh in
      intros ? ? Hs; unfold same_parameters in Hs; decompose [and] Hs; congruence
    | apply respects_bind; [|intros ?] ];
    (eapply respects_zoom;
     [ first [apply ConvBlock_forward_respects | apply UpBlock_forward_respects]
     | let Hs := fresh in intros ? ? Hs; unfold same_parameters in Hs; tauto
     | let Hs := fresh in
       intros ? ? ? ? Hs ?; unfold same_parameters in *; simpl; tauto ]).
Qed.

Lemma forward_stays (x : Tensor D) :
  stays same_parameters (ColorizationSDAEUNet_forward x).
Proof.
  unfold ColorizationSDAEUNet_forward.
  repeat first
    [ apply stays_ret; apply same_parameters_refl
    | apply stays_read; apply same_parameters_refl
    | apply stays_bind; [apply same_parameters_trans | | intros ?] ];
    (eapply stays_zoom;
     [ first [apply ConvBlock_forward_stays | apply UpBlock_forward_stays]
     | intros ? ? ?; unfold same_parameters; simpl;
       repeat (split; [sim_refl|]); sim_refl ]).
Qed.

(** The outcome of a second call on the same input is the outcome of the
    first, in either mode and whatever the first call wrote. *)
Lemma forward_twice (x : Tensor D) (m : @ColorizationSDAEUNet D) :
  (ColorizationSDAEUNet_forward x (ColorizationSDAEUNet_forward x m).2).1
  = (ColorizationSDAEUNet_forward x m).1.
Proof. symmetry. apply forward_respects, forward_stays. Qed.

(** *** Training mode: the batch counter *)

Lemma BatchNorm2d_forward_counts (x : Tensor D) (bn : @BatchNorm2d D) (n c h w : Z) :
  shape x = [n; c; h; w] -> bn_training bn = true ->
  num_batches_tracked (BatchNorm2d_forward x bn).2
  = wrap_int64 (num_batches_tracked bn + 1).
Proof.
  intros Hx Ht. unfold BatchNorm2d_forward, bind, F_batch_norm. rewrite Hx, Ht. simpl.
  rewrite Ht. simpl.
  repeat match goal with |- context [if ?b then _ else _] => destruct b end; reflexivity.
Qed.

Lemma ConvBlock_forward_counts (x : Tensor D) (cb : @ConvBlock D) (i o n h w : Z) :
  ConvBlock_ok i o true cb -> shape x = [n; i; h; w] -> 1 <= h -> 1 <= w ->
  num_batches_tracked (block_1 (ConvBlock_forward x cb).2)
  = wrap_int64 (num_batches_tracked (block_1 cb) + 1).
Proof.
  intros (H0 & [_ H1] & _) Hx Hh Hw.
  destruct (Conv2d_3x3_shape (block_0 cb) x i o n h w H0 Hx Hh Hw) as (y & E & Hy).
  unfold ConvBlock_forward.
  rewrite (bind_read_ok (fun self => Conv2d_forward (block_0 self) x) _ cb y E).
  apply (bind_establishes
           (fun s => num_batches_tracked (block_1 s)
                     = wrap_int64 (num_batches_tracked (block_1 cb) + 1))).
  - unfold zoom.
    pose proof (BatchNorm2d_forward_counts y (block_1 cb) n o h w Hy H1) as Hc.
    destruct (BatchNorm2d_forward y (block_1 cb)) as [r bn']. exact Hc.
  - intros x1.
    repeat first
      [ apply preserves_ret | apply preserves_read
      | apply preserves_bind; [|intros ?] ].
    eapply preserves_zoom; [apply preserves_True | intros; exact I | ].
    intros s t Hs _. exact Hs.
Qed.

(** In training mode every forward pass on a well-shaped input advances
    the batch counter of the first normalisation layer, even a pass that
    raises further down. *)
Lemma forward_counts (x : Tensor D) (m : @ColorizationSDAEUNet D) (ic oc bc N H W : Z) :
  Net_ok ic oc bc true m -> shape x = [N; ic; H; W] -> 1 <= H -> 1 <= W ->
  num_batches_tracked (block_1 (enc1 (ColorizationSDAEUNet_forward x m).2))
  = wrap_int64 (num_batches_tracked (block_1 (enc1 m)) + 1).
Proof.
  intros Hm Hx HH HW. assert (H1 : ConvBlock_ok ic bc true (enc1 m)) by apply Hm.
  unfold ColorizationSDAEUNet_forward.
  apply (bind_establishes
           (fun s => num_batches_tracked (block_1 (enc1 s))
                     = wrap_int64 (num_batches_tracked (block_1 (enc1 m)) + 1))).
  - unfold zoom.
    pose proof (ConvBlock_forward_counts x (enc1 m) ic bc N H W H1 Hx HH HW) as Hc.
    destruct (ConvBlock_forward x (enc1 m)) as [r cb']. exact Hc.
  - intros e1.
    repeat first
      [ apply preserves_ret | apply preserves_read
      | apply preserves_bind; [|intros ?] ];
      (eapply preserves_zoom;
       [apply preserves_True | intros; exact I | intros s t Hs _; exact Hs]).
Qed.

(** Hence in training mode such a pass never leaves the model as it was. *)
Lemma forward_training_writes (x : Tensor D) (m : @ColorizationSDAEUNet D)
    (ic oc bc N H W : Z) :
  Net_ok ic oc bc true m -> shape x = [N; ic; H; W] -> 1 <= H -> 1 <= W ->
  (ColorizationSDAEUNet_forward x m).2 <> m.
Proof.
  intros Hm Hx HH HW E.
  pose proof (forward_counts x m ic oc bc N H W Hm Hx HH HW) as Hc.
  rewrite E in Hc. symmetry in Hc. exact (wrap_int64_succ_ne _ Hc).
Qed.

End Layers.

(** ** The image pipeline *)

Section Pipeline.

Context {D : Type} `{!Kernels D}.

Lemma Image_resize_size (img : PILImage D) (w h : Z) :
  1 <= w -> 1 <= h ->
  exists img',
    Image_resize img (w, h) = Ok img'
    /\ im_size img' = (w, h) /\ im_mode img' = im_mode img.
Proof.
  intros Hw Hh. unfold Image_resize.
  destruct (decide (im_size img = (w, h))) as [E|_].
  - exists img. auto.
  - simpl. zbool. simpl. eexists. split; [reflexivity|]. split; reflexivity.
Qed.

Lemma np_asarray_RGB (img : PILImage D) (w h : Z) :
  im_mode img = "RGB" -> im_size img = (w, h) ->
  shape (np_asarray img) = [h; w; 3].
Proof. intros Hm Hs. unfold np_asarray. rewrite Hs, Hm. reflexivity. Qed.

Lemma cv2_cvtColor_shape (a : Tensor D) (code : ColorConversionCode) (h w : Z) :
  shape a = [h; w; 3] -> 1 <= h -> 1 <= w ->
  exists b, cv2_cvtColor a code = Ok b /\ shape b = [h; w; 3].
Proof.
  intros Ha Hh Hw. unfold cv2_cvtColor. rewrite Ha. zbool. simpl.
  eexists. split; reflexivity.
Qed.

Lemma preprocess_image_spec (image_bytes : list Byte.byte) (img : PILImage D) :
  pil_decode image_bytes = Ok img ->
  convert_error img "RGB" = None ->
  exists L_tensor,
    preprocess_image image_bytes = Ok (L_tensor, im_size img)
    /\ shape L_tensor = [1; 1; IMAGE_SIZE; IMAGE_SIZE].
Proof.
  intros Hopen Hconv. unfold preprocess_image, Image_open, Image_convert.
  rewrite Hopen. cbn [bindR]. rewrite Hconv. cbn [bindR im_size].
  set (rgb_img := mkImage (im_size img) "RGB" _).
  destruct (Image_resize_size rgb_img IMAGE_SIZE IMAGE_SIZE) as (img' & E & Hs & Hm);
    [unfold IMAGE_SIZE; lia .. |].
  rewrite E. cbn [bindR].
  pose proof (np_asarray_RGB img' _ _ Hm Hs) as Hrgb.
  destruct (cv2_cvtColor_shape (np_map div255 (np_asarray img')) COLOR_RGB2LAB
              IMAGE_SIZE IMAGE_SIZE Hrgb) as (lab & Elab & Hlab);
    [unfold IMAGE_SIZE; lia .. |].
  rewrite Elab. cbn [bindR]. unfold slice_last_0_1. rewrite Hlab. cbn.
  eexists. split; reflexivity.
Qed.

Lemma range_bounds (n i : Z) : In i (range n) -> 0 <= i < n.
Proof.
  unfold range. intros Hin. apply in_map_iff in Hin as (k & <- & Hk).
  apply in_seq in Hk. lia.
Qed.

Lemma range_length (n : Z) : length (range n) = Z.to_nat n.
Proof. unfold range. rewrite length_map, length_seq. reflexivity. Qed.

Lemma lab_denormalize_loop_spec (lab : Tensor D) (n h w : Z) (indices : list Z) :
  shape lab = [n; h; w; 3] -> 1 <= h -> 1 <= w ->
  forall rgbs,
    (forall i, In i indices -> 0 <= i < n) ->
    Forall (fun t => shape t = [h; w; 3]) rgbs ->
    exists out,
      lab_denormalize_loop lab indices rgbs = Ok out
      /\ Forall (fun t => shape t = [h; w; 3]) out
      /\ length out = (length rgbs + length indices)%nat.
Proof.
  intros Hlab Hh Hw. induction indices as [|i rest IH]; intros rgbs Hin Hall.
  - exists rgbs. simpl. repeat split; [assumption | lia].
  - simpl. unfold np_getitem. rewrite Hlab.
    pose proof (Hin i (or_introl eq_refl)) as Hi. zbool. cbn [andb bindR].
    destruct (cv2_cvtColor_shape (mkTensor [h; w; 3] (select_data i (data lab)))
                COLOR_LAB2RGB h w eq_refl Hh Hw) as (rgb & E & Hrgb).
    rewrite E. cbn [bindR].
    destruct (IH (rgbs ++ [np_map clip01 rgb])%list) as (out & Eout & Hout & Hlen).
    + intros j Hj. apply Hin. right. exact Hj.
    + apply Forall_app. split; [assumption|]. constructor; [exact Hrgb | constructor].
    + exists out. split; [exact Eout|]. split; [exact Hout|].
      rewrite Hlen, length_app. simpl. lia.
Qed.

Lemma np_stack_shape (arrays : list (Tensor D)) (dims : list Z) :
  arrays <> [] -> Forall (fun t => shape t = dims) arrays ->
  exists out, np_stack arrays = Ok out /\ shape out = Z.of_nat (length arrays) :: dims.
Proof.
  intros Hne Hall. destruct arrays as [|a rest]; [contradiction|].
  unfold np_stack. apply Forall_cons in Hall as [Ha Hrest].
  assert (E : forallb (fun b => bool_decide (shape b = shape a)) rest = true).
  { apply forallb_forall. intros b Hb. apply bool_decide_eq_true.
    rewrite Forall_forall in Hrest. rewrite (Hrest b); [symmetry; exact Ha|].
    apply list_elem_of_In. exact Hb. }
  rewrite E. eexists. split; [reflexivity|]. simpl. rewrite Ha. reflexivity.
Qed.

(** [lab_denormalize] turns luminance [(N, 1, h, w)] and chrominance
    [(N, 2, h, w)] into RGB [(N, h, w, 3)]. *)
Lemma lab_denormalize_spec (L ab : Tensor D) (n h w : Z) :
  shape L = [n; 1; h; w] -> shape ab = [n; 2; h; w] ->
  1 <= n -> 1 <= h -> 1 <= w ->
  exists rgbs, lab_denormalize L ab = Ok rgbs /\ shape rgbs = [n; h; w; 3].
Proof.
  intros HL Hab Hn Hh Hw. unfold lab_denormalize, cat_dim1. cbn [np_map shape].
  rewrite HL, Hab.
  destruct (decide (n = n /\ [h; w] = [h; w])) as [_|Hne]; [|exfalso; apply Hne; auto].
  cbn [bindR]. unfold np_transpose_0231. cbn [shape bindR]. unfold size_at.
  change ([n; h; w; 1 + 2] !! 0%nat) with (Some n). cbn [bindR].
  set (lab := mkTensor [n; h; w; 1 + 2] _).
  destruct (lab_denormalize_loop_spec lab n h w (range n) eq_refl Hh Hw [] (range_bounds n)
              (List.Forall_nil _)) as (out & E & Hout & Hlen).
  rewrite E. cbn [bindR]. rewrite range_length in Hlen. simpl in Hlen.
  destruct (np_stack_shape out [h; w; 3]) as (rgbs & Es & Hs).
  - intros ->. simpl in Hlen. lia.
  - exact Hout.
  - exists rgbs. split; [exact Es|]. rewrite Hs, Hlen. f_equal. lia.
Qed.

End Pipeline.

(** ** The process: start-up and requests *)

(** Runs the statements of [app.py] that do not depend on what is on disk
    or in the upload. *)
Ltac run :=
  cbv beta iota zeta delta
    [startup load_model_try load_model_except try_except bind ret raise read zoom
     set_global get_global set_PosixPath print print_exc on_model torch_load
     fst snd pathlib globals stdout stderr PosixPath WindowsPath boot].

Ltac lookup_global :=
  repeat first [rewrite lookup_insert_eq | rewrite lookup_insert_ne by done].

Section App.

Context {D : Type} `{!Kernels D}.

Lemma ConvBlock_ok_init (i o : Z) : ConvBlock_ok i o true (ConvBlock_init i o).
Proof. repeat split. Qed.

Lemma UpBlock_ok_init (i o : Z) : UpBlock_ok i o true (UpBlock_init i o).
Proof. repeat split. Qed.

Lemma Net_ok_init (ic oc bc : Z) :
  Net_ok ic oc bc true (ColorizationSDAEUNet_init ic oc bc).
Proof.
  unfold Net_ok, ColorizationSDAEUNet_init. cbn [enc1 enc2 enc3 enc4 pool bottleneck
    up4 up3 up2 up1 out_conv training].
  repeat (split; [first [apply ConvBlock_ok_init | apply UpBlock_ok_init | reflexivity]|]).
  split; [repeat split | reflexivity].
Qed.

Lemma ConvBlock_ok_eval (i o : Z) (t : bool) (cb : @ConvBlock D) :
  ConvBlock_ok i o t cb -> ConvBlock_ok i o false (ConvBlock_eval cb).
Proof.
  intros (H0 & [H1 _] & H3 & [H4 _]). repeat split; try apply H0; try apply H3; assumption.
Qed.

Lemma UpBlock_ok_eval (i o : Z) (t : bool) (ub : @UpBlock D) :
  UpBlock_ok i o t ub -> UpBlock_ok i o false (UpBlock_eval ub).
Proof. intros [Hu Hc]. split; [exact Hu | eapply ConvBlock_ok_eval; exact Hc]. Qed.

Lemma Net_ok_eval (ic oc bc : Z) (t : bool) (m : @ColorizationSDAEUNet D) :
  Net_ok ic oc bc t m -> Net_ok ic oc bc false (ColorizationSDAEUNet_eval m).
Proof.
  unfold Net_ok. intros (H1 & H2 & H3 & H4 & Hp & H5 & H6 & H7 & H8 & H9 & Ho & _).
  cbn [ColorizationSDAEUNet_eval enc1 enc2 enc3 enc4 pool bottleneck
       up4 up3 up2 up1 out_conv training].
  repeat (split;
          [first [eapply ConvBlock_ok_eval; eassumption
                 | eapply UpBlock_ok_eval; eassumption | assumption]|]).
  reflexivity.
Qed.

Lemma ConvBlock_ok_load (sd : PyObj D) (prefix : string) (i o : Z) (t : bool) (cb : @ConvBlock D) :
  ConvBlock_ok i o t cb -> ConvBlock_ok i o t (ConvBlock_load sd prefix cb).
Proof. intros (H0 & H1 & H3 & H4). repeat split; first [apply H0 | apply H1 | apply H3 | apply H4]. Qed.

Lemma UpBlock_ok_load (sd : PyObj D) (prefix : string) (i o : Z) (t : bool) (ub : @UpBlock D) :
  UpBlock_ok i o t ub -> UpBlock_ok i o t (UpBlock_load sd prefix ub).
Proof.
  intros [Hu Hc]. split; [exact Hu | apply ConvBlock_ok_load; exact Hc].
Qed.

(** Loading a state dict writes parameters and buffers only. *)
Lemma Net_ok_copy (sd : PyObj D) (ic oc bc : Z) (t : bool) (m : @ColorizationSDAEUNet D) :
  Net_ok ic oc bc t m -> Net_ok ic oc bc t (copy_state_dict sd m).
Proof.
  unfold Net_ok. intros (H1 & H2 & H3 & H4 & Hp & H5 & H6 & H7 & H8 & H9 & Ho & Ht).
  cbn [copy_state_dict enc1 enc2 enc3 enc4 pool bottleneck
       up4 up3 up2 up1 out_conv training].
  repeat (split;
          [first [apply ConvBlock_ok_load; assumption
                 | apply UpBlock_ok_load; assumption | assumption]|]).
  exact Ht.
Qed.

Lemma model_of_Some (p : @Process D) (m : @ColorizationSDAEUNet D) :
  model_of p = Some m -> globals p !! "model" = Some (VModel m).
Proof.
  unfold model_of. destruct (globals p !! "model") as [[]|]; intros E; inversion E.
  reflexivity.
Qed.

Lemma contains_Some (d : gmap string (PyObj D)) (key : string) (v : PyObj D) :
  d !! key = Some v -> contains key (PyDict d) = Ok true.
Proof. intros E. unfold contains. rewrite E. reflexivity. Qed.

Lemma contains_None (d : gmap string (PyObj D)) (key : string) :
  d !! key = None -> contains key (PyDict d) = Ok false.
Proof. intros E. unfold contains. rewrite E. reflexivity. Qed.

Lemma getitem_Some (d : gmap string (PyObj D)) (key : string) (v : PyObj D) :
  d !! key = Some v -> getitem (PyDict d) key = Ok v.
Proof. intros E. unfold getitem. rewrite E. reflexivity. Qed.

(** *** Start-up without a checkpoint file *)

Lemma startup_missing (env : Env) :
  files env !! MODEL_PATH = None ->
  startup env boot
  = (Ok tt,
     {| pathlib := {| PosixPath := cls_WindowsPath; WindowsPath := cls_WindowsPath |};
        globals :=
          <["colorize" := VFunction "colorize"]>
            (<["preprocess_image" := VFunction "preprocess_image"]>
               (<["temp" := VPathClass cls_PosixPath]>
                  (<["model" := VModel (ColorizationSDAEUNet_init 1 2 64)]>
                     (<["IMAGE_SIZE" := VInt IMAGE_SIZE]>
                        (<["MODEL_PATH" := VStr MODEL_PATH]>
                           (<["DEVICE" := VStr (DEVICE env)]>
                              (<["app" := VApp]> imports)))))));
        stdout := ["WARNING: Model file not found at " +:+ MODEL_PATH
                   +:+ ". Inference will use random weights."];
        stderr := [] |}).
Proof. intros Hmiss. run. rewrite Hmiss. run. reflexivity. Qed.

Lemma startup_missing_model (env : Env) :
  files env !! MODEL_PATH = None ->
  model_of (startup env boot).2 = Some (ColorizationSDAEUNet_init 1 2 64).
Proof.
  intros Hmiss. rewrite (startup_missing env Hmiss). unfold model_of.
  cbn [snd globals]. lookup_global. reflexivity.
Qed.

(** None of the names bound at module level holds a boolean. *)
Lemma startup_missing_no_flag (env : Env) :
  files env !! MODEL_PATH = None ->
  ~ exposes_status_flag (startup env boot).2.
Proof.
  intros Hmiss. rewrite (startup_missing env Hmiss). cbn [snd]. intros (name & b & Hflag).
  cbn [globals] in Hflag. unfold imports in Hflag. cbn [list_to_map foldr] in Hflag.
  repeat (apply lookup_insert_Some in Hflag as [[_ Hflag] | [_ Hflag]];
          [discriminate Hflag|]).
  rewrite lookup_empty in Hflag. discriminate Hflag.
Qed.

(** *** Start-up with a checkpoint that unpickles to a dictionary *)

Ltac load_branch :=
  run; lookup_global; run;
  match goal with
  | |- context [load_state_dict ?sd ?m] =>
      let e := fresh "e" in
      destruct (load_state_dict sd m) as [[[]|e] ?]; [|destruct e as [[] ?|? ?]]
  end;
  run; lookup_global; run; lookup_global; auto.

Lemma startup_dict (env : Env) (content : list Byte.byte) (d : gmap string (PyObj D)) :
  files env !! MODEL_PATH = Some content ->
  torch_unpickle cls_WindowsPath content = Ok (PyDict d) ->
  (startup env boot).1 = Ok tt
  /\ model_of (startup env boot).2
     = Some (loaded_from (resolve_checkpoint d) (ColorizationSDAEUNet_init 1 2 64))
  /\ PosixPath (pathlib (startup env boot).2) = cls_PosixPath.
Proof.
  intros Hfile Hload. unfold model_of, loaded_from, resolve_checkpoint.
  run. rewrite Hfile. run. rewrite Hload. run. lookup_global. run.
  destruct (d !! "model_state") as [sd|] eqn:E1.
  { rewrite (contains_Some _ _ _ E1), (getitem_Some _ _ _ E1). load_branch. }
  rewrite (contains_None _ _ E1). run.
  destruct (d !! "model_state_dict") as [sd|] eqn:E2.
  { rewrite (contains_Some _ _ _ E2), (getitem_Some _ _ _ E2). load_branch. }
  rewrite (contains_None _ _ E2). run.
  destruct (d !! "state_dict") as [sd|] eqn:E3.
  { rewrite (contains_Some _ _ _ E3), (getitem_Some _ _ _ E3). load_branch. }
  rewrite (contains_None _ _ E3). load_branch.
Qed.

(** *** The model stays a [ColorizationSDAEUNet()] *)

Lemma preserves_set_global (Q : @ColorizationSDAEUNet D -> Prop) (name : string)
    (v : @PyVal D) :
  name <> "model" -> preserves (serving_with Q) (set_global name v).
Proof.
  intros Hne p (m & Hm & Hok). exists m. split; [|exact Hok].
  unfold model_of in *. cbn [set_global snd globals]. rewrite lookup_insert_ne by done.
  exact Hm.
Qed.

Lemma preserves_set_PosixPath (I : @Process D -> Prop) (c : PathClass) :
  (forall p pl so se, I p -> I (mkProcess pl (globals p) so se)) ->
  preserves I (set_PosixPath c).
Proof. intros HI p Hp. apply HI. exact Hp. Qed.

Lemma preserves_print (I : @Process D -> Prop) (line : string) :
  (forall p pl so se, I p -> I (mkProcess pl (globals p) so se)) ->
  preserves I (print line).
Proof. intros HI p Hp. apply HI. exact Hp. Qed.

Lemma preserves_print_exc (I : @Process D -> Prop) (e : PyExn) :
  (forall p pl so se, I p -> I (mkProcess pl (globals p) so se)) ->
  preserves I (print_exc e).
Proof. intros HI p Hp. apply HI. exact Hp. Qed.

Lemma preserves_get_global (I : @Process D -> Prop) (name : string) :
  preserves I (get_global name).
Proof. intros p Hp. unfold get_global. destruct (globals p !! name); exact Hp. Qed.

Lemma serving_globals (Q : @ColorizationSDAEUNet D -> Prop) (p : @Process D) pl so se :
  serving_with Q p -> serving_with Q (mkProcess pl (globals p) so se).
Proof. intros Hp. exact Hp. Qed.

Lemma preserves_on_model {A} (Q : @ColorizationSDAEUNet D -> Prop)
    (m : M (@ColorizationSDAEUNet D) A) :
  preserves Q m -> preserves (serving_with Q) (on_model m).
Proof.
  intros Hm p (net & Hnet & Hok). unfold on_model, bind, get_global.
  rewrite (model_of_Some _ _ Hnet).
  specialize (Hm net Hok). destruct (m net) as [r net']. simpl in Hm.
  exists net'. split; [|exact Hm].
  unfold model_of. cbn [snd globals]. rewrite lookup_insert_eq. reflexivity.
Qed.

Lemma load_state_dict_preserves (sd : PyObj D) :
  preserves (fun net => exists t, Net_ok 1 2 64 t net) (load_state_dict sd).
Proof. intros net (t & Hok). exists t. apply Net_ok_copy. exact Hok. Qed.

Lemma forward_preserves_mode (x : Tensor D) :
  preserves (fun net => exists t, Net_ok 1 2 64 t net) (ColorizationSDAEUNet_forward x).
Proof. intros net (t & Hok). exists t. apply forward_preserves. exact Hok. Qed.

Ltac preserve_app :=
  repeat first
    [ apply preserves_ret | apply preserves_raise | apply preserves_read
    | apply preserves_set_global; done
    | apply preserves_set_PosixPath; apply serving_globals
    | apply preserves_print; apply serving_globals
    | apply preserves_print_exc; apply serving_globals
    | apply preserves_get_global
    | apply preserves_on_model
    | apply load_state_dict_preserves
    | apply forward_preserves_mode
    | apply forward_preserves
    | apply preserves_try_except; [|intros ?]
    | apply preserves_bind; [|intros ?]
    | match goal with |- preserves _ (match ?x with _ => _ end) => destruct x end ].

Lemma bind_set_global {A} (name : string) (v : @PyVal D)
    (k : unit -> M (@Process D) A) (p : @Process D) :
  bind (set_global name v) k p
  = k tt (mkProcess (pathlib p) (<[name := v]> (globals p)) (stdout p) (stderr p)).
Proof. reflexivity. Qed.

Lemma startup_serving (env : Env) : serving (startup env boot).2.
Proof.
  unfold startup. rewrite !bind_set_global.
  match goal with
  | |- serving (?rest ?p).2 => cut (preserves serving rest); [intros Hp; apply Hp|]
  end.
  - exists (ColorizationSDAEUNet_init 1 2 64). split; [|exists true; apply Net_ok_init].
    unfold model_of. cbn [globals]. rewrite lookup_insert_eq. reflexivity.
  - unfold serving, load_model_try, load_model_except, torch_load. preserve_app.
    intros net (t & Hok). exists false. eapply Net_ok_eval. exact Hok.
Qed.

Lemma colorize_serving (file : UploadFile) : preserves serving (colorize file).
Proof. unfold serving, colorize, colorize_try. preserve_app. Qed.

Lemma reachable_serving (env : Env) (p : @Process D) : reachable env p -> serving p.
Proof.
  induction 1 as [|p file _ IH]; [apply startup_serving | apply colorize_serving, IH].
Qed.

(** Requests never leave training mode: only the loading block calls
    [eval()]. *)
Lemma colorize_serving_untrained (file : UploadFile) :
  preserves serving_untrained (colorize file).
Proof. unfold serving_untrained, colorize, colorize_try. preserve_app. Qed.

Lemma reachable_untrained (env : Env) (p : @Process D) :
  files env !! MODEL_PATH = None -> reachable env p -> serving_untrained p.
Proof.
  intros Hmiss. induction 1 as [|p file _ IH]; [|apply colorize_serving_untrained, IH].
  exists (ColorizationSDAEUNet_init 1 2 64).
  split; [apply startup_missing_model; exact Hmiss | apply Net_ok_init].
Qed.

(** *** A request carrying a decodable image *)

Ltac run_request :=
  cbv beta iota zeta delta
    [colorize colorize_try try_except bind ret raise read on_model get_global print_exc
     fst snd pathlib globals stdout stderr negb].

Lemma colorize_ok (p : @Process D) (m : @ColorizationSDAEUNet D) (t : bool) (file : UploadFile)
    (ct : string) (img : PILImage D) (W H : Z) :
  model_of p = Some m -> Net_ok 1 2 64 t m ->
  content_type file = Some ct -> String.prefix "image/" ct = true ->
  pil_decode (file_read file) = Ok img -> convert_error img "RGB" = None ->
  im_size img = (W, H) -> 1 <= W -> 1 <= H ->
  exists L_tensor ab_pred m' out_img,
    preprocess_image (file_read file) = Ok (L_tensor, (W, H))
    /\ shape L_tensor = [1; 1; IMAGE_SIZE; IMAGE_SIZE]
    /\ ColorizationSDAEUNet_forward L_tensor m = (Ok ab_pred, m')
    /\ shape ab_pred = [1; 2; IMAGE_SIZE; IMAGE_SIZE]
    /\ Net_ok 1 2 64 t m'
    /\ im_size out_img = (W, H)
    /\ colorize file p
       = (Ok {| content := png_encode out_img; media_type := "image/png" |},
          mkProcess (pathlib p) (<["model" := VModel m']> (globals p)) (stdout p) (stderr p)).
Proof.
  intros Hm Hok Hct Hprefix Hopen Hconv Hsize HW HH.
  apply model_of_Some in Hm.
  destruct (preprocess_image_spec _ _ Hopen Hconv) as (L & Epre & HL).
  rewrite Hsize in Epre.
  assert (Hbatch : t = true -> 1 * (IMAGE_SIZE / 16) * (IMAGE_SIZE / 16) <> 1)
    by (intros _; vm_compute; discriminate).
  destruct (forward_spec L 1 2 64 1 IMAGE_SIZE IMAGE_SIZE t HL ltac:(lia)
              ltac:(unfold IMAGE_SIZE; lia) ltac:(unfold IMAGE_SIZE; lia) Hbatch m Hok)
    as (ab & m' & Efwd & (Hab & _) & Hok').
  destruct (lab_denormalize_spec L ab 1 IMAGE_SIZE IMAGE_SIZE HL Hab ltac:(lia)
              ltac:(unfold IMAGE_SIZE; lia) ltac:(unfold IMAGE_SIZE; lia))
    as (rgb & Ergb & Hrgb).
  destruct p as [pl gl so se]. cbn [globals] in Hm.
  exists L, ab, m'.
  run_request. rewrite Hct, Hprefix. run_request. rewrite Epre. run_request.
  rewrite Hm. run_request. rewrite Efwd. run_request. rewrite Ergb. run_request.
  unfold np_getitem. rewrite Hrgb.
  change ((0 <=? 0) && (0 <? 1)) with true. cbv iota. unfold Image_fromarray. cbn [shape].
  match goal with
  | |- context [Image_resize ?a (W, H)] =>
      destruct (Image_resize_size a W H HW HH) as (out & E & Hout & _); rewrite E
  end.
  exists out. repeat (split; [first [reflexivity | assumption]|]). reflexivity.
Qed.

(** *** What a request does to the first normalisation layer *)

Lemma BatchNorm2d_forward_train (x : Tensor D) (bn : @BatchNorm2d D) (n h w : Z) :
  shape x = [n; num_features bn; h; w] -> bn_training bn = true -> n * h * w <> 1 ->
  BatchNorm2d_forward x bn
  = (Ok (mkTensor (shape x) (batch_norm_train_data (bn_weight bn) (bn_bias bn) (data x))),
     set_running_stats (momentum_mean (running_mean bn) (data x))
       (momentum_var (running_var bn) (data x))
       (set_num_batches_tracked (wrap_int64 (num_batches_tracked bn + 1)) bn)).
Proof.
  intros Hx Ht Hbatch. unfold BatchNorm2d_forward, bind, F_batch_norm. rewrite Hx, Ht.
  cbn [set_num_batches_tracked bn_training num_features andb]. rewrite Ht.
  zbool. reflexivity.
Qed.

Lemma ConvBlock_forward_block_1 (x : Tensor D) (cb : @ConvBlock D) (i o n h w : Z) (t : bool) :
  ConvBlock_ok i o t cb -> shape x = [n; i; h; w] -> 1 <= h -> 1 <= w ->
  block_1 (ConvBlock_forward x cb).2
  = (BatchNorm2d_forward
       (mkTensor [n; o; h; w]
          (conv2d_data (conv_weight (block_0 cb)) (conv_bias (block_0 cb)) 1 (data x)))
       (block_1 cb)).2.
Proof.
  intros (H0 & _) Hx Hh Hw.
  pose proof (Conv2d_forward_shape (block_0 cb) x i o 3 1 n h w H0 Hx) as E.
  rewrite !conv_output_size_3_1 in E. specialize (E Hh Hw).
  unfold ConvBlock_forward.
  rewrite (bind_read_ok (fun self => Conv2d_forward (block_0 self) x) _ cb _ E).
  match goal with
  | |- _ = ?B => apply (bind_establishes (fun s => block_1 s = B))
  end.
  - unfold zoom. destruct (BatchNorm2d_forward _ (block_1 cb)) as [r bn']. reflexivity.
  - intros x1.
    repeat first
      [ apply preserves_ret | apply preserves_read
      | apply preserves_bind; [|intros ?] ].
    eapply preserves_zoom; [apply preserves_True | intros; exact I | ].
    intros s bn Hs _. exact Hs.
Qed.

Lemma forward_enc1_block_1 (x : Tensor D) (m : @ColorizationSDAEUNet D)
    (ic oc bc N H W : Z) (t : bool) :
  Net_ok ic oc bc t m -> shape x = [N; ic; H; W] -> 1 <= H -> 1 <= W ->
  block_1 (enc1 (ColorizationSDAEUNet_forward x m).2)
  = (BatchNorm2d_forward
       (mkTensor [N; bc; H; W]
          (conv2d_data (conv_weight (block_0 (enc1 m))) (conv_bias (block_0 (enc1 m))) 1
             (data x)))
       (block_1 (enc1 m))).2.
Proof.
  intros Hm Hx HH HW. assert (H1 : ConvBlock_ok ic bc t (enc1 m)) by apply Hm.
  rewrite <- (ConvBlock_forward_block_1 x (enc1 m) ic bc N H W t H1 Hx HH HW).
  unfold ColorizationSDAEUNet_forward.
  match goal with
  | |- _ = ?B => apply (bind_establishes (fun s => block_1 (enc1 s) = B))
  end.
  - unfold zoom. destruct (ConvBlock_forward x (enc1 m)) as [r cb']. reflexivity.
  - intros e1.
    repeat first
      [ apply preserves_ret | apply preserves_read
      | apply preserves_bind; [|intros ?] ];
      (eapply preserves_zoom;
       [apply preserves_True | intros; exact I | intros s u Hs _; exact Hs]).
Qed.

(** ** The checked properties *)

(** C1. Shape invariance.  In any state of the serving process, a request
    whose upload decodes to an image of width [W] and height [H] (both at
    least one pixel, multiples of 16 or not) is answered with PNG bytes that
    decode to an image of size exactly [(W, H)].  The codec is Pillow's; it
    is assumed to give back the size of the image it encoded. *)
Theorem C1_output_has_input_size (env : Env) (p : @Process D) (file : UploadFile)
    (ct : string) (img : PILImage D) (W H : Z) :
  reachable env p ->
  content_type file = Some ct -> String.prefix "image/" ct = true ->
  Image_open (file_read file) = Ok img -> convert_error img "RGB" = None ->
  im_size img = (W, H) -> 1 <= W -> 1 <= H ->
  (forall out : PILImage D,
      1 <= (im_size out).1 -> 1 <= (im_size out).2 ->
      exists img', Image_open (png_encode out) = Ok img' /\ im_size img' = im_size out) ->
  exists resp img',
    (colorize file p).1 = Ok resp
    /\ media_type resp = "image/png"
    /\ Image_open (content resp) = Ok img'
    /\ im_size img' = (W, H).
Proof.
  intros Hreach Hct Hprefix Hopen Hconv Hsize HW HH Hcodec.
  destruct (reachable_serving env p Hreach) as (m & Hm & t & Hok).
  destruct (colorize_ok p m t file ct img W H Hm Hok Hct Hprefix Hopen Hconv Hsize HW HH)
    as (L & ab & m' & out & _ & _ & _ & _ & _ & Hout & E).
  destruct (Hcodec out) as (img' & Edec & Hsz); [rewrite Hout; assumption ..|].
  eexists _, img'. rewrite E. cbn [fst content media_type].
  split; [reflexivity|]. split; [reflexivity|]. split; [exact Edec|].
  rewrite Hsz. exact Hout.
Qed.

(** C3, as amended.  With no checkpoint file, importing [app.py] does not
    raise: it prints the warning and leaves [model] as its constructor made
    it, in training mode; no module-level name is bound to a status flag;
    and the forward pass on a tensor of the preprocessor's shape
    [(1, 1, 256, 256)] returns. *)
Theorem C3_missing_checkpoint_degrades (env : Env) :
  files env !! MODEL_PATH = None ->
  (startup env boot).1 = Ok tt
  /\ model_of (startup env boot).2 = Some (ColorizationSDAEUNet_init 1 2 64)
  /\ stdout (startup env boot).2
     = ["WARNING: Model file not found at colorization_sdae_unet_best.pth. Inference will use random weights."]
  /\ ~ exposes_status_flag (startup env boot).2
  /\ forall x : Tensor D,
       shape x = [1; 1; IMAGE_SIZE; IMAGE_SIZE] ->
       exists y m',
         ColorizationSDAEUNet_forward x (ColorizationSDAEUNet_init 1 2 64) = (Ok y, m')
         /\ shape y = [1; 2; IMAGE_SIZE; IMAGE_SIZE].
Proof.
  intros Hmiss. split; [rewrite (startup_missing env Hmiss); reflexivity|].
  split; [apply startup_missing_model; exact Hmiss|].
  split; [rewrite (startup_missing env Hmiss); reflexivity|].
  split; [apply startup_missing_no_flag; exact Hmiss|].
  - intros x Hx.
    assert (Hbatch : true = true -> 1 * (IMAGE_SIZE / 16) * (IMAGE_SIZE / 16) <> 1)
      by (intros _; vm_compute; discriminate).
    destruct (forward_spec x 1 2 64 1 IMAGE_SIZE IMAGE_SIZE true Hx ltac:(lia)
                ltac:(unfold IMAGE_SIZE; lia) ltac:(unfold IMAGE_SIZE; lia) Hbatch
                _ (Net_ok_init 1 2 64))
      as (y & m' & E & (Hy & _) & _).
    exists y, m'. split; assumption.
Qed.

(** C4. Resolution order of the loader.  When the checkpoint file
    unpickles to a dictionary, the object passed to [load_state_dict] is
    the value under ["model_state"] if that key is present; otherwise the
    value under ["model_state_dict"] if present; otherwise the value under
    ["state_dict"] if present; otherwise the dictionary itself. *)
Theorem C4_checkpoint_resolution_order (env : Env) (content : list Byte.byte)
    (d : gmap string (PyObj D)) :
  files env !! MODEL_PATH = Some content ->
  torch_unpickle cls_WindowsPath content = Ok (PyDict d) ->
  exists sd,
    model_of (startup env boot).2 = Some (loaded_from sd (ColorizationSDAEUNet_init 1 2 64))
    /\ (forall v, d !! "model_state" = Some v -> sd = v)
    /\ (d !! "model_state" = None ->
        forall v, d !! "model_state_dict" = Some v -> sd = v)
    /\ (d !! "model_state" = None -> d !! "model_state_dict" = None ->
        forall v, d !! "state_dict" = Some v -> sd = v)
    /\ (d !! "model_state" = None -> d !! "model_state_dict" = None ->
        d !! "state_dict" = None -> sd = PyDict d).
Proof.
  intros Hfile Hload. exists (resolve_checkpoint d).
  split; [apply (startup_dict env content d Hfile Hload)|].
  unfold resolve_checkpoint.
  repeat split; intros; repeat match goal with H : _ !! _ = _ |- _ => rewrite H end;
    congruence.
Qed.

(** A request served while the model is in training mode: the tensor it
    feeds to the network and the model it leaves. *)
Lemma request_untrained (p : @Process D) (m : @ColorizationSDAEUNet D) (file : UploadFile)
    (ct : string) (img : PILImage D) (W H : Z) :
  model_of p = Some m -> Net_ok 1 2 64 true m ->
  content_type file = Some ct -> String.prefix "image/" ct = true ->
  Image_open (file_read file) = Ok img -> convert_error img "RGB" = None ->
  im_size img = (W, H) -> 1 <= W -> 1 <= H ->
  exists L_tensor m',
    preprocess_image (file_read file) = Ok (L_tensor, (W, H))
    /\ shape L_tensor = [1; 1; IMAGE_SIZE; IMAGE_SIZE]
    /\ (ColorizationSDAEUNet_forward L_tensor m).2 = m'
    /\ model_of (colorize file p).2 = Some m'.
Proof.
  intros Hm Hok Hct Hprefix Hopen Hconv Hsize HW HH.
  destruct (colorize_ok p m true file ct img W H Hm Hok
              Hct Hprefix Hopen Hconv Hsize HW HH)
    as (L & ab & m' & out & Epre & HL & Efwd & _ & _ & _ & E).
  exists L, m'. split; [exact Epre|]. split; [exact HL|].
  split; [rewrite Efwd; reflexivity|].
  rewrite E. unfold model_of. cbn [snd globals]. rewrite lookup_insert_eq. reflexivity.
Qed.

(** After a start-up that found no checkpoint, [model.eval()] has not been
    called: in every state the process goes through, the normalisation
    layers are in training mode, and a request overwrites their running
    statistics with the momentum update computed from the request's own
    image. *)
Lemma request_overwrites_running_statistics (env : Env) (p : @Process D) (file : UploadFile)
    (ct : string) (img : PILImage D) (W H : Z) :
  files env !! MODEL_PATH = None -> reachable env p ->
  content_type file = Some ct -> String.prefix "image/" ct = true ->
  Image_open (file_read file) = Ok img -> convert_error img "RGB" = None ->
  im_size img = (W, H) -> 1 <= W -> 1 <= H ->
  exists m L_tensor m',
    model_of p = Some m
    /\ training m = true /\ bn_training (block_1 (enc1 m)) = true
    /\ preprocess_image (file_read file) = Ok (L_tensor, (W, H))
    /\ model_of (colorize file p).2 = Some m'
    /\ running_mean (block_1 (enc1 m'))
       = momentum_mean (running_mean (block_1 (enc1 m)))
           (conv2d_data (conv_weight (block_0 (enc1 m))) (conv_bias (block_0 (enc1 m))) 1
              (data L_tensor))
    /\ running_var (block_1 (enc1 m'))
       = momentum_var (running_var (block_1 (enc1 m)))
           (conv2d_data (conv_weight (block_0 (enc1 m))) (conv_bias (block_0 (enc1 m))) 1
              (data L_tensor)).
Proof.
  intros Hmiss Hreach Hct Hprefix Hopen Hconv Hsize HW HH.
  destruct (reachable_untrained env p Hmiss Hreach) as (m & Hm & Hok).
  destruct (request_untrained p m file ct img W H Hm Hok
              Hct Hprefix Hopen Hconv Hsize HW HH)
    as (L & m' & Epre & HL & Em' & Hmodel).
  assert (Hbn : BatchNorm2d_ok 64 true (block_1 (enc1 m))) by apply Hok.
  destruct Hbn as [Hfeat Htrain].
  exists m, L, m'.
  split; [exact Hm|]. split; [apply Hok|]. split; [exact Htrain|]. split; [exact Epre|].
  split; [exact Hmodel|].
  pose proof (forward_enc1_block_1 L m 1 2 64 1 IMAGE_SIZE IMAGE_SIZE true
                Hok HL ltac:(unfold IMAGE_SIZE; lia)
                ltac:(unfold IMAGE_SIZE; lia)) as Hfirst.
  rewrite Em' in Hfirst. rewrite Hfirst.
  rewrite (BatchNorm2d_forward_train _ _ 1 IMAGE_SIZE IMAGE_SIZE);
    [ split; reflexivity | cbn [shape]; rewrite Hfeat; reflexivity | exact Htrain
    | vm_compute; discriminate ].
Qed.

(** C6, where the code departs from it.  After a start-up that found no
    checkpoint, serving a request changes the state held by the model: the
    batch counter of the first normalisation layer advances by one (from 0
    to 1 on the first request), so the model after the call is not the
    model before it. *)
Theorem C6_request_mutates_model (env : Env) (p : @Process D) (file : UploadFile)
    (ct : string) (img : PILImage D) (W H : Z) :
  files env !! MODEL_PATH = None -> reachable env p ->
  content_type file = Some ct -> String.prefix "image/" ct = true ->
  Image_open (file_read file) = Ok img -> convert_error img "RGB" = None ->
  im_size img = (W, H) -> 1 <= W -> 1 <= H ->
  exists m m',
    model_of p = Some m
    /\ model_of (colorize file p).2 = Some m'
    /\ num_batches_tracked (block_1 (enc1 m'))
       = wrap_int64 (num_batches_tracked (block_1 (enc1 m)) + 1)
    /\ m' <> m.
Proof.
  intros Hmiss Hreach Hct Hprefix Hopen Hconv Hsize HW HH.
  destruct (reachable_untrained env p Hmiss Hreach) as (m & Hm & Hok).
  destruct (request_untrained p m file ct img W H Hm Hok
              Hct Hprefix Hopen Hconv Hsize HW HH)
    as (L & m' & _ & HL & Em' & Hmodel).
  exists m, m'. split; [exact Hm|]. split; [exact Hmodel|].
  rewrite <- Em'. split.
  - apply (forward_counts L m 1 2 64 1 IMAGE_SIZE IMAGE_SIZE Hok HL);
      unfold IMAGE_SIZE; lia.
  - apply (forward_training_writes L m 1 2 64 1 IMAGE_SIZE IMAGE_SIZE Hok HL);
      unfold IMAGE_SIZE; lia.
Qed.

(** What the loaded model does instead: once [model.eval()] has run, a
    request, served or failed, leaves the model exactly as it was. *)
Lemma loaded_model_is_frozen (x : Tensor D) (t : bool) (m : @ColorizationSDAEUNet D) :
  Net_ok 1 2 64 t m ->
  (ColorizationSDAEUNet_forward x (ColorizationSDAEUNet_eval m)).2
  = ColorizationSDAEUNet_eval m.
Proof.
  intros Hok. eapply forward_eval_readonly, Net_ok_eval, Hok.
Qed.


(** What one decoder stage computes, call by call. *)
Lemma UpBlock_forward_stage (ub : @UpBlock D) (x skip : Tensor D)
    (i o n hx wx hs ws : Z) (t : bool) :
  UpBlock_ok i o t ub ->
  shape x = [n; i; hx; wx] -> shape skip = [n; o; hs; ws] ->
  1 <= hs -> 1 <= ws -> (t = true -> n * hs * ws <> 1) ->
  exists u u' joined y cb',
    ConvTranspose2d_forward (up ub) x = Ok u
    /\ shape u = [n; o; 2 * hx; 2 * wx]
    /\ UpBlock_pad u skip = Ok u'
    /\ shape u' = [n; o; hs; ws]
    /\ (2 * hx = hs /\ 2 * wx = ws /\ u' = u
        \/ (2 * hx <> hs \/ 2 * wx <> ws)
           /\ data u'
              = pad_data [(ws - 2 * wx) / 2; (ws - 2 * wx) - (ws - 2 * wx) / 2;
                          (hs - 2 * hx) / 2; (hs - 2 * hx) - (hs - 2 * hx) / 2] (data u))
    /\ torch_cat_dim1 skip u' = Ok joined
    /\ shape joined = [n; o + o; hs; ws]
    /\ ConvBlock_forward joined (conv ub) = (Ok y, cb')
    /\ UpBlock_forward x skip ub = (Ok y, set_conv cb' ub)
    /\ shape y = [n; o; hs; ws].
Proof.
  intros ((Hi & Ho & Hk & Hst) & Hc) Hx Hskip Hh Hw Hbatch.
  destruct (ConvTranspose2d_forward_shape (up ub) x i n hx wx Hi Hx) as (u & Eu & Hu).
  rewrite Ho, Hk, Hst in Hu.
  replace ((hx - 1) * 2 + 2) with (2 * hx) in Hu by ring.
  replace ((wx - 1) * 2 + 2) with (2 * wx) in Hu by ring.
  destruct (UpBlock_pad_shape u skip n o (2 * hx) (2 * wx) n o hs ws Hu Hskip
              ltac:(lia) ltac:(lia)) as (u' & Ep & Hu' & Hpad).
  destruct (torch_cat_dim1_shape skip u' n o o hs ws Hskip Hu') as (joined & Ej & Hj).
  assert (Hj2 : shape joined = [n; o * 2; hs; ws])
    by (rewrite Hj; replace (o + o) with (o * 2) by ring; reflexivity).
  destruct (ConvBlock_forward_spec joined (o * 2) o n hs ws t Hj2 Hh Hw Hbatch (conv ub) Hc)
    as (y & cb' & Ey & Hy & _).
  exists u, u', joined, y, cb'.
  repeat (split; [assumption|]). split; [|exact Hy].
  unfold UpBlock_forward.
  rewrite (bind_read_ok (fun self => ConvTranspose2d_forward (up self) x) _ ub u Eu).
  rewrite (bind_read_ok (fun _ => UpBlock_pad u skip) _ ub u' Ep).
  rewrite (bind_read_ok (fun _ => torch_cat_dim1 skip u') _ ub joined Ej).
  unfold zoom. rewrite Ey. reflexivity.
Qed.

(** C8, as amended.  A decoder stage [UpBlock.forward(b, skip)] upsamples
    [b] to twice its size and brings the result to exactly the spatial
    size of the skip tensor before concatenating the two along the
    channels: when the sizes differ, the amount [d] missing on an axis is
    padded as [d // 2] before and [d - d // 2] after, two amounts that
    differ by one at most.  What the stage returns is its [ConvBlock]
    applied to that concatenation, at the spatial size of the skip tensor.
    Hence the forward pass on an input of height and width at least 16,
    multiples of 16 or not, returns: its four decoder stages are such
    calls, each on a tensor of half the skip tensor's size rounded down
    and on the skip tensor cached by the encoder, and the tensor returned
    has the input's height and width (in training mode the bottleneck
    must see more than one value per channel). *)
Theorem C8_decoder_pads_to_skip_size (ub : @UpBlock D) (ts : bool) (b skip : Tensor D)
    (i o n hb wb hs ws : Z)
    (m : @ColorizationSDAEUNet D) (t : bool) (ic oc bc : Z) (x : Tensor D) (N H W : Z) :
  UpBlock_ok i o ts ub ->
  shape b = [n; i; hb; wb] -> shape skip = [n; o; hs; ws] ->
  1 <= hs -> 1 <= ws -> (ts = true -> n * hs * ws <> 1) ->
  Net_ok ic oc bc t m -> shape x = [N; ic; H; W] ->
  16 <= H -> 16 <= W ->
  (t = true -> N * (H / 16) * (W / 16) <> 1) ->
  (exists u u' joined y cb',
      ConvTranspose2d_forward (up ub) b = Ok u
      /\ shape u = [n; o; 2 * hb; 2 * wb]
      /\ UpBlock_pad u skip = Ok u'
      /\ shape u' = [n; o; hs; ws]
      /\ (2 * hb = hs /\ 2 * wb = ws /\ u' = u
          \/ (2 * hb <> hs \/ 2 * wb <> ws)
             /\ data u'
                = pad_data [(ws - 2 * wb) / 2; (ws - 2 * wb) - (ws - 2 * wb) / 2;
                            (hs - 2 * hb) / 2; (hs - 2 * hb) - (hs - 2 * hb) / 2] (data u))
      /\ torch_cat_dim1 skip u' = Ok joined
      /\ shape joined = [n; o + o; hs; ws]
      /\ ConvBlock_forward joined (conv ub) = (Ok y, cb')
      /\ UpBlock_forward b skip ub = (Ok y, set_conv cb' ub)
      /\ shape y = [n; o; hs; ws])
  /\ 0 <= ((ws - 2 * wb) - (ws - 2 * wb) / 2) - (ws - 2 * wb) / 2 <= 1
  /\ 0 <= ((hs - 2 * hb) - (hs - 2 * hb) / 2) - (hs - 2 * hb) / 2 <= 1
  /\ (exists y m' m0 e1 e2 e3 e4 c d4 d3 d2 d1 u4 u3 u2 u1,
        ColorizationSDAEUNet_forward x m = (Ok y, m')
        /\ (shape e1 = [N; bc; H; W]
            /\ shape e2 = [N; bc * 2; H / 2; W / 2]
            /\ shape e3 = [N; bc * 4; H / 2 / 2; W / 2 / 2]
            /\ shape e4 = [N; bc * 8; H / 2 / 2 / 2; W / 2 / 2 / 2]
            /\ shape c = [N; bc * 16; H / 2 / 2 / 2 / 2; W / 2 / 2 / 2 / 2])
        /\ (UpBlock_forward c e4 (up4 m0) = (Ok d4, u4)
            /\ UpBlock_forward d4 e3 (up3 m0) = (Ok d3, u3)
            /\ UpBlock_forward d3 e2 (up2 m0) = (Ok d2, u2)
            /\ UpBlock_forward d2 e1 (up1 m0) = (Ok d1, u1))
        /\ m' = set_up1 u1 (set_up2 u2 (set_up3 u3 (set_up4 u4 m0)))
        /\ Conv2d_forward (out_conv m') d1 = Ok y
        /\ shape y = [N; oc; H; W]).
Proof.
  intros Hub Hb Hskip Hhs Hws Hstage Hok Hx HH HW Hbatch.
  split; [exact (UpBlock_forward_stage ub b skip i o n hb wb hs ws ts
                   Hub Hb Hskip Hhs Hws Hstage)|].
  split; [apply floor_split_balanced|]. split; [apply floor_split_balanced|].
  destruct (forward_trace x ic oc bc N H W t Hx HH HW Hbatch m Hok)
    as (y & m' & E & m0 & e1 & e2 & e3 & e4 & c & d4 & d3 & d2 & d1 & u4 & u3 & u2 & u1
        & Hskips & Hstages & _ & Em' & Ey & Hy & _).
  exists y, m', m0, e1, e2, e3, e4, c, d4, d3, d2, d1, u4, u3, u2, u1. auto 10.
Qed.

(** C9, as amended.  On a luminance tensor of shape [(N, 1, H, W)] with
    [H] and [W] at least 16, the forward pass returns a tensor of shape
    [(N, 2, H, W)]; it is the output of the 1x1 convolution [out_conv] on
    the last decoder stage, with nothing applied after it.  (In training
    mode the bottleneck must see more than one value per channel.) *)
Theorem C9_forward_shape (m : @ColorizationSDAEUNet D) (t : bool) (bc : Z)
    (x : Tensor D) (N H W : Z) :
  Net_ok 1 2 bc t m -> shape x = [N; 1; H; W] ->
  1 <= N -> 16 <= H -> 16 <= W ->
  (t = true -> N * (H / 16) * (W / 16) <> 1) ->
  exists y m' d1,
    ColorizationSDAEUNet_forward x m = (Ok y, m')
    /\ shape y = [N; 2; H; W]
    /\ shape d1 = [N; bc; H; W]
    /\ kernel_size (out_conv m') = 1
    /\ y = mkTensor [N; 2; H; W]
             (conv2d_data (conv_weight (out_conv m')) (conv_bias (out_conv m')) 0 (data d1)).
Proof.
  intros Hok Hx HN HH HW Hbatch.
  destruct (forward_spec x 1 2 bc N H W t Hx HN HH HW Hbatch m Hok)
    as (y & m' & E & (Hy & d1 & Hd1 & Econv) & Hok').
  assert (Hc : Conv2d_ok bc 2 1 0 (out_conv m')) by (unfold Net_ok in Hok'; tauto).
  pose proof (Conv2d_forward_shape (out_conv m') d1 bc 2 1 0 N H W Hc Hd1) as Eout.
  rewrite !conv_output_size_1_0 in Eout. specialize (Eout ltac:(lia) ltac:(lia)).
  rewrite Eout in Econv. inversion Econv as [Ey].
  exists y, m', d1. rewrite <- Ey.
  split; [rewrite Ey; exact E|]. split; [reflexivity|]. split; [exact Hd1|].
  split; [apply Hc | reflexivity].
Qed.

(** C10, where the code departs from it.  When [torch.load] raises, because
    the checkpoint file is absent or because it does not unpickle, the
    statement that restores [pathlib.PosixPath] is skipped and the name
    stays bound to [pathlib.WindowsPath]. *)
Theorem C10_PosixPath_not_restored (env : Env) :
  files env !! MODEL_PATH = None
  \/ (exists content e,
        files env !! MODEL_PATH = Some content
        /\ torch_unpickle cls_WindowsPath content = Raise e) ->
  PosixPath (pathlib (@boot D)) = cls_PosixPath
  /\ PosixPath (pathlib (startup env boot).2) = cls_WindowsPath.
Proof.
  intros Hraise. split; [reflexivity|].
  destruct Hraise as [Hmiss | (content & e & Hfile & Hload)].
  - rewrite (startup_missing env Hmiss). reflexivity.
  - run. rewrite Hfile. run. rewrite Hload. run.
    destruct e as [[] msg | status detail]; reflexivity.
Qed.

(** When the load goes through, the binding is restored. *)
Lemma PosixPath_restored_after_load (env : Env) (content : list Byte.byte)
    (d : gmap string (PyObj D)) :
  files env !! MODEL_PATH = Some content ->
  torch_unpickle cls_WindowsPath content = Ok (PyDict d) ->
  PosixPath (pathlib (startup env boot).2) = cls_PosixPath.
Proof. intros Hfile Hload. apply (startup_dict env content d Hfile Hload). Qed.

End App.

(** C2. Normalisation round trip, in exact arithmetic: for [L] in
    [[0, 100]], [(L / 50 - 1 + 1) * 50] is [L], and for a chrominance value
    [v] in [[-128, 128]], [v / 128 * 128] is [v]. *)
Theorem C2_normalization_round_trip (L v : Q) :
  (0 <= L <= 100)%Q -> (-128 <= v <= 128)%Q ->
  (L_denorm (L_norm L) == L)%Q /\ (ab_denorm (ab_norm v) == v)%Q.
Proof.
  intros _ _. unfold L_denorm, L_norm, ab_denorm, ab_norm. split; field.
Qed.

(** ** Concrete runs, on the symbolic kernels *)

Lemma count_ones_repeat (n : nat) (rest : list Byte.byte) :
  count_ones rest = (O, rest) ->
  count_ones (repeat Byte.x01 n ++ rest) = (n, rest).
Proof.
  intros Hrest. induction n as [|n IH]; [exact Hrest|].
  cbn [repeat app count_ones]. rewrite IH. reflexivity.
Qed.

Lemma sym_codec_round_trip (out : PILImage Sym) :
  1 <= (im_size out).1 -> 1 <= (im_size out).2 ->
  exists img', Image_open (png_encode out) = Ok img' /\ im_size img' = im_size out.
Proof.
  destruct out as [[w h] mode px]. cbn [im_size fst snd]. intros Hw Hh.
  unfold Image_open. cbn [pil_decode png_encode symbolic]. unfold sym_decode, sym_encode.
  cbn [im_size fst snd]. rewrite count_ones_repeat by reflexivity.
  rewrite <- (app_nil_r (repeat Byte.x01 (Z.to_nat h))).
  rewrite count_ones_repeat by reflexivity.
  eexists. split; [reflexivity|]. cbn [im_size]. rewrite !Z2Nat.id by lia. reflexivity.
Qed.

Lemma Net_ok_eval_init : Net_ok 1 2 64 false (ColorizationSDAEUNet_eval (@ColorizationSDAEUNet_init Sym _ 1 2 64)).
Proof. eapply Net_ok_eval, Net_ok_init. Qed.

Lemma C1_witness :
  exists resp img',
    (colorize (upload 3 5) (startup no_checkpoint boot).2).1 = Ok resp
    /\ media_type resp = "image/png"
    /\ Image_open (content resp) = Ok img'
    /\ im_size img' = (3, 5).
Proof.
  apply (C1_output_has_input_size no_checkpoint _ (upload 3 5) "image/png"
           (mkImage (3, 5) "L" (Leaf "pixels" [])) 3 5);
    [ apply reachable_startup | reflexivity | reflexivity | reflexivity | reflexivity
    | reflexivity | lia | lia | apply sym_codec_round_trip ].
Defined.

Lemma C2_witness :
  (L_denorm (L_norm (75 # 2)) == 75 # 2)%Q /\ (ab_denorm (ab_norm (-64)) == -64)%Q.
Proof.
  apply (C2_normalization_round_trip (75 # 2) (-64)); split; unfold Qle; simpl; lia.
Defined.

(** The claim C3 as it is written fails: no flag is there to check. *)
Lemma C3_counterexample :
  files no_checkpoint !! MODEL_PATH = None
  /\ ~ exposes_status_flag (startup no_checkpoint (@boot Sym)).2.
Proof. split; [reflexivity | apply startup_missing_no_flag; reflexivity]. Qed.

Lemma C3_witness :
  (startup no_checkpoint (@boot Sym)).1 = Ok tt
  /\ model_of (startup no_checkpoint (@boot Sym)).2 = Some (ColorizationSDAEUNet_init 1 2 64)
  /\ stdout (startup no_checkpoint (@boot Sym)).2
     = ["WARNING: Model file not found at colorization_sdae_unet_best.pth. Inference will use random weights."]
  /\ ~ exposes_status_flag (startup no_checkpoint (@boot Sym)).2
  /\ forall x : Tensor Sym,
       shape x = [1; 1; IMAGE_SIZE; IMAGE_SIZE] ->
       exists y m',
         ColorizationSDAEUNet_forward x (ColorizationSDAEUNet_init 1 2 64) = (Ok y, m')
         /\ shape y = [1; 2; IMAGE_SIZE; IMAGE_SIZE].
Proof. apply (C3_missing_checkpoint_degrades no_checkpoint). reflexivity. Defined.

Lemma C4_witness :
  exists sd,
    model_of (startup (with_checkpoint Byte.x02) (@boot Sym)).2
    = Some (loaded_from sd (ColorizationSDAEUNet_init 1 2 64))
    /\ sd = sym_state_dict.
Proof.
  destruct (C4_checkpoint_resolution_order (with_checkpoint Byte.x02) [Byte.x02]
              ({[ "model_state_dict" := sym_state_dict ]} : gmap string (PyObj Sym))
              ltac:(reflexivity) ltac:(reflexivity))
    as (sd & Hmodel & _ & Hsecond & _).
  exists sd. split; [exact Hmodel|]. apply Hsecond; reflexivity.
Defined.

Lemma C6_witness :
  exists m m',
    model_of (colorize (upload 3 5) (startup no_checkpoint (@boot Sym)).2).2 = Some m
    /\ model_of (colorize (upload 640 480)
                   (colorize (upload 3 5) (startup no_checkpoint boot).2).2).2 = Some m'
    /\ num_batches_tracked (block_1 (enc1 m'))
       = wrap_int64 (num_batches_tracked (block_1 (enc1 m)) + 1)
    /\ m' <> m.
Proof.
  apply (C6_request_mutates_model no_checkpoint _ (upload 640 480) "image/png"
           (mkImage (640, 480) "L" (Leaf "pixels" [])) 640 480);
    [ reflexivity | apply reachable_request, reachable_startup | reflexivity | reflexivity
    | reflexivity | reflexivity | reflexivity | lia | lia ].
Defined.

(** The first request after a start-up without checkpoint, run on the
    symbolic kernels: the counter reads 1 and the running mean is the
    momentum update of the initial zeros. *)
Example first_request_writes_statistics :
  option_map (fun m => (num_batches_tracked (block_1 (enc1 m)),
                        running_mean (block_1 (enc1 m))))
    (model_of (colorize (upload 3 5) (startup no_checkpoint (@boot Sym)).2).2)
  = Some (1,
          Op "momentum_mean"
            [Leaf "zeros" [64];
             Op "conv2d"
               [Leaf "randn" [64; 1; 3; 3];
                Op "permute"
                  [Op "ewise"
                     [Op "slice"
                        [Op "RGB2LAB"
                           [Op "ewise" [Op "lanczos" [Op "convert" [Leaf "pixels" []]]]]]]]]]).
Proof. reflexivity. Qed.



(** The claim C8 as it is written fails: 24 and 8 are not multiples of 16
    and the forward pass on a 24 by 8 input raises. *)
Lemma C8_counterexample :
  24 mod 16 <> 0 /\ 8 mod 16 <> 0
  /\ (ColorizationSDAEUNet_forward (sym_tensor [1; 1; 24; 8])
        (ColorizationSDAEUNet_eval (ColorizationSDAEUNet_init 1 2 64))).1
     = Raise (Exn RuntimeError "Output size is too small").
Proof. repeat split; discriminate. Qed.

Lemma C8_witness :
  (exists u u' joined y cb',
      ConvTranspose2d_forward (up (UpBlock_init 128 64)) (sym_tensor [1; 128; 8; 15]) = Ok u
      /\ shape u = [1; 64; 2 * 8; 2 * 15]
      /\ UpBlock_pad u (sym_tensor [1; 64; 17; 31]) = Ok u'
      /\ shape u' = [1; 64; 17; 31]
      /\ (2 * 8 = 17 /\ 2 * 15 = 31 /\ u' = u
          \/ (2 * 8 <> 17 \/ 2 * 15 <> 31)
             /\ data u'
                = pad_data [(31 - 2 * 15) / 2; (31 - 2 * 15) - (31 - 2 * 15) / 2;
                            (17 - 2 * 8) / 2; (17 - 2 * 8) - (17 - 2 * 8) / 2] (data u))
      /\ torch_cat_dim1 (sym_tensor [1; 64; 17; 31]) u' = Ok joined
      /\ shape joined = [1; 64 + 64; 17; 31]
      /\ ConvBlock_forward joined (conv (UpBlock_init 128 64)) = (Ok y, cb')
      /\ UpBlock_forward (sym_tensor [1; 128; 8; 15]) (sym_tensor [1; 64; 17; 31])
           (UpBlock_init 128 64)
         = (Ok y, set_conv cb' (UpBlock_init 128 64))
      /\ shape y = [1; 64; 17; 31])
  /\ 0 <= ((31 - 2 * 15) - (31 - 2 * 15) / 2) - (31 - 2 * 15) / 2 <= 1
  /\ 0 <= ((17 - 2 * 8) - (17 - 2 * 8) / 2) - (17 - 2 * 8) / 2 <= 1
  /\ (exists y m' m0 e1 e2 e3 e4 c d4 d3 d2 d1 u4 u3 u2 u1,
        ColorizationSDAEUNet_forward (sym_tensor [1; 1; 17; 31]) (ColorizationSDAEUNet_eval (ColorizationSDAEUNet_init 1 2 64)) = (Ok y, m')
        /\ (shape e1 = [1; 64; 17; 31]
            /\ shape e2 = [1; 64 * 2; 17 / 2; 31 / 2]
            /\ shape e3 = [1; 64 * 4; 17 / 2 / 2; 31 / 2 / 2]
            /\ shape e4 = [1; 64 * 8; 17 / 2 / 2 / 2; 31 / 2 / 2 / 2]
            /\ shape c = [1; 64 * 16; 17 / 2 / 2 / 2 / 2; 31 / 2 / 2 / 2 / 2])
        /\ (UpBlock_forward c e4 (up4 m0) = (Ok d4, u4)
            /\ UpBlock_forward d4 e3 (up3 m0) = (Ok d3, u3)
            /\ UpBlock_forward d3 e2 (up2 m0) = (Ok d2, u2)
            /\ UpBlock_forward d2 e1 (up1 m0) = (Ok d1, u1))
        /\ m' = set_up1 u1 (set_up2 u2 (set_up3 u3 (set_up4 u4 m0)))
        /\ Conv2d_forward (out_conv m') d1 = Ok y
        /\ shape y = [1; 2; 17; 31]).
Proof.
  apply (C8_decoder_pads_to_skip_size (UpBlock_init 128 64) true
           (sym_tensor [1; 128; 8; 15]) (sym_tensor [1; 64; 17; 31])
           128 64 1 8 15 17 31
           _ false 1 2 64 (sym_tensor [1; 1; 17; 31]) 1 17 31);
    [ apply UpBlock_ok_init | reflexivity | reflexivity | lia | lia | intros _; lia
    | apply Net_ok_eval_init | reflexivity | lia | lia | discriminate ].
Defined.

(** The claim C9 as it is written fails: the forward pass on an 8 by 8
    luminance tensor raises instead of returning a tensor. *)
Lemma C9_counterexample :
  (ColorizationSDAEUNet_forward (sym_tensor [1; 1; 8; 8])
     (ColorizationSDAEUNet_eval (ColorizationSDAEUNet_init 1 2 64))).1
  = Raise (Exn RuntimeError "Output size is too small").
Proof. reflexivity. Qed.

Lemma C9_witness :
  exists y m' d1,
    ColorizationSDAEUNet_forward (sym_tensor [2; 1; 40; 16])
      (ColorizationSDAEUNet_init 1 2 64) = (Ok y, m')
    /\ shape y = [2; 2; 40; 16]
    /\ shape d1 = [2; 64; 40; 16]
    /\ kernel_size (out_conv m') = 1
    /\ y = mkTensor [2; 2; 40; 16]
             (conv2d_data (conv_weight (out_conv m')) (conv_bias (out_conv m')) 0 (data d1)).
Proof.
  apply (C9_forward_shape _ true 64 (sym_tensor [2; 1; 40; 16]) 2 40 16);
    [ apply Net_ok_init | reflexivity | lia | lia | lia | intros _; discriminate ].
Defined.

Lemma C10_witness :
  PosixPath (pathlib (@boot Sym)) = cls_PosixPath
  /\ PosixPath (pathlib (startup no_checkpoint (@boot Sym)).2) = cls_WindowsPath.
Proof. apply (C10_PosixPath_not_restored no_checkpoint). left. reflexivity. Defined.

(** * Further properties of the two files *)

(** ** Rules for calls that may raise *)

Section Outcomes.

Context {S : Type}.

Lemma ends_bind {A B} (P : S -> Prop) (m : M S A) (Q : A -> S -> Prop)
    (k : A -> M S B) (R : B -> S -> Prop) (E : PyExn -> S -> Prop) :
  ends P m Q E -> (forall a, ends (Q a) (k a) R E) -> ends P (bind m k) R E.
Proof.
  intros Hm Hk s Hs. specialize (Hm s Hs). unfold bind.
  destruct (m s) as [[a|e] s']; [exact (Hk a s' Hm) | exact Hm].
Qed.

Lemma ends_triple {A} (P : S -> Prop) (m : M S A) (Q : A -> S -> Prop)
    (E : PyExn -> S -> Prop) :
  triple P m Q -> ends P m Q E.
Proof.
  intros Hm s Hs. destruct (Hm s Hs) as (a & s' & Eq & HQ). rewrite Eq. exact HQ.
Qed.

(** Along a function body: [I] is kept, the facts [F] go to the context. *)
Lemma ends_step {A B} (I : S -> Prop) (m : M S A) (F : A -> Prop)
    (k : A -> M S B) (R : B -> S -> Prop) (E : PyExn -> S -> Prop) :
  triple I m (fun a s => F a /\ I s) ->
  (forall a, F a -> ends I (k a) R E) ->
  ends I (bind m k) R E.
Proof.
  intros Hm Hk. eapply ends_bind; [apply ends_triple; exact Hm|].
  intros a s [HF HI]. exact (Hk a HF s HI).
Qed.

(** The statement that raises ends the body. *)
Lemma ends_read_raise {A B} (I : S -> Prop) (f : S -> PyResult A) (k : A -> M S B)
    (R : B -> S -> Prop) (E : PyExn -> S -> Prop) (e : PyExn) :
  (forall s, I s -> f s = Raise e) -> (forall s, I s -> E e s) ->
  ends I (bind (read f) k) R E.
Proof.
  intros Hf HE s Hs. rewrite (bind_read_raise f k s e (Hf s Hs)). exact (HE s Hs).
Qed.

Lemma ends_zoom {T A} (get : S -> T) (set : T -> S -> S) (m : M T A)
    (I : S -> Prop) (P : T -> Prop) (Q : A -> T -> Prop) (E' : PyExn -> T -> Prop)
    (R : A -> S -> Prop) (E : PyExn -> S -> Prop) :
  ends P m Q E' ->
  (forall s, I s -> P (get s)) ->
  (forall s a t, I s -> Q a t -> R a (set t s)) ->
  (forall s e t, I s -> E' e t -> E e (set t s)) ->
  ends I (zoom get set m) R E.
Proof.
  intros Hm Hget Hok Herr s Hs. specialize (Hm (get s) (Hget s Hs)). unfold zoom.
  destruct (m (get s)) as [[a|e] t]; eauto.
Qed.

Lemma ends_try_except {A} (P : S -> Prop) (body : M S A) (handler : PyExn -> M S A)
    (Q : A -> S -> Prop) (E' E : PyExn -> S -> Prop) :
  ends P body Q E' -> (forall e, ends (E' e) (handler e) Q E) ->
  ends P (try_except body handler) Q E.
Proof.
  intros Hb Hh s Hs. specialize (Hb s Hs). unfold try_except.
  destruct (body s) as [[a|e] s']; [exact Hb | exact (Hh e s' Hb)].
Qed.

(** A statement that keeps [I] whatever its outcome, followed by the rest. *)
Lemma ends_after {A B} (I : S -> Prop) (m : M S A) (k : A -> M S B)
    (R : B -> S -> Prop) (E : PyExn -> S -> Prop) :
  preserves I m -> (forall e s, I s -> E e s) ->
  (forall a, ends I (k a) R E) -> ends I (bind m k) R E.
Proof.
  intros Hm HE Hk s Hs. specialize (Hm s Hs). unfold bind.
  destruct (m s) as [[a|e] s']; simpl in Hm; [exact (Hk a s' Hm) | exact (HE e s' Hm)].
Qed.

End Outcomes.

(** ** The network on inputs it cannot take *)

Lemma half_upper (a b : Z) : b <= a / 2 -> 2 * b <= a.
Proof. intros H. pose proof (Z.mul_div_le a 2 ltac:(lia)). lia. Qed.

Section Rejections.

Context {D : Type} `{!Kernels D}.

(** In training mode a block whose normalisation sees one value per
    channel raises, after its convolution has run. *)
Lemma ConvBlock_forward_single_value (x : Tensor D) (i o : Z) :
  shape x = [1; i; 1; 1] ->
  ends (ConvBlock_ok i o true) (ConvBlock_forward x)
    (fun _ _ => False)
    (fun e cb =>
       e = Exn ValueError "Expected more than 1 value per channel when training"
       /\ ConvBlock_ok i o true cb).
Proof.
  intros Hx. unfold ConvBlock_forward.
  eapply ends_step with (F := fun y => shape y = [1; o; 1; 1]).
  { apply triple_read. intros cb (H0 & _). eapply Conv2d_3x3_shape; eauto; lia. }
  intros x1 Hx1. eapply ends_bind with (Q := fun _ _ => False); [|intros a s []].
  intros cb Hcb. destruct Hcb as (H0 & [Hc Ht] & H3 & H4).
  unfold zoom, BatchNorm2d_forward, bind, F_batch_norm. rewrite Hx1, Ht.
  cbn [set_num_batches_tracked bn_training andb]. rewrite Ht.
  change (1 * 1 * 1 =? 1) with true. cbn [andb].
  split; [reflexivity|]. repeat split; try apply H0; try apply H3; try apply H4; assumption.
Qed.

Ltac net_get := intros ? ?; unfold Net_ok in *; tauto.

Ltac net_set :=
  let Hy := fresh in
  intros ? ? ? ? [Hy ?]; split; [exact Hy|]; unfold Net_ok in *; simpl; tauto.

Ltac pool_step :=
  let m := fresh "m" in
  let Hm := fresh "Hm" in
  let Hp := fresh "Hp" in
  apply triple_read; intros m Hm;
  assert (Hp : pool m = MaxPool2d_init 2) by (unfold Net_ok in Hm; tauto);
  rewrite Hp; eapply MaxPool2d_forward_shape; [eassumption | lia | lia].

Ltac enc_step x i o N h w :=
  eapply ends_step with (F := fun y => shape y = [N; o; h; w]);
  [ eapply triple_zoom;
    [ eapply (ConvBlock_forward_spec x i o N h w false);
      [eassumption | lia | lia | discriminate]
    | net_get | net_set ]
  | ].

(** The pooling after an encoder stage: it returns when both sides are at
    least 2 and otherwise ends the pass with "Output size is too small". *)
Ltac pool_or_raise e N c h w :=
  let Hh := fresh "Hh" in
  let Hw := fresh "Hw" in
  destruct (Z_lt_dec h 2) as [Hh|Hh];
  [ eapply ends_read_raise;
    [ let m := fresh "m" in
      let Hm := fresh "Hm" in
      let Hp := fresh "Hp" in
      intros m Hm; cbv beta;
      assert (Hp : pool m = MaxPool2d_init 2) by (unfold Net_ok in Hm; tauto);
      rewrite Hp; eapply (MaxPool2d_forward_too_small e N c h w); [eassumption | lia]
    | intros; reflexivity ]
  | destruct (Z_lt_dec w 2) as [Hw|Hw];
    [ eapply ends_read_raise;
      [ let m := fresh "m" in
        let Hm := fresh "Hm" in
        let Hp := fresh "Hp" in
        intros m Hm; cbv beta;
        assert (Hp : pool m = MaxPool2d_init 2) by (unfold Net_ok in Hm; tauto);
        rewrite Hp; eapply (MaxPool2d_forward_too_small e N c h w); [eassumption | lia]
      | intros; reflexivity ]
    | eapply ends_step with (F := fun y => shape y = [N; c; h / 2; w / 2]);
      [ pool_step | ] ] ].

Lemma forward_too_small_ends (x : Tensor D) (ic oc bc N H W : Z) :
  shape x = [N; ic; H; W] -> 1 <= H -> 1 <= W -> H < 16 \/ W < 16 ->
  ends (Net_ok ic oc bc false) (ColorizationSDAEUNet_forward x)
    (fun _ _ => False)
    (fun e _ => e = Exn RuntimeError "Output size is too small").
Proof.
  intros Hx HH HW Hsmall. unfold ColorizationSDAEUNet_forward.
  enc_step x ic bc N H W. intros e1 He1.
  pool_or_raise e1 N bc H W. intros p1 Hp1.
  pose proof (half_lower H 1 ltac:(lia)). pose proof (half_lower W 1 ltac:(lia)).
  enc_step p1 bc (bc * 2) N (H / 2) (W / 2). intros e2 He2.
  pool_or_raise e2 N (bc * 2) (H / 2) (W / 2). intros p2 Hp2.
  pose proof (half_lower (H / 2) 1 ltac:(lia)). pose proof (half_lower (W / 2) 1 ltac:(lia)).
  enc_step p2 (bc * 2) (bc * 4) N (H / 2 / 2) (W / 2 / 2). intros e3 He3.
  pool_or_raise e3 N (bc * 4) (H / 2 / 2) (W / 2 / 2). intros p3 Hp3.
  pose proof (half_lower (H / 2 / 2) 1 ltac:(lia)).
  pose proof (half_lower (W / 2 / 2) 1 ltac:(lia)).
  enc_step p3 (bc * 4) (bc * 8) N (H / 2 / 2 / 2) (W / 2 / 2 / 2). intros e4 He4.
  pose proof (half_upper (H / 2 / 2) 2). pose proof (half_upper (H / 2) 4).
  pose proof (half_upper H 8).
  pose proof (half_upper (W / 2 / 2) 2). pose proof (half_upper (W / 2) 4).
  pose proof (half_upper W 8).
  eapply ends_read_raise; [|intros; reflexivity].
  intros m Hm. assert (Hp : pool m = MaxPool2d_init 2) by (unfold Net_ok in Hm; tauto).
  rewrite Hp. eapply (MaxPool2d_forward_too_small e4); [eassumption | lia].
Qed.

(** X1. In evaluation mode, a forward pass on an input with a side below
    16 raises "Output size is too small" (a pooling window no longer fits)
    and leaves the model as it was. *)
Theorem forward_rejects_small_input (m : @ColorizationSDAEUNet D) (x : Tensor D)
    (ic oc bc N H W : Z) :
  Net_ok ic oc bc false m -> shape x = [N; ic; H; W] ->
  1 <= N -> 1 <= H -> 1 <= W -> H < 16 \/ W < 16 ->
  ColorizationSDAEUNet_forward x m = (Raise (Exn RuntimeError "Output size is too small"), m).
Proof.
  intros Hok Hx _ HH HW Hsmall.
  pose proof (forward_too_small_ends x ic oc bc N H W Hx HH HW Hsmall m Hok) as Hend.
  pose proof (forward_eval_readonly x ic oc bc m Hok) as Hsame.
  destruct (ColorizationSDAEUNet_forward x m) as [[y|e] m']; [contradiction|].
  simpl in Hsame. subst. reflexivity.
Qed.

Ltac enc_step_training x i o h w :=
  eapply ends_step with (F := fun y => shape y = [1; o; h; w]);
  [ eapply triple_zoom;
    [ eapply (ConvBlock_forward_spec x i o 1 h w true);
      [eassumption | lia | lia | intros _; nia]
    | net_get | net_set ]
  | ].

Ltac pool_step_ok c h w :=
  eapply ends_step with (F := fun y => shape y = [1; c; h / 2; w / 2]); [pool_step|].

Lemma forward_single_value_ends (x : Tensor D) (ic oc bc H W : Z) :
  shape x = [1; ic; H; W] -> 16 <= H < 32 -> 16 <= W < 32 ->
  ends (Net_ok ic oc bc true) (ColorizationSDAEUNet_forward x)
    (fun _ _ => False)
    (fun e _ => e = Exn ValueError "Expected more than 1 value per channel when training").
Proof.
  intros Hx HH HW.
  assert (Hh4 : H / 2 / 2 / 2 / 2 = 1).
  { rewrite sixteenth. pose proof (Z.div_le_lower_bound H 16 1).
    pose proof (Z.div_lt_upper_bound H 16 2). lia. }
  assert (Hw4 : W / 2 / 2 / 2 / 2 = 1).
  { rewrite sixteenth. pose proof (Z.div_le_lower_bound W 16 1).
    pose proof (Z.div_lt_upper_bound W 16 2). lia. }
  pose proof (half_lower H 8 ltac:(lia)). pose proof (half_lower W 8 ltac:(lia)).
  pose proof (half_lower (H / 2) 4 ltac:(lia)). pose proof (half_lower (W / 2) 4 ltac:(lia)).
  pose proof (half_lower (H / 2 / 2) 2 ltac:(lia)).
  pose proof (half_lower (W / 2 / 2) 2 ltac:(lia)).
  unfold ColorizationSDAEUNet_forward.
  enc_step_training x ic bc H W. intros e1 He1.
  pool_step_ok bc H W. intros p1 Hp1.
  enc_step_training p1 bc (bc * 2) (H / 2) (W / 2). intros e2 He2.
  pool_step_ok (bc * 2) (H / 2) (W / 2). intros p2 Hp2.
  enc_step_training p2 (bc * 2) (bc * 4) (H / 2 / 2) (W / 2 / 2). intros e3 He3.
  pool_step_ok (bc * 4) (H / 2 / 2) (W / 2 / 2). intros p3 Hp3.
  enc_step_training p3 (bc * 4) (bc * 8) (H / 2 / 2 / 2) (W / 2 / 2 / 2). intros e4 He4.
  pool_step_ok (bc * 8) (H / 2 / 2 / 2) (W / 2 / 2 / 2). intros p4 Hp4.
  rewrite Hh4, Hw4 in Hp4.
  eapply ends_bind with (Q := fun _ _ => False); [|intros a s []].
  eapply ends_zoom;
    [ apply (ConvBlock_forward_single_value p4 (bc * 8) (bc * 16) Hp4)
    | net_get | intros s a t _ [] | intros s e t _ [He _]; exact He ].
Qed.

(** X2. In training mode, which is the mode of a model nothing was loaded
    into, a forward pass on a single image of 16 to 31 pixels a side
    raises: the bottleneck is 1 by 1 and its batch normalisation needs
    more than one value per channel. *)
Theorem forward_training_rejects_single_value (m : @ColorizationSDAEUNet D) (x : Tensor D)
    (ic oc bc H W : Z) :
  Net_ok ic oc bc true m -> shape x = [1; ic; H; W] ->
  16 <= H < 32 -> 16 <= W < 32 ->
  (ColorizationSDAEUNet_forward x m).1
  = Raise (Exn ValueError "Expected more than 1 value per channel when training").
Proof.
  intros Hok Hx HH HW.
  pose proof (forward_single_value_ends x ic oc bc H W Hx HH HW m Hok) as Hend.
  destruct (ColorizationSDAEUNet_forward x m) as [[y|e] m']; [contradiction|].
  simpl. rewrite Hend. reflexivity.
Qed.

(** X3. In evaluation mode a forward pass never writes to the model,
    whether it returns or raises. *)
Theorem forward_eval_never_writes (m : @ColorizationSDAEUNet D) (x : Tensor D)
    (ic oc bc : Z) :
  Net_ok ic oc bc false m -> (ColorizationSDAEUNet_forward x m).2 = m.
Proof. apply forward_eval_readonly. Qed.

Lemma forward_all_same_parameters (xs : list (Tensor D)) (m : @ColorizationSDAEUNet D) :
  same_parameters m (forward_all xs m).
Proof.
  revert m. induction xs as [|x xs IH]; intros m; [apply same_parameters_refl|].
  cbn [forward_all fold_left]. eapply same_parameters_trans; [apply forward_stays|].
  apply IH.
Qed.

(** X4. The outcome of a forward pass does not depend on the passes made
    before it: after any series of earlier calls, in either mode, the call
    returns the tensor, or raises the exception, it would have on the
    model as it was. *)
Theorem forward_independent_of_history (xs : list (Tensor D)) (x : Tensor D)
    (m : @ColorizationSDAEUNet D) :
  (ColorizationSDAEUNet_forward x (forward_all xs m)).1
  = (ColorizationSDAEUNet_forward x m).1.
Proof. symmetry. apply forward_respects, forward_all_same_parameters. Qed.

(** X5. A [ConvBlock(in_ch, out_ch)] keeps the batch and spatial sizes of
    its input and returns [out_ch] channels (in training mode the input
    must hold more than one value per channel). *)
Theorem ConvBlock_forward_shape (cb : @ConvBlock D) (x : Tensor D) (i o n h w : Z) (t : bool) :
  ConvBlock_ok i o t cb -> shape x = [n; i; h; w] -> 1 <= n -> 1 <= h -> 1 <= w ->
  (t = true -> n * h * w <> 1) ->
  exists y cb', ConvBlock_forward x cb = (Ok y, cb') /\ shape y = [n; o; h; w].
Proof.
  intros Hok Hx _ Hh Hw Hbatch.
  destruct (ConvBlock_forward_spec x i o n h w t Hx Hh Hw Hbatch cb Hok)
    as (y & cb' & E & Hy & _).
  exists y, cb'. split; assumption.
Qed.

(** X6. A [ConvBlock(in_ch, out_ch)] given another number of channels than
    [in_ch] raises in its first convolution, before any buffer is
    written. *)
Theorem ConvBlock_forward_wrong_channels (cb : @ConvBlock D) (x : Tensor D)
    (i o n c h w : Z) (t : bool) :
  ConvBlock_ok i o t cb -> shape x = [n; c; h; w] ->
  1 <= n -> 1 <= h -> 1 <= w -> c <> i ->
  ConvBlock_forward x cb
  = (Raise (Exn RuntimeError "expected input to have in_channels channels"), cb).
Proof.
  intros ((Hi & _) & _) Hx _ _ _ Hne. unfold ConvBlock_forward.
  apply bind_read_raise. unfold Conv2d_forward. rewrite Hx, Hi. zbool. reflexivity.
Qed.


End Rejections.

(** ** The endpoint and the loading block, on every input *)

Section Service.

Context {D : Type} `{!Kernels D}.

(** *** What a request may touch *)

Lemma same_but_model_refl (p : @Process D) : same_but_model p p.
Proof. repeat split. Qed.

Lemma on_model_same_but_model {A} (m : M (@ColorizationSDAEUNet D) A) (p0 : @Process D) :
  preserves (same_but_model p0) (on_model m).
Proof.
  intros p (Hpl & Hso & Hse & Hgl). unfold on_model, bind, get_global.
  destruct (globals p !! "model") as [[]|]; try (repeat split; assumption).
  destruct (m m0) as [r net']. cbn [snd].
  split; [exact Hpl|]. split; [exact Hso|]. split; [exact Hse|].
  intros name Hne. cbn [globals]. rewrite lookup_insert_ne by done. apply Hgl, Hne.
Qed.

Lemma colorize_try_same_but_model (file : UploadFile) (p0 : @Process D) :
  preserves (same_but_model p0) (colorize_try file).
Proof.
  unfold colorize_try.
  repeat first
    [ apply preserves_ret | apply preserves_read | apply on_model_same_but_model
    | apply preserves_bind; [|intros ?]
    | match goal with |- preserves _ (let '(_, _) := ?x in _) => destruct x end ].
Qed.

Lemma colorize_effects (file : UploadFile) (p : @Process D) :
  pathlib (colorize file p).2 = pathlib p
  /\ stdout (colorize file p).2 = stdout p
  /\ (forall name, name <> "model" ->
        globals (colorize file p).2 !! name = globals p !! name)
  /\ (stderr (colorize file p).2 = stderr p
      \/ http_status (colorize file p).1 = 500
         /\ exists line, stderr (colorize file p).2 = (stderr p ++ [line])%list).
Proof.
  unfold colorize. destruct (content_type file) as [ct|]; [|repeat split; auto].
  destruct (String.prefix "image/" ct); cbn [negb]; [|repeat split; auto].
  pose proof (colorize_try_same_but_model file p p (same_but_model_refl p))
    as (Hpl & Hso & Hse & Hgl).
  unfold try_except. destruct (colorize_try file p) as [[r|e] q]; cbn [snd] in *.
  - repeat split; auto.
  - cbv beta iota delta [bind print_exc raise].
    cbn [fst snd pathlib globals stdout stderr http_status].
    split; [exact Hpl|]. split; [exact Hso|]. split; [exact Hgl|].
    right. split; [reflexivity|]. exists (str e). rewrite Hse. reflexivity.
Qed.

(** X8. A request never rebinds [pathlib.PosixPath], never prints to the
    standard output and rebinds no module-level name other than [model];
    it writes to the standard error only when it answers with status 500,
    and then one traceback. *)
Theorem colorize_frame (file : UploadFile) (p : @Process D) :
  pathlib (colorize file p).2 = pathlib p
  /\ stdout (colorize file p).2 = stdout p
  /\ (forall name, name <> "model" ->
        globals (colorize file p).2 !! name = globals p !! name)
  /\ (stderr (colorize file p).2 = stderr p
      \/ http_status (colorize file p).1 = 500
         /\ exists line, stderr (colorize file p).2 = (stderr p ++ [line])%list).
Proof. apply colorize_effects. Qed.

(** X9. Once the handler [colorize] is called on an upload, the status of
    its outcome is 200, 400 or 500, and it is 400 exactly when a content
    type is declared that does not start with [image/]; an upload with no
    content type at all ends in 500.  (A request that FastAPI turns down
    before calling the handler, one without the [file] field for instance,
    is no call of [colorize].) *)
Theorem colorize_status_codes (file : UploadFile) (p : @Process D) :
  (http_status (colorize file p).1 = 200 \/ http_status (colorize file p).1 = 400
   \/ http_status (colorize file p).1 = 500)
  /\ (http_status (colorize file p).1 = 400
      <-> exists ct, content_type file = Some ct /\ String.prefix "image/" ct = false)
  /\ (content_type file = None -> http_status (colorize file p).1 = 500).
Proof.
  unfold colorize. destruct (content_type file) as [ct|].
  - destruct (String.prefix "image/" ct) eqn:Hprefix; cbn [negb].
    + unfold try_except. destruct (colorize_try file p) as [[r|e] q];
        cbv beta iota delta [bind print_exc raise fst snd http_status];
        (split; [auto|]); (split; [|discriminate]);
        (split; [discriminate | intros (ct' & Hct & Hno); congruence]).
    + cbn [raise fst http_status]. split; [auto|]. split; [|discriminate].
      split; [intros _; exists ct; auto | reflexivity].
  - cbn [raise fst http_status]. split; [auto|]. split; [|reflexivity].
    split; [discriminate | intros (ct' & Hct & _); discriminate].
Qed.

(** X10. Whatever requests have been served, [pathlib], the standard
    output and every module-level name other than [model] are as the
    loading block left them. *)
Theorem requests_keep_startup_bindings (env : Env) (p : @Process D) :
  reachable env p ->
  pathlib p = pathlib (startup env boot).2
  /\ stdout p = stdout (startup env boot).2
  /\ forall name, name <> "model" ->
       globals p !! name = globals (startup env boot).2 !! name.
Proof.
  induction 1 as [|p file _ (Hpl & Hso & Hgl)]; [repeat split|].
  destruct (colorize_effects file p) as (Epl & Eso & Egl & _).
  split; [congruence|]. split; [congruence|].
  intros name Hne. rewrite (Egl name Hne). apply Hgl, Hne.
Qed.

(** *** The model across requests *)

Lemma colorize_serving_with (Q : @ColorizationSDAEUNet D -> Prop) (file : UploadFile) :
  (forall x, preserves Q (ColorizationSDAEUNet_forward x)) ->
  preserves (serving_with Q) (colorize file).
Proof.
  intros HQ. unfold colorize, colorize_try.
  repeat first
    [ apply preserves_ret | apply preserves_raise | apply preserves_read
    | apply preserves_print_exc; apply serving_globals
    | apply preserves_on_model; apply HQ
    | apply preserves_try_except; [|intros ?]
    | apply preserves_bind; [|intros ?]
    | match goal with |- preserves _ (match ?x with _ => _ end) => destruct x end ].
Qed.

Lemma reachable_serving_with (Q : @ColorizationSDAEUNet D -> Prop) (env : Env)
    (p : @Process D) :
  (forall x, preserves Q (ColorizationSDAEUNet_forward x)) ->
  serving_with Q (startup env boot).2 ->
  reachable env p -> serving_with Q p.
Proof.
  intros HQ Hstart. induction 1 as [|p file _ IH]; [exact Hstart|].
  apply colorize_serving_with; assumption.
Qed.

(** X11. Once a checkpoint has been loaded without error, the model stays
    what the loading block made it, in evaluation mode, whatever requests
    are served, answered or failed. *)
Theorem loaded_model_never_changes (env : Env) (content : list Byte.byte)
    (d : gmap string (PyObj D)) (p : @Process D) :
  files env !! MODEL_PATH = Some content ->
  torch_unpickle cls_WindowsPath content = Ok (PyDict d) ->
  state_dict_errors (state_dict_entries (ColorizationSDAEUNet_init 1 2 64))
    (resolve_checkpoint d) = None ->
  reachable env p ->
  model_of p
  = Some (ColorizationSDAEUNet_eval
            (copy_state_dict (resolve_checkpoint d) (ColorizationSDAEUNet_init 1 2 64))).
Proof.
  intros Hfile Hload Hkeys Hreach.
  set (M0 := ColorizationSDAEUNet_eval
               (copy_state_dict (resolve_checkpoint d) (ColorizationSDAEUNet_init 1 2 64))).
  assert (Hok : Net_ok 1 2 64 false M0)
    by (eapply Net_ok_eval, Net_ok_copy, Net_ok_init).
  destruct (reachable_serving_with (fun m => m = M0) env p) as (m & Hm & Em);
    [ | | exact Hreach | rewrite Hm, Em; reflexivity ].
  - intros x m Em. rewrite Em. apply (forward_eval_readonly x 1 2 64 M0 Hok).
  - exists M0. split; [|reflexivity].
    destruct (startup_dict env content d Hfile Hload) as (_ & Hmodel & _).
    rewrite Hmodel. unfold loaded_from, load_state_dict. rewrite Hkeys. reflexivity.
Qed.

Lemma same_service_refl (p : @Process D) (m : @ColorizationSDAEUNet D) :
  model_of p = Some m -> same_service p p.
Proof. intros Hm. exists m, m. auto using same_parameters_refl. Qed.

Lemma on_model_respects {A} (m : M (@ColorizationSDAEUNet D) A) :
  respects same_parameters m -> respects same_service (on_model m).
Proof.
  intros Hm p q (a & b & Ha & Hb & Hab). unfold on_model, bind, get_global.
  rewrite (model_of_Some _ _ Ha), (model_of_Some _ _ Hb).
  destruct (Hm a b Hab) as [E Hafter].
  destruct (m a) as [r1 a'], (m b) as [r2 b']. cbn [fst snd] in *.
  split; [exact E|]. exists a', b'.
  unfold model_of. cbn [globals]. rewrite !lookup_insert_eq. auto.
Qed.

Lemma colorize_try_respects (file : UploadFile) :
  respects same_service (colorize_try file).
Proof.
  unfold colorize_try.
  repeat first
    [ apply respects_ret | apply respects_read; reflexivity
    | apply on_model_respects; apply forward_respects
    | apply respects_bind; [|intros ?]
    | match goal with |- respects _ (let '(_, _) := ?x in _) => destruct x end ].
Qed.

Lemma colorize_same_answer (file : UploadFile) (p q : @Process D) :
  same_service p q -> (colorize file p).1 = (colorize file q).1.
Proof.
  intros Hpq. unfold colorize. destruct (content_type file) as [ct|]; [|reflexivity].
  destruct (String.prefix "image/" ct); cbn [negb]; [|reflexivity].
  destruct (colorize_try_respects file p q Hpq) as [E _]. unfold try_except.
  destruct (colorize_try file p) as [[r1|e1] p'], (colorize_try file q) as [[r2|e2] q'];
    cbn [fst] in E; try discriminate E; inversion E; reflexivity.
Qed.

(** X12. The answer to an upload does not depend on the requests served
    before it: in every state the process goes through, in either mode of
    the model, it is the answer the same upload would have got as the
    first request. *)
Theorem answer_independent_of_history (env : Env) (p : @Process D) (file : UploadFile) :
  reachable env p ->
  (colorize file p).1 = (colorize file (startup env boot).2).1.
Proof.
  intros Hreach. symmetry. apply colorize_same_answer.
  destruct (startup_serving env) as (m0 & Hm0 & _).
  destruct (reachable_serving_with (same_parameters m0) env p) as (m & Hm & Hsame);
    [ | | exact Hreach | exists m0, m; auto ].
  - intros x m Hm. eapply same_parameters_trans; [exact Hm | apply forward_stays].
  - exists m0. split; [exact Hm0 | apply same_parameters_refl].
Qed.


End Service.


(** ** The loading block, on every machine *)

Section Loading.

Context {D : Type} `{!Kernels D}.

Lemma silent_set_global (so se : list string) (name : string) (v : @PyVal D) :
  preserves (fun p => stdout p = so /\ stderr p = se) (set_global name v).
Proof. intros p Hp. exact Hp. Qed.

Lemma silent_set_PosixPath (so se : list string) (c : PathClass) :
  preserves (fun p : @Process D => stdout p = so /\ stderr p = se) (set_PosixPath c).
Proof. intros p Hp. exact Hp. Qed.

Lemma silent_on_model {A} (so se : list string) (m : M (@ColorizationSDAEUNet D) A) :
  preserves (fun p => stdout p = so /\ stderr p = se) (on_model m).
Proof.
  intros p Hp. unfold on_model, bind, get_global.
  destruct (globals p !! "model") as [[]|]; try exact Hp.
  destruct (m m0) as [r net']. exact Hp.
Qed.

Ltac silent :=
  repeat first
    [ apply preserves_ret | apply preserves_raise | apply preserves_read
    | apply silent_set_global | apply silent_set_PosixPath | apply preserves_get_global
    | apply silent_on_model
    | apply preserves_bind; [|intros ?]
    | match goal with |- preserves _ (match ?x with _ => _ end) => destruct x end ].

(** The body of the [try] calls [print] once, as its last statement. *)
Lemma load_model_try_ends (env : Env) :
  ends (fun p : @Process D => stdout p = [] /\ stderr p = []) (load_model_try env)
    (fun _ p => (exists line, stdout p = [line]) /\ stderr p = [])
    (fun _ p => stdout p = [] /\ stderr p = []).
Proof.
  unfold load_model_try, torch_load.
  repeat (apply ends_after; [silent | intros; assumption | intros ?]).
  intros p [Hso Hse]. cbn [print stdout stderr]. rewrite Hso. eauto.
Qed.

Lemma load_model_except_ends (e : PyExn) :
  ends (fun p : @Process D => stdout p = [] /\ stderr p = []) (load_model_except e)
    (fun _ p => (exists line, stdout p = [line]) /\ stderr p = [])
    (fun _ _ => False).
Proof.
  intros p [Hso Hse]. unfold load_model_except.
  destruct e as [[] msg | status detail]; cbn [print stdout stderr]; rewrite Hso; eauto.
Qed.

(** X13. The loading block lets no exception derived from [Exception]
    escape, whatever the load raises and at whichever statement: the
    module body runs to its end, [print] has been called exactly once,
    success or failure (with a message that may span several lines), and
    [traceback.print_exc] not at all. *)
Theorem startup_never_raises (env : Env) :
  (startup env (@boot D)).1 = Ok tt
  /\ (exists message, stdout (startup env (@boot D)).2 = [message])
  /\ stderr (startup env (@boot D)).2 = [].
Proof.
  unfold startup. rewrite !bind_set_global.
  match goal with
  | |- context [bind (try_except ?b ?h) ?k ?p] =>
      pose proof (ends_try_except _ b h _ _ _ (load_model_try_ends env)
                    load_model_except_ends p (conj eq_refl eq_refl)) as Hends;
      unfold bind; destruct (try_except b h p) as [[[]|e] q]; [|contradiction]
  end.
  destruct Hends as [Hso Hse]. cbn [set_global fst snd stdout stderr]. auto.
Qed.

(** X14. A checkpoint whose state dict [load_state_dict] rejects does not
    stop the start-up, but [model.eval()] is skipped: the model is left
    with whatever [load_state_dict] copied before raising, and in training
    mode. *)
Theorem rejected_state_dict_leaves_training_mode (env : Env) (content : list Byte.byte)
    (d : gmap string (PyObj D)) (e : PyExn) :
  files env !! MODEL_PATH = Some content ->
  torch_unpickle cls_WindowsPath content = Ok (PyDict d) ->
  state_dict_errors (state_dict_entries (ColorizationSDAEUNet_init 1 2 64))
    (resolve_checkpoint d) = Some e ->
  (startup env boot).1 = Ok tt
  /\ model_of (startup env boot).2
     = Some (copy_state_dict (resolve_checkpoint d) (ColorizationSDAEUNet_init 1 2 64))
  /\ Net_ok 1 2 64 true
       (copy_state_dict (resolve_checkpoint d) (ColorizationSDAEUNet_init 1 2 64)).
Proof.
  intros Hfile Hload Hkeys.
  destruct (startup_dict env content d Hfile Hload) as (Hret & Hmodel & _).
  split; [exact Hret|]. split; [|apply Net_ok_copy, Net_ok_init].
  rewrite Hmodel. unfold loaded_from, load_state_dict. rewrite Hkeys. reflexivity.
Qed.

(** X15. A checkpoint file that does not unpickle, or that unpickles to
    an object on which the first test ["model_state" in checkpoint] itself
    raises (a pickled module, which is not iterable), does not stop the
    start-up either: the exception is caught before [load_state_dict] is
    reached and the model keeps the parameters its constructor drew. *)
Theorem unusable_checkpoint_keeps_random_weights (env : Env) (content : list Byte.byte) :
  files env !! MODEL_PATH = Some content ->
  ((exists e, torch_unpickle cls_WindowsPath content = Raise e)
   \/ (exists obj e, torch_unpickle cls_WindowsPath content = Ok obj
                     /\ contains "model_state" obj = Raise e)) ->
  (startup env boot).1 = Ok tt
  /\ model_of (startup env boot).2 = Some (ColorizationSDAEUNet_init 1 2 64).
Proof.
  intros Hfile [(e & Hload) | (obj & e & Hload & Hin)]; unfold model_of;
    run; rewrite Hfile; run; rewrite Hload; run.
  - destruct e as [[] msg | status detail]; run; lookup_global; split; reflexivity.
  - lookup_global. run. rewrite Hin.
    destruct e as [[] msg | status detail]; run; lookup_global; split; reflexivity.
Qed.

End Loading.

(** ** The two helpers of a request *)

Section Helpers.

Context {D : Type} `{!Kernels D}.

(** X16. Every image that decodes and converts to RGB, of whatever size,
    is preprocessed to a luminance tensor of shape [(1, 1, 256, 256)],
    returned with the size the image had. *)
Theorem preprocess_image_shape (image_bytes : list Byte.byte) (img : PILImage D) :
  Image_open image_bytes = Ok img -> convert_error img "RGB" = None ->
  1 <= (im_size img).1 -> 1 <= (im_size img).2 ->
  exists L_tensor,
    preprocess_image image_bytes = Ok (L_tensor, im_size img)
    /\ shape L_tensor = [1; 1; IMAGE_SIZE; IMAGE_SIZE].
Proof. intros Hopen Hconv _ _. exact (preprocess_image_spec image_bytes img Hopen Hconv). Qed.

(** X17. [preprocess_image] fails on no other ground than these two: the
    bytes do not decode, or the decoded image does not convert to RGB; the
    exception it raises is the one of that call.  (A decoded image has at
    least one pixel a side.) *)
Theorem preprocess_image_fails_only_on_bad_image (image_bytes : list Byte.byte)
    (e : PyExn) :
  (forall img : PILImage D, Image_open image_bytes = Ok img ->
     1 <= (im_size img).1 /\ 1 <= (im_size img).2) ->
  preprocess_image (D := D) image_bytes = Raise e ->
  Image_open (D := D) image_bytes = Raise e
  \/ exists img, Image_open image_bytes = Ok img /\ Image_convert img "RGB" = Raise e.
Proof.
  intros _ Hfail. unfold Image_open.
  destruct (pil_decode image_bytes) as [img|e'] eqn:Hopen.
  - right. exists img. split; [reflexivity|]. unfold Image_convert.
    destruct (convert_error img "RGB") as [e'|] eqn:Hconv.
    + unfold preprocess_image, Image_open, Image_convert in Hfail.
      rewrite Hopen in Hfail. cbn [bindR] in Hfail. rewrite Hconv in Hfail. cbn [bindR] in Hfail.
      congruence.
    + destruct (preprocess_image_spec image_bytes img Hopen Hconv) as (L & E & _).
      rewrite E in Hfail. discriminate Hfail.
  - left. unfold preprocess_image, Image_open in Hfail. rewrite Hopen in Hfail.
    cbn [bindR] in Hfail. congruence.
Qed.

(** X18. A request whose upload fails in preprocessing is answered without
    the network being called: the exception becomes status 500 and the
    global namespace, the model with it, is left as it was. *)
Theorem failed_preprocessing_leaves_model (p : @Process D) (file : UploadFile)
    (ct : string) (e : PyExn) :
  content_type file = Some ct -> String.prefix "image/" ct = true ->
  preprocess_image (file_read file) = Raise e ->
  (colorize file p).1 = Raise (HTTPException 500 (str e))
  /\ globals (colorize file p).2 = globals p
  /\ pathlib (colorize file p).2 = pathlib p
  /\ stdout (colorize file p).2 = stdout p.
Proof.
  intros Hct Hprefix Epre. destruct p as [pl gl so se].
  cbv beta iota zeta delta
    [colorize colorize_try try_except bind ret raise read print_exc negb].
  rewrite Hct, Hprefix. cbv beta iota. rewrite Epre. repeat split.
Qed.

(** X19. [lab_denormalize] turns a luminance batch [(N, 1, h, w)] and a
    chrominance batch [(N, 2, h, w)], [N] at least 1, into an RGB batch
    [(N, h, w, 3)], channels last. *)
Theorem lab_denormalize_shape (L ab : Tensor D) (n h w : Z) :
  shape L = [n; 1; h; w] -> shape ab = [n; 2; h; w] ->
  1 <= n -> 1 <= h -> 1 <= w ->
  exists rgbs, lab_denormalize L ab = Ok rgbs /\ shape rgbs = [n; h; w; 3].
Proof. apply lab_denormalize_spec. Qed.

(** X20. On an empty batch [lab_denormalize] raises: its loop appends
    nothing and [np.stack] refuses an empty list. *)
Theorem lab_denormalize_empty_batch (L ab : Tensor D) (c1 c2 h w : Z) :
  shape L = [0; c1; h; w] -> shape ab = [0; c2; h; w] ->
  lab_denormalize L ab = Raise (Exn ValueError "need at least one array to stack").
Proof.
  intros HL Hab. unfold lab_denormalize, cat_dim1. cbn [np_map shape].
  rewrite HL, Hab. rewrite decide_True by (split; reflexivity). reflexivity.
Qed.

(** X21. When the two batches disagree on the batch size or on the spatial
    size, [lab_denormalize] raises the [ValueError] of [np.concatenate]. *)
Theorem lab_denormalize_mismatch (L ab : Tensor D) (n c1 h w n' c2 h' w' : Z) :
  shape L = [n; c1; h; w] -> shape ab = [n'; c2; h'; w'] ->
  n <> n' \/ h <> h' \/ w <> w' ->
  exists msg, lab_denormalize L ab = Raise (Exn ValueError msg).
Proof.
  intros HL Hab Hne. unfold lab_denormalize, cat_dim1. cbn [np_map shape].
  rewrite HL, Hab. rewrite decide_False; [eexists; reflexivity|].
  intros [En Er]. inversion Er. lia.
Qed.

End Helpers.

(** ** Value ranges *)

Lemma clip01_range (v : Q) : (0 <= clip01 v <= 1)%Q.
Proof.
  unfold clip01. split; [apply Q.le_max_l|].
  apply Q.max_lub; [unfold Qle; simpl; lia | apply Q.le_min_r].
Qed.

(** X22. A channel value clipped by [lab_denormalize] and scaled by 255 in
    [colorize] lies in [[0, 255]]: the conversion to [uint8] cannot wrap
    around. *)
Theorem clipped_value_fits_uint8 (v : Q) : (0 <= mul255 (clip01 v) <= 255)%Q.
Proof.
  destruct (clip01_range v) as [Hlo Hhi]. unfold mul255.
  destruct (clip01 v) as [a b]. unfold Qle, Qmult in *. simpl in *. split; lia.
Qed.

(** X23. The luminance normalisation of [preprocess_image] takes OpenCV's
    range [[0, 100]] into [[-1, 1]], and the denormalisation of
    [lab_denormalize] takes [[-1, 1]] back into [[0, 100]] for the
    luminance and into [[-128, 128]] for the chrominance. *)
Theorem normalisation_ranges (L v : Q) :
  (0 <= L <= 100)%Q -> (-1 <= v <= 1)%Q ->
  (-1 <= L_norm L <= 1)%Q
  /\ (0 <= L_denorm v <= 100)%Q /\ (-128 <= ab_denorm v <= 128)%Q.
Proof.
  unfold L_norm, L_denorm, ab_denorm, Qle, Qdiv, Qminus, Qplus, Qmult, Qopp, Qinv.
  destruct L as [c d], v as [a b]. simpl. intros [Hlo Hhi] [Hlo' Hhi'].
  repeat split; lia.
Qed.

(** ** Concrete runs of the further properties *)

Lemma forward_rejects_small_input_witness :
  ColorizationSDAEUNet_forward (sym_tensor [1; 1; 24; 8])
    (ColorizationSDAEUNet_eval (ColorizationSDAEUNet_init 1 2 64))
  = (Raise (Exn RuntimeError "Output size is too small"),
     ColorizationSDAEUNet_eval (ColorizationSDAEUNet_init 1 2 64)).
Proof.
  apply (forward_rejects_small_input _ (sym_tensor [1; 1; 24; 8]) 1 2 64 1 24 8);
    [ apply Net_ok_eval_init | reflexivity | lia | lia | lia | right; lia ].
Defined.

Lemma forward_training_rejects_single_value_witness :
  (ColorizationSDAEUNet_forward (sym_tensor [1; 1; 16; 31])
     (ColorizationSDAEUNet_init 1 2 64)).1
  = Raise (Exn ValueError "Expected more than 1 value per channel when training").
Proof.
  apply (forward_training_rejects_single_value _ (sym_tensor [1; 1; 16; 31]) 1 2 64 16 31);
    [ apply Net_ok_init | reflexivity | lia | lia ].
Defined.

Lemma forward_eval_never_writes_witness :
  (ColorizationSDAEUNet_forward (sym_tensor [1; 1; 8; 8])
     (ColorizationSDAEUNet_eval (ColorizationSDAEUNet_init 1 2 64))).2
  = ColorizationSDAEUNet_eval (ColorizationSDAEUNet_init 1 2 64).
Proof.
  apply (forward_eval_never_writes _ (sym_tensor [1; 1; 8; 8]) 1 2 64).
  apply Net_ok_eval_init.
Defined.

Lemma ConvBlock_forward_shape_witness :
  exists y cb',
    ConvBlock_forward (sym_tensor [2; 1; 5; 7]) (ConvBlock_init 1 64) = (Ok y, cb')
    /\ shape y = [2; 64; 5; 7].
Proof.
  apply (ConvBlock_forward_shape (ConvBlock_init 1 64) (sym_tensor [2; 1; 5; 7])
           1 64 2 5 7 true);
    [ apply ConvBlock_ok_init | reflexivity | lia | lia | lia | intros _; lia ].
Defined.

Lemma ConvBlock_forward_wrong_channels_witness :
  ConvBlock_forward (sym_tensor [1; 1; 4; 4]) (ConvBlock_init 3 64)
  = (Raise (Exn RuntimeError "expected input to have in_channels channels"),
     ConvBlock_init 3 64).
Proof.
  apply (ConvBlock_forward_wrong_channels (ConvBlock_init 3 64) (sym_tensor [1; 1; 4; 4])
           3 64 1 1 4 4 true);
    [ apply ConvBlock_ok_init | reflexivity | lia | lia | lia | lia ].
Defined.


Lemma requests_keep_startup_bindings_witness :
  pathlib (colorize (upload 3 5) (startup no_checkpoint (@boot Sym)).2).2
  = pathlib (startup no_checkpoint (@boot Sym)).2
  /\ stdout (colorize (upload 3 5) (startup no_checkpoint (@boot Sym)).2).2
     = stdout (startup no_checkpoint (@boot Sym)).2
  /\ forall name, name <> "model" ->
       globals (colorize (upload 3 5) (startup no_checkpoint (@boot Sym)).2).2 !! name
       = globals (startup no_checkpoint (@boot Sym)).2 !! name.
Proof.
  apply (requests_keep_startup_bindings no_checkpoint).
  apply reachable_request, reachable_startup.
Defined.

Lemma loaded_model_never_changes_witness :
  model_of (colorize (upload 3 5) (startup (with_checkpoint Byte.x02) (@boot Sym)).2).2
  = Some (ColorizationSDAEUNet_eval
            (copy_state_dict
               (resolve_checkpoint {[ "model_state_dict" := sym_state_dict ]})
               (ColorizationSDAEUNet_init 1 2 64))).
Proof.
  apply (loaded_model_never_changes (with_checkpoint Byte.x02) [Byte.x02]
           ({[ "model_state_dict" := sym_state_dict ]} : gmap string (PyObj Sym)));
    [ reflexivity | reflexivity | reflexivity
    | apply reachable_request, reachable_startup ].
Defined.

Lemma answer_independent_of_history_witness :
  (colorize (upload 640 480)
     (colorize (upload 3 5) (startup no_checkpoint (@boot Sym)).2).2).1
  = (colorize (upload 640 480) (startup no_checkpoint (@boot Sym)).2).1.
Proof.
  apply (answer_independent_of_history no_checkpoint).
  apply reachable_request, reachable_startup.
Defined.

Lemma rejected_state_dict_leaves_training_mode_witness :
  (@startup Sym symbolic_strict (with_checkpoint Byte.x01) boot).1 = Ok tt
  /\ model_of (@startup Sym symbolic_strict (with_checkpoint Byte.x01) boot).2
     = Some (@copy_state_dict Sym symbolic_strict
               (resolve_checkpoint {[ "model_state" := sym_state_dict; "epoch" := PyLong 7 ]})
               (@ColorizationSDAEUNet_init Sym symbolic_strict 1 2 64))
  /\ Net_ok 1 2 64 true
       (@copy_state_dict Sym symbolic_strict
          (resolve_checkpoint {[ "model_state" := sym_state_dict; "epoch" := PyLong 7 ]})
          (@ColorizationSDAEUNet_init Sym symbolic_strict 1 2 64)).
Proof.
  apply (@rejected_state_dict_leaves_training_mode Sym symbolic_strict
           (with_checkpoint Byte.x01) [Byte.x01]
           ({[ "model_state" := sym_state_dict; "epoch" := PyLong 7 ]}
              : gmap string (PyObj Sym))
           (Exn RuntimeError "Error(s) in loading state_dict: Missing key(s)"));
    reflexivity.
Defined.

Lemma unusable_checkpoint_keeps_random_weights_witness :
  (startup (with_checkpoint Byte.x05) (@boot Sym)).1 = Ok tt
  /\ model_of (startup (with_checkpoint Byte.x05) (@boot Sym)).2
     = Some (ColorizationSDAEUNet_init 1 2 64).
Proof.
  apply (unusable_checkpoint_keeps_random_weights (with_checkpoint Byte.x05) [Byte.x05]);
    [ reflexivity
    | right;
      exists (PyOpaque "ColorizationSDAEUNet(...)"),
             (Exn TypeError "argument of type 'ColorizationSDAEUNet' is not iterable") ].
  split; reflexivity.
Defined.

Lemma preprocess_image_shape_witness :
  exists L_tensor : Tensor Sym,
    preprocess_image (file_read (upload 3 5)) = Ok (L_tensor, (3, 5))
    /\ shape L_tensor = [1; 1; IMAGE_SIZE; IMAGE_SIZE].
Proof.
  apply (preprocess_image_shape (file_read (upload 3 5))
           (mkImage (3, 5) "L" (Leaf "pixels" [])));
    [ reflexivity | reflexivity | simpl; lia | simpl; lia ].
Defined.

Lemma preprocess_image_fails_only_on_bad_image_witness :
  Image_open (D := Sym) [] = Raise (Exn UnidentifiedImageError "cannot identify image file")
  \/ exists img : PILImage Sym,
       Image_open [] = Ok img
       /\ Image_convert img "RGB"
          = Raise (Exn UnidentifiedImageError "cannot identify image file").
Proof.
  apply (preprocess_image_fails_only_on_bad_image []
           (Exn UnidentifiedImageError "cannot identify image file"));
    [ intros img Hopen; discriminate Hopen | reflexivity ].
Defined.

Lemma failed_preprocessing_leaves_model_witness :
  (colorize {| content_type := Some "image/jpeg"; file_read := [Byte.x01; Byte.x01] |}
     (startup no_checkpoint (@boot Sym)).2).1
  = Raise (HTTPException 500 "cannot identify image file")
  /\ globals
       (colorize {| content_type := Some "image/jpeg"; file_read := [Byte.x01; Byte.x01] |}
          (startup no_checkpoint (@boot Sym)).2).2
     = globals (startup no_checkpoint (@boot Sym)).2
  /\ pathlib
       (colorize {| content_type := Some "image/jpeg"; file_read := [Byte.x01; Byte.x01] |}
          (startup no_checkpoint (@boot Sym)).2).2
     = pathlib (startup no_checkpoint (@boot Sym)).2
  /\ stdout
       (colorize {| content_type := Some "image/jpeg"; file_read := [Byte.x01; Byte.x01] |}
          (startup no_checkpoint (@boot Sym)).2).2
     = stdout (startup no_checkpoint (@boot Sym)).2.
Proof.
  apply (failed_preprocessing_leaves_model (startup no_checkpoint (@boot Sym)).2
           {| content_type := Some "image/jpeg"; file_read := [Byte.x01; Byte.x01] |}
           "image/jpeg" (Exn UnidentifiedImageError "cannot identify image file"));
    reflexivity.
Defined.

Lemma lab_denormalize_shape_witness :
  exists rgbs,
    lab_denormalize (sym_tensor [2; 1; 4; 6]) (sym_tensor [2; 2; 4; 6]) = Ok rgbs
    /\ shape rgbs = [2; 4; 6; 3].
Proof.
  apply (lab_denormalize_shape (sym_tensor [2; 1; 4; 6]) (sym_tensor [2; 2; 4; 6]) 2 4 6);
    [ reflexivity | reflexivity | lia | lia | lia ].
Defined.

Lemma lab_denormalize_empty_batch_witness :
  lab_denormalize (sym_tensor [0; 1; 4; 6]) (sym_tensor [0; 2; 4; 6])
  = Raise (Exn ValueError "need at least one array to stack").
Proof.
  apply (lab_denormalize_empty_batch (sym_tensor [0; 1; 4; 6]) (sym_tensor [0; 2; 4; 6])
           1 2 4 6); reflexivity.
Defined.

Lemma lab_denormalize_mismatch_witness :
  exists msg,
    lab_denormalize (sym_tensor [1; 1; 4; 6]) (sym_tensor [1; 2; 4; 7])
    = Raise (Exn ValueError msg).
Proof.
  apply (lab_denormalize_mismatch (sym_tensor [1; 1; 4; 6]) (sym_tensor [1; 2; 4; 7])
           1 1 4 6 1 2 4 7); [ reflexivity | reflexivity | right; right; lia ].
Defined.

Lemma normalisation_ranges_witness :
  (-1 <= L_norm (75 # 2) <= 1)%Q
  /\ (0 <= L_denorm (-1 # 4) <= 100)%Q /\ (-128 <= ab_denorm (-1 # 4) <= 128)%Q.
Proof.
  apply (normalisation_ranges (75 # 2) (-1 # 4)); split; unfold Qle; simpl; lia.
Defined.
